(** * Detections consensus: a shallow embedding of the fusion step

    The development follows
    [inference/enterprise/workflows/core_steps/fusion/detections_consensus.py],
    the implementation that works on plain dictionaries.  Detections are
    records, Python numbers are rationals (and binary64 floats where
    rounding or overflow decide a result), Python dictionaries are
    insertion-ordered association lists, the set of detections already
    considered is a [gset string], and every Python exception that a
    function of the module can raise is a constructor of [exn]. *)

From Stdlib Require Import ZArith QArith Qround Qminmax Qabs Qpower Lqa String.
From stdpp Require Import base gmap strings list pretty.

Close Scope Q_scope.
Open Scope string_scope.
Open Scope list_scope.
Open Scope nat_scope.
Open Scope stdpp_scope.

(** ** Exceptions *)

Inductive exn : Type :=
  | ExecutionGraphError
  | IndexError
  | KeyError
  | ValueError
  | StatisticsError
  | ZeroDivisionError
  | OverflowError.

Inductive result (A : Type) : Type :=
  | Ok (a : A)
  | Raise (e : exn).
Arguments Ok {A} a.
Arguments Raise {A} e.

Definition bind {A B : Type} (c : result A) (k : A → result B) : result B :=
  match c with
  | Ok a => k a
  | Raise e => Raise e
  end.

Notation "'do' x <- c ; k" := (bind c (λ x, k))
  (at level 10, x pattern, c at level 100, k at level 200).

(** A [for] loop whose body may raise. *)
Fixpoint for_each {A S : Type} (body : S → A → result S) (l : list A) (s : S)
  : result S :=
  match l with
  | [] => Ok s
  | a :: l' => do s' <- body s a; for_each body l' s'
  end.

(** ** Python dictionaries, in insertion order *)

Module PyDict.
Section Dict.
Context {K V : Type} `{EqDecision K}.

(** [m.get(k)] *)
Fixpoint get (m : list (K * V)) (k : K) : option V :=
  match m with
  | [] => None
  | (k', v) :: m' => if decide (k' = k) then Some v else get m' k
  end.

(** [m[k] = v]: an existing key keeps its position, a new key goes last. *)
Fixpoint set (m : list (K * V)) (k : K) (v : V) : list (K * V) :=
  match m with
  | [] => [(k, v)]
  | (k', v') :: m' =>
      if decide (k' = k) then (k, v) :: m' else (k', v') :: set m' k v
  end.

Definition keys (m : list (K * V)) : list K := m.*1.
Definition values (m : list (K * V)) : list V := m.*2.
End Dict.
End PyDict.

(** ** Numbers *)

Definition Qltb (a b : Q) : bool :=
  match (a ?= b)%Q with Lt => true | _ => false end.

(** [max(a, b)] and [min(a, b)] on two positional arguments: the first
    argument is kept unless the second is strictly beyond it. *)
Definition py_max2 (a b : Q) : Q := if Qltb a b then b else a.
Definition py_min2 (a b : Q) : Q := if Qltb b a then b else a.

(** [a / b] *)
Definition py_truediv (a b : Q) : result Q :=
  if Qeq_bool b 0 then Raise ZeroDivisionError else Ok (a / b)%Q.

(** [round(q)]: to the nearest integer, halves to the even neighbour. *)
Definition py_round (q : Q) : Z :=
  let f := Qfloor q in
  match (q - inject_Z f ?= 1 # 2)%Q with
  | Lt => f
  | Gt => (f + 1)%Z
  | Eq => if Z.even f then f else (f + 1)%Z
  end.

(** ** Data model *)

Inductive AggregationMode : Type := AVERAGE | MAX | MIN.

Record Detection : Type := mkDetection {
  det_parent_id : string;
  det_detection_id : string;
  det_class : string;
  det_class_id : Z;
  det_confidence : Q;
  det_x : Q;
  det_y : Q;
  det_width : Q;
  det_height : Q;
}.

(** The numeric keys read through [d[field]]. *)
Inductive Field : Type := F_confidence | F_x | F_y | F_width | F_height.

Definition get_field (f : Field) (d : Detection) : Q :=
  match f with
  | F_confidence => det_confidence d
  | F_x => det_x d
  | F_y => det_y d
  | F_width => det_width d
  | F_height => det_height d
  end.

(** [required_objects] after [None] has been told apart. *)
Inductive RequiredObjects : Type :=
  | RequiredInt (n : Z)
  | RequiredDict (m : list (string * Z)).

(** ** Sample data *)

(** Modelled from the spec: [detection_to_xyxy] lives in
    [core_steps.common.utils], outside this module; section 3 of the
    specification gives the box as (center_x, center_y, width, height),
    interconvertible with (x_min, y_min, x_max, y_max). *)
Definition center_to_xyxy (d : Detection) : Q * Q * Q * Q :=
  (det_x d - det_width d / 2, det_y d - det_height d / 2,
   det_x d + det_width d / 2, det_y d + det_height d / 2)%Q.

(** Identifiers for merged detections, one per draw. *)
Definition numbered_uuid4 (n : nat) : string := "merged-" +:+ pretty n.

Definition cat_a : Detection :=
  mkDetection "img" "a" "cat" 0 (9 # 10) 5 5 10 10.
Definition cat_b : Detection :=
  mkDetection "img" "b" "cat" 0 (8 # 10) 5 5 8 8.
Definition cat_b2 : Detection :=
  mkDetection "img" "b2" "cat" 0 (7 # 10) 5 5 8 8.
Definition dog_c : Detection :=
  mkDetection "img" "c" "dog" 1 (6 # 10) 5 5 10 10.
Definition cat_other_image : Detection :=
  mkDetection "other" "o" "cat" 0 (8 # 10) 5 5 8 8.
Definition faint_cat : Detection :=
  mkDetection "img" "f" "cat" 0 (1 # 10) 5 5 10 10.
Definition wide_a : Detection :=
  mkDetection "img" "wa" "cat" 0 (6 # 10) 5 5 10 10.
Definition left_b : Detection :=
  mkDetection "img" "lb" "cat" 0 (9 # 10) 3 5 6 10.
Definition right_c : Detection :=
  mkDetection "img" "rc" "cat" 0 (1 # 10) 8 5 4 10.
Definition point_p : Detection :=
  mkDetection "img" "p" "cat" 0 (5 # 10) 3 3 0 0.
Definition box_at_0 : Detection :=
  mkDetection "img" "z" "cat" 0 (5 # 10) 0 0 2 2.
Definition box_at_1 : Detection :=
  mkDetection "img" "w" "cat" 0 (5 # 10) 1 1 4 4.

(** ** Static crops

    [steps/transformations/relative_static_crop.py]: the window of
    [take_static_crop] and the slice it cuts out of the image. *)

Module StaticCrop.

(** A decoded image with [image.shape[0]] rows and [image.shape[1]]
    columns; [pixel] is read inside the shape only. *)
Record Image (A : Type) : Type := mkImage {
  shape0 : nat;
  shape1 : nat;
  pixel : nat → nat → A;
}.
Arguments mkImage {A} _ _ _.
Arguments shape0 {A} _.
Arguments shape1 {A} _.
Arguments pixel {A} _ _ _.

(** Where a bound of the slice [a[start:stop]] falls on an axis of length
    [len]: a negative bound counts from the end, and both are clipped. *)
Definition slice_bound (i : Z) (len : nat) : nat :=
  if (i <? 0)%Z then Z.to_nat (Z.max (i + Z.of_nat len) 0)
  else Z.to_nat (Z.min i (Z.of_nat len)).

(** [image[y_min:y_max, x_min:x_max]] *)
Definition slice2 {A : Type} (image : Image A) (y_min y_max x_min x_max : Z)
    : Image A :=
  let r0 := slice_bound y_min (shape0 image) in
  let r1 := slice_bound y_max (shape0 image) in
  let c0 := slice_bound x_min (shape1 image) in
  let c1 := slice_bound x_max (shape1 image) in
  {| shape0 := r1 - r0;
     shape1 := c1 - c0;
     pixel := λ r c, pixel image (r0 + r) (c0 + c) |}.

Record OriginCoordinates (S : Type) : Type := mkOrigin {
  center_x : Z;
  center_y : Z;
  origin_size : S;
}.
Arguments mkOrigin {S} _ _ _.
Arguments center_x {S} _.
Arguments center_y {S} _.
Arguments origin_size {S} _.

Record Crop (A S : Type) : Type := mkCrop {
  crop_type : string;
  crop_value : Image A;
  crop_parent_id : string;
  crop_origin_coordinates : OriginCoordinates S;
}.
Arguments mkCrop {A S} _ _ _ _.
Arguments crop_type {A S} _.
Arguments crop_value {A S} _.
Arguments crop_parent_id {A S} _.
Arguments crop_origin_coordinates {A S} _.

(** The window in pixels: (x_center, y_center, width, height, x_min, y_min,
    x_max, y_max) as [take_static_crop] computes them. *)
Definition crop_window (shape_0 shape_1 : nat)
    (x_center y_center width height : Q) : Z * Z * Z * Z * Z * Z * Z * Z :=
  let x_center := py_round (inject_Z (Z.of_nat shape_1) * x_center) in
  let y_center := py_round (inject_Z (Z.of_nat shape_0) * y_center) in
  let width := py_round (inject_Z (Z.of_nat shape_1) * width) in
  let height := py_round (inject_Z (Z.of_nat shape_0) * height) in
  let x_min := py_round (inject_Z x_center - inject_Z width / 2) in
  let y_min := py_round (inject_Z y_center - inject_Z height / 2) in
  let x_max := py_round (inject_Z (x_min + width)) in
  let y_max := py_round (inject_Z (y_min + height)) in
  (x_center, y_center, width, height, x_min, y_min, x_max, y_max).

(** [numpy_object] is [ImageType.NUMPY_OBJECT.value], declared in
    [inference.core.utils.image_utils]; [fresh] is the value of [uuid4()]. *)
Definition take_static_crop {A S : Type} (numpy_object : string)
    (image : Image A) (x_center y_center width height : Q) (origin_size : S)
    (fresh : string) : Crop A S :=
  let '(x_center, y_center, width, height, x_min, y_min, x_max, y_max) :=
    crop_window (shape0 image) (shape1 image) x_center y_center width height in
  let cropped_image := slice2 image y_min y_max x_min x_max in
  {| crop_type := numpy_object;
     crop_value := cropped_image;
     crop_parent_id := "relative_static_crop." +:+ fresh;
     crop_origin_coordinates :=
       {| center_x := x_center; center_y := y_center;
          origin_size := origin_size |} |}.

(** A 10 by 8 sample image whose pixels record their own position. *)
Definition sample_image : Image (nat * nat) := mkImage 8 10 pair.
End StaticCrop.

(** ** The batch-size check of the second implementation

    [inference/core/workflows/core_steps/fusion/detections_consensus.py]
    validates the batch sizes through a set. *)

Module CoreVariant.
Definition get_and_validate_batch_sizes {A : Type}
    (all_predictions : list (list A)) : result (list nat) :=
  let batch_sizes := length <$> all_predictions in
  if 1 <? size (list_to_set batch_sizes : gset nat) then Raise ValueError
  else Ok batch_sizes.
End CoreVariant.

(** ** Python floats

    Where a result depends on how floats round, overflow or fail to be
    numbers, the functions are embedded a second time on IEEE 754 binary64
    values, the [float] of Python: 53 bits of precision, exponents down to
    that of the subnormal numbers, round to nearest with ties to even, and
    overflow to an infinity.  A finite float is given by its value; the sign
    of a zero is not kept, since no function below looks at it (both zeros
    compare equal, and dividing by either raises). *)

Module Binary64.

Definition pow2 (e : Z) : Q := (2 ^ e)%Q.

(** The integer [l] with [2^l <= q < 2^(l+1)], for a positive [q]. *)
Definition floor_log2 (q : Q) : Z :=
  let l := (Z.log2 (Qnum q) - Z.log2 (Zpos (Qden q)))%Z in
  if Qle_bool (pow2 l) q then l else (l - 1)%Z.

(** The multiple of [2^e] nearest to a positive [q], ties to the even
    multiple, where [2^e] is the spacing of the floats around [q]. *)
Definition round_positive (q : Q) : Q :=
  let e := Z.max (floor_log2 q - 52) (-1074) in
  Qred (inject_Z (py_round (q / pow2 e)) * pow2 e).

(** The value of the float nearest to [q], before overflow is looked at. *)
Definition b64 (q : Q) : Q :=
  match Qnum q with
  | Z0 => 0
  | Zpos _ => round_positive q
  | Zneg _ => - round_positive (- q)
  end.

(** [sys.float_info.max] *)
Definition max_float : Q := (pow2 1024 - pow2 971)%Q.

Inductive float : Type :=
  | Finite (q : Q)
  | Infinity (negative : bool)
  | NaN.

(** The float that an operation with exact result [q] returns. *)
Definition of_Q (q : Q) : float :=
  let r := b64 q in
  if Qle_bool (pow2 1024) (Qabs r) then Infinity (Qltb r 0) else Finite r.

Definition fneg (a : float) : float :=
  match a with
  | Finite p => Finite (- p)
  | Infinity s => Infinity (negb s)
  | NaN => NaN
  end.

Definition fadd (a b : float) : float :=
  match a, b with
  | NaN, _ | _, NaN => NaN
  | Finite p, Finite q => of_Q (p + q)
  | Infinity s, Finite _ | Finite _, Infinity s => Infinity s
  | Infinity s, Infinity t => if Bool.eqb s t then Infinity s else NaN
  end.

Definition fsub (a b : float) : float := fadd a (fneg b).

Definition fmul (a b : float) : float :=
  match a, b with
  | NaN, _ | _, NaN => NaN
  | Finite p, Finite q => of_Q (p * q)
  | Infinity s, Finite q | Finite q, Infinity s =>
      if Qeq_bool q 0 then NaN else Infinity (xorb s (Qltb q 0))
  | Infinity s, Infinity t => Infinity (xorb s t)
  end.

(** The quotient by a divisor that is not zero. *)
Definition fdiv (a b : float) : float :=
  match a, b with
  | NaN, _ | _, NaN => NaN
  | Finite p, Finite q => of_Q (p / q)
  | Finite _, Infinity _ => Finite 0
  | Infinity s, Finite q => Infinity (xorb s (Qltb q 0))
  | Infinity _, Infinity _ => NaN
  end.

(** [a < b] and [a == b]: false as soon as one side is not a number. *)
Definition fltb (a b : float) : bool :=
  match a, b with
  | NaN, _ | _, NaN => false
  | Finite p, Finite q => Qltb p q
  | Infinity s, Finite _ => s
  | Finite _, Infinity t => negb t
  | Infinity s, Infinity t => s && negb t
  end.

Definition feqb (a b : float) : bool :=
  match a, b with
  | Finite p, Finite q => Qeq_bool p q
  | Infinity s, Infinity t => Bool.eqb s t
  | _, _ => false
  end.

(** [max(a, b)] and [min(a, b)] *)
Definition fmax2 (a b : float) : float := if fltb a b then b else a.
Definition fmin2 (a b : float) : float := if fltb b a then b else a.

(** [round(a)] *)
Definition round (a : float) : result Z :=
  match a with
  | Finite q => Ok (py_round q)
  | Infinity _ => Raise OverflowError
  | NaN => Raise ValueError
  end.

(** A Python number: an [int] of any size, or a [float]. *)
Inductive num : Type :=
  | Int (z : Z)
  | Float (f : float).

(** The value of a number as it enters a comparison: an [int] is compared
    with a float exactly, without being converted. *)
Definition value (a : num) : float :=
  match a with
  | Int z => Finite (inject_Z z)
  | Float f => f
  end.

Definition ltb (a b : num) : bool := fltb (value a) (value b).
Definition eqb (a b : num) : bool := feqb (value a) (value b).

Definition max2 (a b : num) : num := if ltb a b then b else a.
Definition min2 (a b : num) : num := if ltb b a then b else a.

(** [float(a)], also the conversion of an [int] that meets a float in an
    operation: an [int] beyond the floats raises. *)
Definition to_float (a : num) : result float :=
  match a with
  | Float f => Ok f
  | Int z =>
      match of_Q (inject_Z z) with
      | Infinity _ => Raise OverflowError
      | f => Ok f
      end
  end.

(** [a + b], [a - b] and [a * b]: exact on two [int]s, on floats
    otherwise. *)
Definition arith (on_int : Z → Z → Z) (on_float : float → float → float)
    (a b : num) : result num :=
  match a, b with
  | Int x, Int y => Ok (Int (on_int x y))
  | _, _ =>
      do fa <- to_float a;
      do fb <- to_float b;
      Ok (Float (on_float fa fb))
  end.

Definition add : num → num → result num := arith Z.add fadd.
Definition sub : num → num → result num := arith Z.sub fsub.
Definition mul : num → num → result num := arith Z.mul fmul.

(** [a / b] *)
Definition truediv (a b : num) : result float :=
  match a, b with
  | Int x, Int y =>
      if (y =? 0)%Z then Raise ZeroDivisionError
      else match of_Q (inject_Z x / inject_Z y) with
           | Infinity _ => Raise OverflowError
           | f => Ok f
           end
  | _, _ =>
      do fa <- to_float a;
      do fb <- to_float b;
      if feqb fb (Finite 0) then Raise ZeroDivisionError
      else Ok (fdiv fa fb)
  end.
End Binary64.

(** ** The arithmetic of the consensus step on floats

    The functions of the consensus module whose result depends on float
    arithmetic: the IoU, the mean that [statistics.mean] returns as a float,
    and the areas that pick the largest and the smallest box.  The numeric
    fields of a detection are finite Python floats, read from the rational
    fields of [Detection]; [detection_to_xyxy] may return [int]s or
    floats. *)

Module OnFloats.
Import Binary64.

Definition get_detection_sizes (detections : list Detection) : list float :=
  (λ d, fmul (Finite (det_height d)) (Finite (det_width d))) <$> detections.

Section IoU.
Variable detection_to_xyxy : Detection → num * num * num * num.

Definition intersection_area (detection_a detection_b : Detection)
    : result num :=
  let '(a0, a1, a2, a3) := detection_to_xyxy detection_a in
  let '(b0, b1, b2, b3) := detection_to_xyxy detection_b in
  let x_a := max2 a0 b0 in
  let y_a := max2 a1 b1 in
  let x_b := min2 a2 b2 in
  let y_b := min2 a3 b3 in
  do dx <- sub x_b x_a;
  do dy <- sub y_b y_a;
  mul (max2 (Int 0) dx) (max2 (Int 0) dy).

(** [float(bbox_a_area + bbox_b_area - intersection)] *)
Definition union_area (detection_a detection_b : Detection) : result float :=
  do intersection <- intersection_area detection_a detection_b;
  match get_detection_sizes [detection_a; detection_b] with
  | [bbox_a_area; bbox_b_area] =>
      do difference <- sub (Float (fadd bbox_a_area bbox_b_area)) intersection;
      to_float difference
  | _ => Raise ValueError
  end.

Definition calculate_iou (detection_a detection_b : Detection)
    : result float :=
  do intersection <- intersection_area detection_a detection_b;
  match get_detection_sizes [detection_a; detection_b] with
  | [bbox_a_area; bbox_b_area] =>
      do difference <- sub (Float (fadd bbox_a_area bbox_b_area)) intersection;
      do union <- to_float difference;
      if feqb union (Finite 0) then Ok (Finite 0)
      else
        do difference <-
          sub (Float (fadd bbox_a_area bbox_b_area)) intersection;
        do divisor <- to_float difference;
        truediv intersection (Float divisor)
  | _ => Raise ValueError
  end.
End IoU.

(** [statistics.mean] of floats: the exact mean of the values, converted
    to a float at the end. *)
Definition statistics_mean (values : list Q) : result float :=
  match values with
  | [] => Raise StatisticsError
  | _ =>
      match of_Q (fold_left Qplus values 0
                  / inject_Z (Z.of_nat (length values)))%Q
      with
      | Infinity _ => Raise OverflowError
      | mean => Ok mean
      end
  end.

Definition py_max (values : list float) : result float :=
  match values with
  | [] => Raise ValueError
  | v :: vs => Ok (fold_left fmax2 vs v)
  end.

Definition py_min (values : list float) : result float :=
  match values with
  | [] => Raise ValueError
  | v :: vs => Ok (fold_left fmin2 vs v)
  end.

(** [aggregate_field_values(detections=detections, field=field)], with the
    default mode AVERAGE. *)
Definition aggregate_field_values (detections : list Detection)
    (field : Field) : result float :=
  statistics_mean (get_field field <$> detections).

Definition get_average_bounding_box (detections : list Detection)
    : result (num * num * num * num) :=
  do x <- aggregate_field_values detections F_x;
  do x <- round x;
  do y <- aggregate_field_values detections F_y;
  do y <- round y;
  do width <- aggregate_field_values detections F_width;
  do width <- round width;
  do height <- aggregate_field_values detections F_height;
  do height <- round height;
  Ok (Int x, Int y, Int width, Int height).

(** [[idx for idx, v in enumerate(sizes) if v == size][0]] *)
Definition first_index_of_size (size : float) (sizes : list float)
    : result nat :=
  match List.filter (λ iv : nat * float, feqb iv.2 size) (imap pair sizes) with
  | [] => Raise IndexError
  | iv :: _ => Ok iv.1
  end.

Definition box_of (d : Detection) : num * num * num * num :=
  (Float (Finite (det_x d)), Float (Finite (det_y d)),
   Float (Finite (det_width d)), Float (Finite (det_height d))).

Definition get_smallest_bounding_box (detections : list Detection)
    : result (num * num * num * num) :=
  let detection_sizes := get_detection_sizes detections in
  do smallest_size <- py_min detection_sizes;
  do matching_detection_id <- first_index_of_size smallest_size detection_sizes;
  match detections !! matching_detection_id with
  | None => Raise IndexError
  | Some matching_detection => Ok (box_of matching_detection)
  end.

Definition get_largest_bounding_box (detections : list Detection)
    : result (num * num * num * num) :=
  let detection_sizes := get_detection_sizes detections in
  do largest_size <- py_max detection_sizes;
  do matching_detection_id <- first_index_of_size largest_size detection_sizes;
  match detections !! matching_detection_id with
  | None => Raise IndexError
  | Some matching_detection => Ok (box_of matching_detection)
  end.

Definition AGGREGATION_MODE2BOXES_AGGREGATOR (mode : AggregationMode)
    : list Detection → result (num * num * num * num) :=
  match mode with
  | MAX => get_largest_bounding_box
  | MIN => get_smallest_bounding_box
  | AVERAGE => get_average_bounding_box
  end.

(** The area of a box as the code computes it. *)
Definition box_area (d : Detection) : float :=
  fmul (Finite (det_height d)) (Finite (det_width d)).

(** Modelled from the spec: [detection_to_xyxy] lives in
    [core_steps.common.utils], outside this module; section 3 of the
    specification gives the box as (center_x, center_y, width, height),
    interconvertible with (x_min, y_min, x_max, y_max) up to floating
    rounding.  Here the corners are floats. *)
Definition center_to_xyxy (d : Detection) : num * num * num * num :=
  let half_width := fdiv (Finite (det_width d)) (Finite 2) in
  let half_height := fdiv (Finite (det_height d)) (Finite 2) in
  (Float (fsub (Finite (det_x d)) half_width),
   Float (fsub (Finite (det_y d)) half_height),
   Float (fadd (Finite (det_x d)) half_width),
   Float (fadd (Finite (det_y d)) half_height)).

(** The same corners as whole pixels, that is as [int]s. *)
Definition whole_pixel_xyxy (d : Detection) : num * num * num * num :=
  (Int (py_round (det_x d - det_width d / 2)),
   Int (py_round (det_y d - det_height d / 2)),
   Int (py_round (det_x d + det_width d / 2)),
   Int (py_round (det_y d + det_height d / 2))).

(** A detection whose sides are the float 2^700. *)
Definition huge_box : Detection :=
  mkDetection "img" "h" "cat" 0 (9 # 10) 0 0 (pow2 700) (pow2 700).

(** The floats 0.1 and 0.9. *)
Definition tenth : Q := b64 (1 # 10).
Definition nine_tenths : Q := b64 (9 # 10).
End OnFloats.

(** ** The consensus step *)

Section Consensus.
(** [detection_to_xyxy] is imported from [core_steps.common.utils] and
  [uuid4] from the standard library; the consensus module only calls
  them, so both are parameters here.  [uuid4 n] is the identifier drawn
  by the [n]-th call. *)
Variable detection_to_xyxy : Detection → Q * Q * Q * Q.
Variable uuid4 : nat → string.

Definition does_not_detected_objects_in_any_source
    (predictions : list (list Detection)) : bool :=
  forallb (λ p, length p =? 0) predictions.

Definition get_parent_id_of_predictions_from_different_sources
    (predictions : list (list Detection)) : result string :=
  let encountered_parent_ids : gset string :=
    list_to_set (det_parent_id <$> concat predictions) in
  if 1 <? size encountered_parent_ids then Raise ExecutionGraphError
  else match elements encountered_parent_ids with
       | [] => Raise IndexError
       | p :: _ => Ok p
       end.

Definition filter_predictions (predictions : list (list Detection))
    (classes_to_consider : option (list string)) : list (list Detection) :=
  match classes_to_consider with
  | None => predictions
  | Some classes =>
      let classes_to_consider : gset string := list_to_set classes in
      (λ detections,
         filter (λ detection, det_class detection ∈ classes_to_consider)
                detections) <$> predictions
  end.

(** The generator, as the list of the pairs it yields. *)
Definition enumerate_detections (predictions : list (list Detection))
    (excluded_source : option nat) : list (nat * Detection) :=
  concat (imap (λ source_id detections,
                  if decide (excluded_source = Some source_id) then []
                  else pair source_id <$> detections) predictions).

Definition get_detection_sizes (detections : list Detection) : list Q :=
  (λ d, det_height d * det_width d)%Q <$> detections.

Definition intersection_area (detection_a detection_b : Detection) : Q :=
  let '(a0, a1, a2, a3) := detection_to_xyxy detection_a in
  let '(b0, b1, b2, b3) := detection_to_xyxy detection_b in
  let x_a := py_max2 a0 b0 in
  let y_a := py_max2 a1 b1 in
  let x_b := py_min2 a2 b2 in
  let y_b := py_min2 a3 b3 in
  (py_max2 0 (x_b - x_a) * py_max2 0 (y_b - y_a))%Q.

Definition union_area (detection_a detection_b : Detection) : Q :=
  (det_height detection_a * det_width detection_a
   + det_height detection_b * det_width detection_b
   - intersection_area detection_a detection_b)%Q.

Definition calculate_iou (detection_a detection_b : Detection) : result Q :=
  let intersection := intersection_area detection_a detection_b in
  match get_detection_sizes [detection_a; detection_b] with
  | [bbox_a_area; bbox_b_area] =>
      let union := (bbox_a_area + bbox_b_area - intersection)%Q in
      if Qeq_bool union 0 then Ok 0%Q
      else py_truediv intersection (bbox_a_area + bbox_b_area - intersection)
  | _ => Raise ValueError
  end.

(** The body of the loop of the matcher, on the dictionary
  [current_max_overlap]. *)
Definition max_overlap_step (detection : Detection) (iou_threshold : Q)
    (class_aware : bool) (detections_already_considered : gset string)
    (current_max_overlap : list (nat * (Detection * Q)))
    (item : nat * Detection) : result (list (nat * (Detection * Q))) :=
  let '(other_source, other_detection) := item in
  if decide (det_detection_id other_detection ∈ detections_already_considered)
  then Ok current_max_overlap
  else if class_aware
          && negb (String.eqb (det_class detection) (det_class other_detection))
  then Ok current_max_overlap
  else
    do iou_value <- calculate_iou detection other_detection;
    if Qle_bool iou_value iou_threshold then Ok current_max_overlap
    else
      let current_max_overlap :=
        match PyDict.get current_max_overlap other_source with
        | None =>
            PyDict.set current_max_overlap other_source
              (other_detection, iou_value)
        | Some _ => current_max_overlap
        end in
      match PyDict.get current_max_overlap other_source with
      | None => Raise KeyError
      | Some (_, best) =>
          if Qltb best iou_value
          then Ok (PyDict.set current_max_overlap other_source
                     (other_detection, iou_value))
          else Ok current_max_overlap
      end.

Definition get_detections_from_different_sources_with_max_overlap
    (detection : Detection) (source : nat)
    (predictions : list (list Detection)) (iou_threshold : Q)
    (class_aware : bool) (detections_already_considered : gset string)
    : result (list (nat * (Detection * Q))) :=
  for_each
    (max_overlap_step detection iou_threshold class_aware
       detections_already_considered)
    (enumerate_detections predictions (Some source)) [].

(** *** Aggregation *)

Definition py_max (values : list Q) : result Q :=
  match values with
  | [] => Raise ValueError
  | v :: vs => Ok (fold_left py_max2 vs v)
  end.

Definition py_min (values : list Q) : result Q :=
  match values with
  | [] => Raise ValueError
  | v :: vs => Ok (fold_left py_min2 vs v)
  end.

Definition Qsum (values : list Q) : Q := fold_left Qplus values 0%Q.

Definition statistics_mean (values : list Q) : result Q :=
  match values with
  | [] => Raise StatisticsError
  | _ => Ok (Qsum values / inject_Z (Z.of_nat (length values)))%Q
  end.

Definition AGGREGATION_MODE2FIELD_AGGREGATOR (mode : AggregationMode)
    : list Q → result Q :=
  match mode with
  | MAX => py_max
  | MIN => py_min
  | AVERAGE => statistics_mean
  end.

Definition aggregate_field_values (detections : list Detection)
    (field : Field) (aggregation_mode : AggregationMode) : result Q :=
  let values := get_field field <$> detections in
  AGGREGATION_MODE2FIELD_AGGREGATOR aggregation_mode values.

(** [Counter(names)]: counts in order of first occurrence. *)
Definition Counter (names : list string) : list (string * nat) :=
  fold_left (λ counts name,
               PyDict.set counts name (S (default 0 (PyDict.get counts name))))
            names [].

(** [counts.most_common(1)]: the first entry with the largest count. *)
Definition most_common_1 (counts : list (string * nat))
    : list (string * nat) :=
  match counts with
  | [] => []
  | c :: cs =>
      [fold_left (λ best e, if best.2 <? e.2 then e else best) cs c]
  end.

(** [l[0]] *)
Definition first {A : Type} (l : list A) : result A :=
  match l with
  | [] => Raise IndexError
  | a :: _ => Ok a
  end.

Definition get_majority_class (detections : list Detection)
    : result (string * Z) :=
  let class_counts := Counter (det_class <$> detections) in
  do top <- first (most_common_1 class_counts);
  let most_common_class_name := top.1 in
  do class_id <-
    first (det_class_id <$>
             List.filter (λ d, String.eqb (det_class d) most_common_class_name)
               detections);
  Ok (most_common_class_name, class_id).

Definition get_class_of_most_confident_detection
    (detections : list Detection) : result (string * Z) :=
  do max_confidence <- aggregate_field_values detections F_confidence MAX;
  do most_confident_prediction <-
    first (List.filter (λ d, Qeq_bool (det_confidence d) max_confidence)
             detections);
  Ok (det_class most_confident_prediction,
      det_class_id most_confident_prediction).

Definition get_class_of_least_confident_detection
    (detections : list Detection) : result (string * Z) :=
  do max_confidence <- aggregate_field_values detections F_confidence MIN;
  do most_confident_prediction <-
    first (List.filter (λ d, Qeq_bool (det_confidence d) max_confidence)
             detections);
  Ok (det_class most_confident_prediction,
      det_class_id most_confident_prediction).

Definition AGGREGATION_MODE2CLASS_SELECTOR (mode : AggregationMode)
    : list Detection → result (string * Z) :=
  match mode with
  | MAX => get_class_of_most_confident_detection
  | MIN => get_class_of_least_confident_detection
  | AVERAGE => get_majority_class
  end.

Definition get_average_bounding_box (detections : list Detection)
    : result (Q * Q * Q * Q) :=
  do x <- aggregate_field_values detections F_x AVERAGE;
  do y <- aggregate_field_values detections F_y AVERAGE;
  do width <- aggregate_field_values detections F_width AVERAGE;
  do height <- aggregate_field_values detections F_height AVERAGE;
  Ok (inject_Z (py_round x), inject_Z (py_round y),
      inject_Z (py_round width), inject_Z (py_round height)).

(** [[idx for idx, v in enumerate(sizes) if v == size][0]] *)
Definition first_index_of_size (size : Q) (sizes : list Q) : result nat :=
  first (List.filter (λ iv : nat * Q, Qeq_bool iv.2 size) (imap pair sizes)).*1.

Definition box_of (d : Detection) : Q * Q * Q * Q :=
  (det_x d, det_y d, det_width d, det_height d).

Definition get_smallest_bounding_box (detections : list Detection)
    : result (Q * Q * Q * Q) :=
  let detection_sizes := get_detection_sizes detections in
  do smallest_size <- py_min detection_sizes;
  do matching_detection_id <- first_index_of_size smallest_size detection_sizes;
  match detections !! matching_detection_id with
  | None => Raise IndexError
  | Some matching_detection => Ok (box_of matching_detection)
  end.

Definition get_largest_bounding_box (detections : list Detection)
    : result (Q * Q * Q * Q) :=
  let detection_sizes := get_detection_sizes detections in
  do largest_size <- py_max detection_sizes;
  do matching_detection_id <- first_index_of_size largest_size detection_sizes;
  match detections !! matching_detection_id with
  | None => Raise IndexError
  | Some matching_detection => Ok (box_of matching_detection)
  end.

Definition AGGREGATION_MODE2BOXES_AGGREGATOR (mode : AggregationMode)
    : list Detection → result (Q * Q * Q * Q) :=
  match mode with
  | MAX => get_largest_bounding_box
  | MIN => get_smallest_bounding_box
  | AVERAGE => get_average_bounding_box
  end.

(** [fresh] is the value of the call to [uuid4()]. *)
Definition merge_detections (detections : list Detection)
    (confidence_aggregation_mode boxes_aggregation_mode : AggregationMode)
    (fresh : string) : result Detection :=
  do (class_name, class_id) <-
    AGGREGATION_MODE2CLASS_SELECTOR confidence_aggregation_mode detections;
  do (x, y, width, height) <-
    AGGREGATION_MODE2BOXES_AGGREGATOR boxes_aggregation_mode detections;
  do head <- first detections;
  do confidence <-
    aggregate_field_values detections F_confidence confidence_aggregation_mode;
  Ok {| det_parent_id := det_parent_id head;
        det_detection_id := fresh;
        det_class := class_name;
        det_class_id := class_id;
        det_confidence := confidence;
        det_x := x; det_y := y; det_width := width; det_height := height |}.

(** *** Voting on one seed detection

  The state is the set [detections_already_considered] together with
  the number of identifiers drawn from [uuid4] so far. *)

Definition mark_considered (considered : gset string)
    (detection : Detection)
    (detections_with_max_overlap : list (nat * (Detection * Q)))
    : gset string :=
  fold_left (λ s matched_value, s ∪ {[det_detection_id matched_value.1]})
    (PyDict.values detections_with_max_overlap)
    (considered ∪ {[det_detection_id detection]}).

Definition get_consensus_for_single_detection
    (detection : Detection) (source_id : nat)
    (predictions : list (list Detection)) (iou_threshold : Q)
    (class_aware : bool) (required_votes : Z) (confidence : Q)
    (detections_merge_confidence_aggregation
     detections_merge_coordinates_aggregation : AggregationMode)
    (detections_already_considered : gset string) (drawn : nat)
    : result (list Detection * gset string * nat) :=
  if decide (det_detection_id detection ∈ detections_already_considered)
  then Ok ([], detections_already_considered, drawn)
  else
    do detections_with_max_overlap <-
      get_detections_from_different_sources_with_max_overlap
        detection source_id predictions iou_threshold class_aware
        detections_already_considered;
    if (Z.of_nat (length detections_with_max_overlap) <? required_votes - 1)%Z
    then Ok ([], detections_already_considered, drawn)
    else
      let detections_to_merge :=
        detection :: (PyDict.values detections_with_max_overlap).*1 in
      do merged_detection <-
        merge_detections detections_to_merge
          detections_merge_confidence_aggregation
          detections_merge_coordinates_aggregation (uuid4 drawn);
      if Qltb (det_confidence merged_detection) confidence
      then Ok ([], detections_already_considered, S drawn)
      else Ok ([merged_detection],
               mark_considered detections_already_considered detection
                 detections_with_max_overlap,
               S drawn).

(** *** Presence of objects *)

(** [class2detections[detection["class"]].append(detection)] *)
Definition group_by_class (consensus_detections : list Detection)
    : list (string * list Detection) :=
  fold_left (λ class2detections detection,
               PyDict.set class2detections (det_class detection)
                 (default [] (PyDict.get class2detections (det_class detection))
                  ++ [detection]))
            consensus_detections [].

(** The loop over [required_objects.items()].  Reading a missing key of a
  [defaultdict(list)] stores an empty list under it.  [None] stands for
  the early [return False, {}]. *)
Fixpoint check_required_classes (items : list (string * Z))
    (class2detections : list (string * list Detection))
    : option (list (string * list Detection)) :=
  match items with
  | [] => Some class2detections
  | (requested_class, required_objects_count) :: items' =>
      let '(found, class2detections) :=
        match PyDict.get class2detections requested_class with
        | Some ds => (ds, class2detections)
        | None => ([], PyDict.set class2detections requested_class [])
        end in
      if (Z.of_nat (length found) <? required_objects_count)%Z then None
      else check_required_classes items' class2detections
  end.

(** The dictionary comprehension that builds [class2confidence]. *)
Fixpoint class2confidence_of (aggregation_mode : AggregationMode)
    (items : list (string * list Detection)) : result (list (string * Q)) :=
  match items with
  | [] => Ok []
  | (class_name, class_detections) :: items' =>
      do c <- aggregate_field_values class_detections F_confidence
                aggregation_mode;
      do rest <- class2confidence_of aggregation_mode items';
      Ok ((class_name, c) :: rest)
  end.

Definition check_objects_presence_in_consensus_predictions
    (consensus_detections : list Detection) (class_aware : bool)
    (aggregation_mode : AggregationMode)
    (required_objects : option RequiredObjects)
    : result (bool * list (string * Q)) :=
  if length consensus_detections =? 0 then Ok (false, [])
  else
    let required_objects := default (RequiredInt 0) required_objects in
    let required_objects :=
      match required_objects with
      | RequiredDict m =>
          if negb class_aware
          then RequiredInt (fold_left Z.add (PyDict.values m) 0%Z)
          else required_objects
      | RequiredInt _ => required_objects
      end in
    let too_few :=
      match required_objects with
      | RequiredInt n => (Z.of_nat (length consensus_detections) <? n)%Z
      | RequiredDict _ => false
      end in
    if too_few then Ok (false, [])
    else if negb class_aware then
      do aggregated_confidence <-
        aggregate_field_values consensus_detections F_confidence
          aggregation_mode;
      Ok (true, [("any_object", aggregated_confidence)])
    else
      let class2detections := group_by_class consensus_detections in
      let checked :=
        match required_objects with
        | RequiredDict m => check_required_classes m class2detections
        | RequiredInt _ => Some class2detections
        end in
      match checked with
      | None => Ok (false, [])
      | Some class2detections =>
          do class2confidence <-
            class2confidence_of aggregation_mode class2detections;
          Ok (true, class2confidence)
      end.

(** *** One batch element *)

Definition consensus_loop_body (iou_threshold : Q) (class_aware : bool)
    (required_votes : Z) (confidence : Q)
    (detections_merge_confidence_aggregation
     detections_merge_coordinates_aggregation : AggregationMode)
    (predictions : list (list Detection))
    (state : list Detection * gset string * nat) (item : nat * Detection)
    : result (list Detection * gset string * nat) :=
  let '(consensus_detections, detections_already_considered, drawn) := state in
  let '(source_id, detection) := item in
  do (consensus_detections_update, detections_already_considered, drawn) <-
    get_consensus_for_single_detection detection source_id predictions
      iou_threshold class_aware required_votes confidence
      detections_merge_confidence_aggregation
      detections_merge_coordinates_aggregation
      detections_already_considered drawn;
  Ok (consensus_detections ++ consensus_detections_update,
      detections_already_considered, drawn).

Definition resolve_batch_consensus
    (predictions : list (list Detection)) (required_votes : Z)
    (class_aware : bool) (iou_threshold confidence : Q)
    (classes_to_consider : option (list string))
    (required_objects : option RequiredObjects)
    (presence_confidence_aggregation
     detections_merge_confidence_aggregation
     detections_merge_coordinates_aggregation : AggregationMode)
    : result (string * bool * list (string * Q) * list Detection) :=
  if does_not_detected_objects_in_any_source predictions
  then Ok ("undefined", false, [], [])
  else
    do parent_id <-
      get_parent_id_of_predictions_from_different_sources predictions;
    let predictions := filter_predictions predictions classes_to_consider in
    do (consensus_detections, _, _) <-
      for_each
        (consensus_loop_body iou_threshold class_aware required_votes
           confidence detections_merge_confidence_aggregation
           detections_merge_coordinates_aggregation predictions)
        (enumerate_detections predictions None) ([], ∅, 0);
    do (object_present, presence_confidence) <-
      check_objects_presence_in_consensus_predictions consensus_detections
        class_aware presence_confidence_aggregation required_objects;
    Ok (parent_id, object_present, presence_confidence, consensus_detections).

(** *** The whole batch *)

Definition get_predictions_batch_sizes
    (all_predictions : list (list (list Detection))) : list nat :=
  length <$> all_predictions.

Definition all_batch_sizes_equal (batch_sizes : list nat) : bool :=
  match batch_sizes with
  | [] => true
  | reference :: _ => forallb (λ e, e =? reference) batch_sizes
  end.

Definition get_and_validate_batch_sizes
    (all_predictions : list (list (list Detection))) : result (list nat) :=
  let batch_sizes := get_predictions_batch_sizes all_predictions in
  if negb (all_batch_sizes_equal batch_sizes) then Raise ExecutionGraphError
  else Ok batch_sizes.

(** [l[i]] *)
Definition index {A : Type} (l : list A) (i : nat) : result A :=
  match l !! i with
  | Some a => Ok a
  | None => Raise IndexError
  end.

(** A list comprehension whose element expression may raise. *)
Fixpoint comprehension {A B : Type} (f : A → result B) (l : list A)
    : result (list B) :=
  match l with
  | [] => Ok []
  | a :: l' => do b <- f a; do bs <- comprehension f l'; Ok (b :: bs)
  end.

(** [resolve_batch_consensus] when [drawn] identifiers have been drawn from
    [uuid4] before the call; the count after the call is returned along. *)
Definition resolve_batch_consensus_drawing (drawn : nat)
    (predictions : list (list Detection)) (required_votes : Z)
    (class_aware : bool) (iou_threshold confidence : Q)
    (classes_to_consider : option (list string))
    (required_objects : option RequiredObjects)
    (presence_confidence_aggregation
     detections_merge_confidence_aggregation
     detections_merge_coordinates_aggregation : AggregationMode)
    : result (string * bool * list (string * Q) * list Detection * nat) :=
  if does_not_detected_objects_in_any_source predictions
  then Ok ("undefined", false, [], [], drawn)
  else
    do parent_id <-
      get_parent_id_of_predictions_from_different_sources predictions;
    let predictions := filter_predictions predictions classes_to_consider in
    do (consensus_detections, _, drawn) <-
      for_each
        (consensus_loop_body iou_threshold class_aware required_votes
           confidence detections_merge_confidence_aggregation
           detections_merge_coordinates_aggregation predictions)
        (enumerate_detections predictions None) ([], ∅, drawn);
    do (object_present, presence_confidence) <-
      check_objects_presence_in_consensus_predictions consensus_detections
        class_aware presence_confidence_aggregation required_objects;
    Ok (parent_id, object_present, presence_confidence, consensus_detections,
        drawn).

(** One record of the list [run_locally] returns. *)
Record ConsensusResult (Meta : Type) : Type := mkConsensusResult {
  res_predictions : list Detection;
  res_parent_id : string;
  res_object_present : bool;
  res_presence_confidence : list (string * Q);
  res_image : Meta;
  res_prediction_type : string;
}.
Arguments mkConsensusResult {Meta} _ _ _ _ _ _.
Arguments res_predictions {Meta} _.
Arguments res_parent_id {Meta} _.
Arguments res_object_present {Meta} _.
Arguments res_presence_confidence {Meta} _.
Arguments res_image {Meta} _.
Arguments res_prediction_type {Meta} _.

(** The body of the loop over [range(batch_size)]. *)
Definition run_locally_body {Meta : Type}
    (predictions : list (list (list Detection))) (image_metadata : list Meta)
    (required_votes : Z) (class_aware : bool) (iou_threshold confidence : Q)
    (classes_to_consider : option (list string))
    (required_objects : option RequiredObjects)
    (presence_confidence_aggregation
     detections_merge_confidence_aggregation
     detections_merge_coordinates_aggregation : AggregationMode)
    (state : list (ConsensusResult Meta) * nat) (batch_index : nat)
    : result (list (ConsensusResult Meta) * nat) :=
  let '(results, drawn) := state in
  do batch_element_predictions <-
    comprehension (λ e, index e batch_index) predictions;
  do (parent_id, object_present, presence_confidence, consensus_detections,
      drawn) <-
    resolve_batch_consensus_drawing drawn batch_element_predictions
      required_votes class_aware iou_threshold confidence classes_to_consider
      required_objects presence_confidence_aggregation
      detections_merge_confidence_aggregation
      detections_merge_coordinates_aggregation;
  do image <- index image_metadata batch_index;
  Ok (results ++ [mkConsensusResult consensus_detections parent_id
                    object_present presence_confidence image
                    "object-detection"],
      drawn).

Definition run_locally {Meta : Type}
    (predictions : list (list (list Detection))) (image_metadata : list Meta)
    (required_votes : Z) (class_aware : bool) (iou_threshold confidence : Q)
    (classes_to_consider : option (list string))
    (required_objects : option RequiredObjects)
    (presence_confidence_aggregation
     detections_merge_confidence_aggregation
     detections_merge_coordinates_aggregation : AggregationMode)
    (drawn : nat) : result (list (ConsensusResult Meta) * nat) :=
  if length predictions <? 1 then Raise ExecutionGraphError
  else
    do batch_sizes <- get_and_validate_batch_sizes predictions;
    do batch_size <- index batch_sizes 0;
    for_each
      (run_locally_body predictions image_metadata required_votes class_aware
         iou_threshold confidence classes_to_consider required_objects
         presence_confidence_aggregation
         detections_merge_confidence_aggregation
         detections_merge_coordinates_aggregation)
      (seq 0 batch_size) ([], drawn).

(** *** Notions used to state the properties *)

(** The value [calculate_iou] computes. *)
Definition iou_of (detection_a detection_b : Detection) : Q :=
  if Qeq_bool (union_area detection_a detection_b) 0 then 0%Q
  else (intersection_area detection_a detection_b
        / union_area detection_a detection_b)%Q.


Definition candidate_ok (detection : Detection) (iou_threshold : Q)
    (class_aware : bool) (considered : gset string) (c : Detection) : bool :=
  negb (bool_decide (det_detection_id c ∈ considered))
  && negb (class_aware && negb (String.eqb (det_class detection) (det_class c)))
  && negb (Qle_bool (iou_of detection c) iou_threshold).

(** What one round of the matcher does to the entry of one source. *)
Definition keep_best (detection : Detection) (iou_threshold : Q)
    (class_aware : bool) (considered : gset string)
    (best : option (Detection * Q)) (c : Detection)
    : option (Detection * Q) :=
  if candidate_ok detection iou_threshold class_aware considered c then
    match best with
    | None => Some (c, iou_of detection c)
    | Some (_, v) =>
        if Qltb v (iou_of detection c) then Some (c, iou_of detection c)
        else best
    end
  else best.

(** The size [get_detection_sizes] gives a detection. *)
Definition box_area (d : Detection) : Q := (det_height d * det_width d)%Q.

(** The detections that a list of enumerated pairs holds for source [s]. *)
Definition candidates_of (s : nat) (items : list (nat * Detection))
    : list Detection :=
  (List.filter (λ it : nat * Detection, it.1 =? s) items).*2.

(** The arithmetic mean of one field over a group. *)
Definition field_mean (detections : list Detection) (field : Field) : Q :=
(Qsum (get_field field <$> detections)
 / inject_Z (Z.of_nat (length detections)))%Q.

(** The list [detections_to_merge] that a seed forms in a given state. *)
Definition group_of (detection : Detection) (source_id : nat)
  (predictions : list (list Detection)) (iou_threshold : Q)
  (class_aware : bool) (considered : gset string) : list Detection :=
match get_detections_from_different_sources_with_max_overlap
        detection source_id predictions iou_threshold class_aware considered
with
| Ok m => detection :: (PyDict.values m).*1
| Raise _ => []
end.

(** The loop of [resolve_batch_consensus], keeping next to every merged
  detection the group it was merged from (its lineage).  The code keeps
  no such record; it is there to state which raw detections an output
  stands for. *)
Definition lineage_loop_body (iou_threshold : Q) (class_aware : bool)
  (required_votes : Z) (confidence : Q)
  (detections_merge_confidence_aggregation
   detections_merge_coordinates_aggregation : AggregationMode)
  (predictions : list (list Detection))
  (state : list (Detection * list Detection) * gset string * nat)
  (item : nat * Detection)
  : result (list (Detection * list Detection) * gset string * nat) :=
let '(log, detections_already_considered, drawn) := state in
let '(source_id, detection) := item in
do (consensus_detections_update, considered', drawn') <-
  get_consensus_for_single_detection detection source_id predictions
    iou_threshold class_aware required_votes confidence
    detections_merge_confidence_aggregation
    detections_merge_coordinates_aggregation
    detections_already_considered drawn;
Ok (log ++ ((λ merged,
               (merged,
                group_of detection source_id predictions iou_threshold
                  class_aware detections_already_considered))
            <$> consensus_detections_update),
    considered', drawn').

(** No raw [detection_id] occurs in two groups. *)
Definition lineages_disjoint (groups : list (list Detection)) : Prop :=
∀ i j gi gj x y,
  i < j → groups !! i = Some gi → groups !! j = Some gj →
  x ∈ gi → y ∈ gj → det_detection_id x ≠ det_detection_id y.

(** The merged detections of one class, in order. *)
Definition of_class (class_name : string) (detections : list Detection)
  : list Detection :=
List.filter (λ d, String.eqb (det_class d) class_name) detections.

(** [len(class2detections[class_name])], whether or not the key is there. *)
Definition count_in (class2detections : list (string * list Detection))
  (class_name : string) : nat :=
length (default [] (PyDict.get class2detections class_name)).

(** What the loop of [resolve_batch_consensus] maintains. *)
Definition loop_invariant (required_votes : Z) (confidence : Q)
  (log : list (Detection * list Detection)) (considered : gset string)
  : Prop :=
(∀ g x, g ∈ log.*2 → x ∈ g → det_detection_id x ∈ considered)
∧ lineages_disjoint log.*2
∧ Forall (λ merged, (confidence <= det_confidence merged)%Q) log.*1
∧ Forall (λ g, (required_votes <= Z.of_nat (length g))%Z) log.*2.

(** What is recorded for one merged detection: it is the merge, under the
    [k]-th identifier, of a non-empty group taken from the predictions, at
    most one member per source. *)
Definition group_facts (cm bm : AggregationMode)
    (predictions : list (list Detection)) (k : nat)
    (entry : Detection * list Detection) : Prop :=
  merge_detections entry.2 cm bm (uuid4 k) = Ok entry.1
  ∧ entry.2 ≠ []
  ∧ (∀ x, x ∈ entry.2 → x ∈ concat predictions)
  ∧ length entry.2 ≤ length predictions.

Definition log_facts (cm bm : AggregationMode)
    (predictions : list (list Detection)) (n0 : nat)
    (state : list (Detection * list Detection) * gset string * nat) : Prop :=
  n0 ≤ state.2
  ∧ ∃ ks, Forall2 (group_facts cm bm predictions) ks state.1.1
          ∧ NoDup ks
          ∧ Forall (λ k, n0 ≤ k < state.2) ks.

(** The same detection up to its identifier. *)
Definition erase_id (d : Detection) : Detection :=
  mkDetection (det_parent_id d) "" (det_class d) (det_class_id d)
    (det_confidence d) (det_x d) (det_y d) (det_width d) (det_height d).

(** ** Facts *)

Section DictFacts.
Context {K V : Type} `{EqDecision K}.
Implicit Types (m : list (K * V)) (k : K) (v : V).

Lemma get_set_eq m k v : PyDict.get (PyDict.set m k v) k = Some v.
Proof.
    induction m as [|[k' v'] m IH]; simpl.
    - by rewrite decide_True.
    - destruct (decide (k' = k)) as [->|Hne]; simpl.
      + by rewrite decide_True.
      + by rewrite decide_False.
Qed.

Lemma get_set_ne m k k' v : k ≠ k' → PyDict.get (PyDict.set m k v) k' = PyDict.get m k'.
Proof.
    intros Hne. induction m as [|[k0 v0] m IH]; simpl.
    - by rewrite decide_False.
    - destruct (decide (k0 = k)) as [->|Hne0]; simpl.
      + by rewrite !decide_False.
      + by rewrite IH.
Qed.

Lemma get_None m k : PyDict.get m k = None ↔ k ∉ PyDict.keys m.
Proof.
    unfold PyDict.keys. induction m as [|[k' v'] m IH]; simpl.
    - split; [intros _; apply not_elem_of_nil | done].
    - rewrite not_elem_of_cons. destruct (decide (k' = k)) as [->|Hne].
      + split; [done | by intros [? _]].
      + rewrite IH. split; [by intros ? | by intros [_ ?]].
Qed.

Lemma get_Some_elem_of m k v : PyDict.get m k = Some v → (k, v) ∈ m.
Proof.
    induction m as [|[k' v'] m IH]; simpl; [done|].
    destruct (decide (k' = k)) as [->|Hne].
    - intros [= ->]. apply elem_of_cons. by left.
    - intros H. apply elem_of_cons. right. by apply IH.
Qed.

Lemma set_fresh m k v : PyDict.get m k = None → PyDict.set m k v = m ++ [(k, v)].
Proof.
    induction m as [|[k' v'] m IH]; simpl; [done|].
    destruct (decide (k' = k)); [done|]. intros H. by rewrite IH.
Qed.

Lemma keys_set_present m k v :
    is_Some (PyDict.get m k) → PyDict.keys (PyDict.set m k v) = PyDict.keys m.
Proof.
    unfold PyDict.keys. induction m as [|[k' v'] m IH]; simpl.
    - by intros [? ?].
    - destruct (decide (k' = k)) as [->|Hne]; simpl; [done|].
      intros H. f_equal. by apply IH.
Qed.
End DictFacts.

Lemma Qltb_lt a b : Qltb a b = true ↔ (a < b)%Q.
Proof.
  unfold Qltb. rewrite Qlt_alt. destruct (a ?= b)%Q; naive_solver.
Qed.

Lemma Qltb_ge a b : Qltb a b = false ↔ (b <= a)%Q.
Proof.
  rewrite <- not_true_iff_false, Qltb_lt. split.
  - apply Qnot_lt_le.
  - intros H1 H2. by apply (Qle_not_lt _ _ H1).
Qed.

Lemma Qle_bool_false a b : Qle_bool a b = false ↔ (b < a)%Q.
Proof.
  rewrite <- not_true_iff_false, Qle_bool_iff. split.
  - apply Qnot_le_lt.
  - intros H1 H2. by apply (Qle_not_lt _ _ H2).
Qed.


Lemma for_each_app {A S : Type} (body : S → A → result S) l1 l2 s :
  for_each body (l1 ++ l2) s = do s' <- for_each body l1 s; for_each body l2 s'.
Proof.
  revert s. induction l1 as [|a l1 IH]; intros s; simpl; [done|].
  destruct (body s a); simpl; [apply IH | done].
Qed.

(** *** The IoU *)

Lemma calculate_iou_eq a b : calculate_iou a b = Ok (iou_of a b).
Proof.
  unfold calculate_iou, iou_of, union_area, py_truediv. simpl.
  by destruct (Qeq_bool _ 0).
Qed.

(** *** The matcher *)


Lemma max_overlap_step_spec d thr ca cons m s c :
  ∃ m', max_overlap_step d thr ca cons m (s, c) = Ok m'
    ∧ PyDict.get m' s = keep_best d thr ca cons (PyDict.get m s) c
    ∧ (∀ s', s ≠ s' → PyDict.get m' s' = PyDict.get m s')
    ∧ (NoDup (PyDict.keys m) → NoDup (PyDict.keys m')).
Proof.
  unfold max_overlap_step, keep_best, candidate_ok.
  rewrite calculate_iou_eq. simpl.
  destruct (decide (det_detection_id c ∈ cons)) as [Hin|Hin].
  { rewrite bool_decide_eq_true_2 by done. simpl. eauto. }
  rewrite bool_decide_eq_false_2 by done. simpl.
  destruct (ca && negb (String.eqb (det_class d) (det_class c))); simpl; [eauto|].
  destruct (Qle_bool (iou_of d c) thr); simpl; [eauto|].
  destruct (PyDict.get m s) as [[b vb]|] eqn:Hget.
  - rewrite Hget. destruct (Qltb vb (iou_of d c)).
    + eexists; split; [done|]. split; [apply get_set_eq|].
      split; [intros; by apply get_set_ne|].
      rewrite keys_set_present; [done | by rewrite Hget].
    + eauto.
  - rewrite get_set_eq.
    assert (Qltb (iou_of d c) (iou_of d c) = false) as ->.
    { apply Qltb_ge, Qle_refl. }
    eexists; split; [done|]. split; [apply get_set_eq|].
    split; [intros; by apply get_set_ne|].
    rewrite set_fresh by done. unfold PyDict.keys. rewrite fmap_app. simpl.
    intros Hnd. apply NoDup_app. split; [done|]. split; [|apply NoDup_singleton].
    intros k Hk ->%list_elem_of_singleton. by apply get_None in Hget.
Qed.

Lemma max_overlap_loop_spec d thr ca cons items :
  ∀ m, ∃ m',
    for_each (max_overlap_step d thr ca cons) items m = Ok m'
    ∧ (∀ s, PyDict.get m' s
            = fold_left (keep_best d thr ca cons) (candidates_of s items)
                (PyDict.get m s))
    ∧ (NoDup (PyDict.keys m) → NoDup (PyDict.keys m')).
Proof.
  induction items as [|[s c] items IH]; intros m; cbn [for_each].
  - eauto.
  - destruct (max_overlap_step_spec d thr ca cons m s c)
      as (m1 & -> & Hs & Hother & Hnd). cbn [bind].
    destruct (IH m1) as (m' & -> & Hget & Hnd').
    eexists; split; [done|]. split; [|auto].
    intros s'. rewrite Hget. unfold candidates_of. simpl.
    destruct (Nat.eqb_spec s s') as [->|Hne]; simpl.
    + by rewrite Hs.
    + by rewrite Hother.
Qed.

Lemma candidates_of_app s l1 l2 :
  candidates_of s (l1 ++ l2) = candidates_of s l1 ++ candidates_of s l2.
Proof. unfold candidates_of. by rewrite List.filter_app, fmap_app. Qed.

Lemma candidates_of_pair s k (dets : list Detection) :
  candidates_of s (pair k <$> dets) = if decide (k = s) then dets else [].
Proof.
  unfold candidates_of. induction dets as [|c dets IH]; simpl.
  - by destruct (decide _).
  - destruct (Nat.eqb_spec k s) as [->|Hne]; simpl.
    + rewrite decide_True in IH |- * by done. by f_equal.
    + rewrite decide_False in IH |- * by done. done.
Qed.

Lemma candidates_of_enumerate_from excl k (l : list (list Detection)) s :
  candidates_of s
    (concat (imap (λ i dets, if decide (excl = Some (k + i)) then []
                             else pair (k + i) <$> dets) l))
  = if decide (excl = Some s) then []
    else if decide (k ≤ s) then default [] (l !! (s - k)) else [].
Proof.
  revert k. induction l as [|dets l IH]; intros k; simpl.
  - by repeat case_decide.
  - rewrite candidates_of_app.
    rewrite (imap_ext _ (λ i dets, if decide (excl = Some (S k + i)) then []
                                    else pair (S k + i) <$> dets)); last first.
    { intros i x _. simpl. by replace (k + S i) with (S (k + i)) by lia. }
    rewrite IH. rewrite Nat.add_0_r.
    destruct (decide (excl = Some k)) as [->|Hk].
    + destruct (decide (Some k = Some s)) as [[= ->]|Hs]; [done|]. simpl.
      assert (k ≠ s) by congruence.
      repeat case_decide; try done; try lia.
      by replace (s - k) with (S (s - S k)) by lia.
    + rewrite candidates_of_pair.
      destruct (decide (excl = Some s)) as [->|Hs].
      * rewrite decide_False by congruence. done.
      * destruct (decide (k = s)) as [->|Hne].
        -- repeat case_decide; try lia.
           rewrite Nat.sub_diag. simpl. by rewrite app_nil_r.
        -- simpl. repeat case_decide; try done; try lia.
           by replace (s - k) with (S (s - S k)) by lia.
Qed.

Lemma candidates_of_enumerate excl (predictions : list (list Detection)) s :
  candidates_of s (enumerate_detections predictions excl)
  = if decide (excl = Some s) then [] else default [] (predictions !! s).
Proof.
  unfold enumerate_detections.
  pose proof (candidates_of_enumerate_from excl 0 predictions s) as H.
  cbn [Nat.add] in H. rewrite H.
  rewrite (decide_True (P := 0 ≤ s)) by lia. by rewrite Nat.sub_0_r.
Qed.

Lemma keep_best_fold_None d thr ca cons dets :
  fold_left (keep_best d thr ca cons) dets None = None
  ↔ ∀ c, c ∈ dets → candidate_ok d thr ca cons c = false.
Proof.
  induction dets as [|x dets IH] using rev_ind.
  - split; [|done]. intros _ c Hc. by apply elem_of_nil in Hc.
  - rewrite fold_left_app. simpl. unfold keep_best at 1.
    destruct (candidate_ok d thr ca cons x) eqn:Hx.
    + split.
      * destruct (fold_left _ dets None) as [[b vb]|]; [|done].
        by destruct (Qltb vb (iou_of d x)).
      * intros H. rewrite H in Hx; [done|]. apply elem_of_app. right.
        by apply list_elem_of_singleton.
    + rewrite IH. split.
      * intros H c [Hc| ->%list_elem_of_singleton]%elem_of_app; auto.
      * intros H c Hc. apply H, elem_of_app. by left.
Qed.

Lemma keep_best_fold_Some d thr ca cons dets c v :
  fold_left (keep_best d thr ca cons) dets None = Some (c, v) →
  ∃ i, dets !! i = Some c
    ∧ candidate_ok d thr ca cons c = true
    ∧ v = iou_of d c
    ∧ ∀ j c', dets !! j = Some c' → candidate_ok d thr ca cons c' = true →
        (iou_of d c' <= v)%Q ∧ (j < i → (iou_of d c' < v)%Q).
Proof.
  revert c v. induction dets as [|x dets IH] using rev_ind; intros c v.
  - done.
  - rewrite fold_left_app. simpl. unfold keep_best at 1.
    destruct (candidate_ok d thr ca cons x) eqn:Hx.
    + destruct (fold_left _ dets None) as [[b vb]|] eqn:Hfold.
      * destruct (Qltb vb (iou_of d x)) eqn:Hlt.
        -- (* the newcomer is strictly better *)
           intros [= <- <-]. exists (length dets).
           split; [by apply list_lookup_middle|]. do 2 (split; [done|]).
           destruct (IH _ _ eq_refl) as (i & Hi & _ & -> & Hbest).
           apply Qltb_lt in Hlt.
           intros j c' [[Hj Hc']|[-> <-]]%lookup_snoc_Some Hok.
           ++ destruct (Hbest j c' Hc' Hok) as [Hle _].
              split; [|intros _]; lra.
           ++ split; [apply Qle_refl | lia].
        -- (* the entry stays *)
           intros [= <- <-].
           destruct (IH _ _ eq_refl) as (i & Hi & Hbok & -> & Hbest).
           exists i. split; [by apply lookup_app_l_Some|].
           do 2 (split; [done|]).
           apply Qltb_ge in Hlt.
           intros j c' [[Hj Hc']|[-> <-]]%lookup_snoc_Some Hok.
           ++ by apply Hbest.
           ++ split; [done|]. apply lookup_lt_Some in Hi. lia.
      * intros [= <- <-]. exists (length dets).
        split; [by apply list_lookup_middle|]. do 2 (split; [done|]).
        intros j c' [[Hj Hc']|[-> <-]]%lookup_snoc_Some Hok.
        -- apply keep_best_fold_None with (c := c') in Hfold; [congruence|].
           apply list_elem_of_lookup. eauto.
        -- split; [apply Qle_refl | lia].
    + intros Hfold. destruct (IH _ _ Hfold) as (i & Hi & Hbok & -> & Hbest).
      exists i. split; [by apply lookup_app_l_Some|]. do 2 (split; [done|]).
      intros j c' [[Hj Hc']|[-> <-]]%lookup_snoc_Some Hok.
      * by apply Hbest.
      * congruence.
Qed.

Lemma max_overlap_dict d source predictions thr ca cons :
  ∃ m,
    get_detections_from_different_sources_with_max_overlap
      d source predictions thr ca cons = Ok m
    ∧ NoDup (PyDict.keys m)
    ∧ ∀ s, PyDict.get m s
           = if decide (s = source) then None
             else fold_left (keep_best d thr ca cons)
                    (default [] (predictions !! s)) None.
Proof.
  unfold get_detections_from_different_sources_with_max_overlap.
  destruct (max_overlap_loop_spec d thr ca cons
              (enumerate_detections predictions (Some source)) [])
    as (m & Hm & Hget & Hnd).
  exists m. split; [done|]. split; [apply Hnd, NoDup_nil_2|].
  intros s. rewrite Hget, candidates_of_enumerate. simpl.
  destruct (decide (s = source)) as [->|Hne].
  - by rewrite decide_True.
  - rewrite decide_False; [done | congruence].
Qed.


(** *** Aggregation of a non-empty group *)

Lemma py_max2_spec v a :
  (v <= py_max2 v a)%Q ∧ (a <= py_max2 v a)%Q
  ∧ (py_max2 v a = v ∨ py_max2 v a = a).
Proof.
  unfold py_max2. destruct (Qltb v a) eqn:E.
  - apply Qltb_lt in E. repeat split; [lra | lra | by right].
  - apply Qltb_ge in E. repeat split; [lra | lra | by left].
Qed.

Lemma py_min2_spec v a :
  (py_min2 v a <= v)%Q ∧ (py_min2 v a <= a)%Q
  ∧ (py_min2 v a = v ∨ py_min2 v a = a).
Proof.
  unfold py_min2. destruct (Qltb a v) eqn:E.
  - apply Qltb_lt in E. repeat split; [lra | lra | by right].
  - apply Qltb_ge in E. repeat split; [lra | lra | by left].
Qed.

Lemma fold_py_max2_spec vs v :
  fold_left py_max2 vs v ∈ v :: vs
  ∧ ∀ x, x ∈ v :: vs → (x <= fold_left py_max2 vs v)%Q.
Proof.
  revert v. induction vs as [|a vs IH]; intros v; simpl.
  - split; [by left|]. intros x ->%list_elem_of_singleton. apply Qle_refl.
  - destruct (IH (py_max2 v a)) as [Hin Hle].
    destruct (py_max2_spec v a) as (Hv & Ha & Hm).
    split.
    + apply elem_of_cons in Hin as [Heq|Hin].
      * rewrite Heq. destruct Hm as [->| ->]; [by left | right; by left].
      * right. by right.
    + intros x [->|[->|Hxs]%elem_of_cons]%elem_of_cons.
      * eapply Qle_trans; [exact Hv | apply Hle; by left].
      * eapply Qle_trans; [exact Ha | apply Hle; by left].
      * apply Hle. by right.
Qed.

Lemma fold_py_min2_spec vs v :
  fold_left py_min2 vs v ∈ v :: vs
  ∧ ∀ x, x ∈ v :: vs → (fold_left py_min2 vs v <= x)%Q.
Proof.
  revert v. induction vs as [|a vs IH]; intros v; simpl.
  - split; [by left|]. intros x ->%list_elem_of_singleton. apply Qle_refl.
  - destruct (IH (py_min2 v a)) as [Hin Hle].
    destruct (py_min2_spec v a) as (Hv & Ha & Hm).
    split.
    + apply elem_of_cons in Hin as [Heq|Hin].
      * rewrite Heq. destruct Hm as [->| ->]; [by left | right; by left].
      * right. by right.
    + intros x [->|[->|Hxs]%elem_of_cons]%elem_of_cons.
      * eapply Qle_trans; [apply Hle; by left | exact Hv].
      * eapply Qle_trans; [apply Hle; by left | exact Ha].
      * apply Hle. by right.
Qed.

Lemma py_max_spec values :
  values ≠ [] →
  ∃ r, py_max values = Ok r ∧ r ∈ values ∧ ∀ x, x ∈ values → (x <= r)%Q.
Proof.
  destruct values as [|v vs]; [done|]. intros _. simpl.
  destruct (fold_py_max2_spec vs v). eauto.
Qed.

Lemma py_min_spec values :
  values ≠ [] →
  ∃ r, py_min values = Ok r ∧ r ∈ values ∧ ∀ x, x ∈ values → (r <= x)%Q.
Proof.
  destruct values as [|v vs]; [done|]. intros _. simpl.
  destruct (fold_py_min2_spec vs v). eauto.
Qed.

Lemma aggregate_field_values_total detections field mode :
  detections ≠ [] →
  ∃ r, aggregate_field_values detections field mode = Ok r.
Proof.
  intros Hne. unfold aggregate_field_values.
  assert (get_field field <$> detections ≠ []) as Hv.
  { by destruct detections. }
  destruct mode; simpl.
  - destruct (get_field field <$> detections); [done|]. simpl. eauto.
  - destruct (py_max_spec _ Hv) as (r & -> & _). eauto.
  - destruct (py_min_spec _ Hv) as (r & -> & _). eauto.
Qed.

Lemma aggregate_field_values_extremum detections field mode :
  mode ≠ AVERAGE → detections ≠ [] →
  ∃ d, d ∈ detections
    ∧ aggregate_field_values detections field mode = Ok (get_field field d).
Proof.
  intros Hmode Hne. unfold aggregate_field_values.
  assert (get_field field <$> detections ≠ []) as Hv.
  { by destruct detections. }
  destruct mode; [done| |]; simpl.
  - destruct (py_max_spec _ Hv) as (r & -> & (d & -> & Hd)%list_elem_of_fmap & _).
    eauto.
  - destruct (py_min_spec _ Hv) as (r & -> & (d & -> & Hd)%list_elem_of_fmap & _).
    eauto.
Qed.

Lemma first_filter_total {A : Type} (p : A → bool) (l : list A) x :
  x ∈ l → p x = true → ∃ y, first (List.filter p l) = Ok y.
Proof.
  intros Hx Hp. apply list_elem_of_In in Hx.
  assert (In x (List.filter p l)) as Hin by (apply filter_In; done).
  destruct (List.filter p l); [done|]. simpl. eauto.
Qed.

Lemma get_class_of_extreme_detection_total detections mode :
  mode ≠ AVERAGE → detections ≠ [] →
  ∃ r, AGGREGATION_MODE2CLASS_SELECTOR mode detections = Ok r.
Proof.
  intros Hmode Hne.
  destruct (aggregate_field_values_extremum detections F_confidence mode
              Hmode Hne) as (d & Hd & Hagg).
  destruct (first_filter_total
              (λ d', Qeq_bool (det_confidence d') (det_confidence d))
              detections d Hd) as (y & Hy).
  { apply Qeq_bool_iff. reflexivity. }
  destruct mode; [done| |]; simpl;
    unfold get_class_of_most_confident_detection,
           get_class_of_least_confident_detection;
    rewrite Hagg; simpl; simpl in Hy; rewrite Hy; simpl; eauto.
Qed.

Section CounterFacts.
Context {K V : Type} `{EqDecision K}.
Implicit Types (m : list (K * V)) (k : K) (v : V).

Lemma set_nonempty m k v : PyDict.set m k v ≠ [].
Proof. destruct m as [|[k' v'] m]; simpl; [done|]. by destruct (decide _). Qed.

Lemma elem_of_keys_set m k v k' :
  k' ∈ PyDict.keys (PyDict.set m k v) ↔ k' = k ∨ k' ∈ PyDict.keys m.
Proof.
  unfold PyDict.keys. induction m as [|[k0 v0] m IH]; simpl.
  - rewrite list_elem_of_singleton. split; [by left|]. intros [?|H0]; [done|].
    by apply elem_of_nil in H0.
  - destruct (decide (k0 = k)) as [->|Hne]; simpl.
    + rewrite !elem_of_cons. tauto.
    + rewrite !elem_of_cons, IH. tauto.
Qed.

Lemma fold_set_keys (f : list (K * V) → K → V) (ks : list K) m k :
  k ∈ PyDict.keys (fold_left (λ acc x, PyDict.set acc x (f acc x)) ks m)
  ↔ k ∈ PyDict.keys m ∨ k ∈ ks.
Proof.
  revert m. induction ks as [|x ks IH]; intros m; simpl.
  - split; [by left|]. intros [?|H0]; [done|]. by apply elem_of_nil in H0.
  - rewrite IH, elem_of_keys_set, elem_of_cons. tauto.
Qed.

Lemma fold_set_nonempty (f : list (K * V) → K → V) (ks : list K) m :
  m ≠ [] ∨ ks ≠ [] →
  fold_left (λ acc x, PyDict.set acc x (f acc x)) ks m ≠ [].
Proof.
  revert m. induction ks as [|x ks IH]; intros m; simpl.
  - by intros [?|?].
  - intros _. apply IH. left. apply set_nonempty.
Qed.
End CounterFacts.

Lemma most_common_1_spec (counts : list (string * nat)) :
  counts ≠ [] → ∃ top, most_common_1 counts = [top] ∧ top ∈ counts.
Proof.
  destruct counts as [|c cs]; [done|]. intros _. simpl.
  eexists; split; [done|]. revert c.
  induction cs as [|e cs IH]; intros c; simpl; [by left|].
  pose proof (IH (if c.2 <? e.2 then e else c)) as Hin.
  apply elem_of_cons in Hin as [Heq|Hin].
  - rewrite Heq. destruct (c.2 <? e.2); [right; by left | by left].
  - right. by right.
Qed.

Lemma get_majority_class_total detections :
  detections ≠ [] → ∃ r, get_majority_class detections = Ok r.
Proof.
  intros Hne. unfold get_majority_class, Counter.
  set (counts := fold_left _ (det_class <$> detections) []).
  destruct (most_common_1_spec counts) as (top & -> & Htop).
  { apply (fold_set_nonempty
             (λ acc x, S (default 0 (PyDict.get acc x)))).
    right. by destruct detections. }
  simpl.
  assert (top.1 ∈ det_class <$> detections) as Hcls.
  { assert (top.1 ∈ PyDict.keys counts) as Hk.
    { unfold PyDict.keys. apply list_elem_of_fmap. eauto. }
    apply (fold_set_keys (λ acc x, S (default 0 (PyDict.get acc x)))) in Hk.
    destruct Hk as [Hk|Hk]; [by apply elem_of_nil in Hk | done]. }
  apply list_elem_of_fmap in Hcls as (d & Hd & Hin).
  destruct (first_filter_total (λ d', String.eqb (det_class d') top.1)
              detections d Hin) as (y & Hy).
  { by apply String.eqb_eq. }
  destruct (List.filter _ detections) as [|z zs]; [done|]. simpl. eauto.
Qed.

Lemma class_selector_total mode detections :
  detections ≠ [] → ∃ r, AGGREGATION_MODE2CLASS_SELECTOR mode detections = Ok r.
Proof.
  intros Hne. destruct mode.
  - by apply get_majority_class_total.
  - by apply get_class_of_extreme_detection_total.
  - by apply get_class_of_extreme_detection_total.
Qed.

(** *** Boxes *)

Lemma first_index_from_spec (p : Q → bool) k (l : list Q) x :
  x ∈ l → p x = true →
  ∃ i y,
    first (List.filter (λ iv : nat * Q, p iv.2)
             (imap (λ i v, (k + i, v)) l)).*1 = Ok (k + i)
    ∧ l !! i = Some y ∧ p y = true
    ∧ ∀ j z, j < i → l !! j = Some z → p z = false.
Proof.
  revert k. induction l as [|a l IH]; intros k Hx Hp.
  - by apply elem_of_nil in Hx.
  - simpl. destruct (p a) eqn:Ha.
    + exists 0, a. simpl. repeat split; try done. intros j z Hj. lia.
    + apply elem_of_cons in Hx as [->|Hx]; [congruence|].
      destruct (IH (S k) Hx Hp) as (i & y & Hfirst & Hy & Hpy & Hbefore).
      exists (S i), y.
      rewrite (imap_ext _ (λ i v, (S k + i, v))); last first.
      { intros j z _. simpl. f_equal. lia. }
      rewrite Hfirst. split; [f_equal; lia|]. do 2 (split; [done|]).
      intros [|j] z Hj; simpl; [by intros [= <-] | intros Hz].
      apply (Hbefore j z); [lia | done].
Qed.

Lemma first_index_of_size_spec size (sizes : list Q) x :
  x ∈ sizes → (x == size)%Q →
  ∃ i y,
    first_index_of_size size sizes = Ok i
    ∧ sizes !! i = Some y ∧ (y == size)%Q
    ∧ ∀ j z, j < i → sizes !! j = Some z → ¬ (z == size)%Q.
Proof.
  intros Hx Heq.
  destruct (first_index_from_spec (λ v, Qeq_bool v size) 0 sizes x Hx)
    as (i & y & Hfirst & Hy & Hpy & Hbefore).
  { by apply Qeq_bool_iff. }
  exists i, y. split; [exact Hfirst|]. split; [done|].
  split; [by apply Qeq_bool_iff|].
  intros j z Hj Hz Hzs. apply Qeq_bool_iff in Hzs.
  by rewrite (Hbefore j z Hj Hz) in Hzs.
Qed.

Lemma get_detection_sizes_lookup detections i :
  get_detection_sizes detections !! i = box_area <$> detections !! i.
Proof. unfold get_detection_sizes. by rewrite list_lookup_fmap. Qed.

Lemma get_largest_bounding_box_spec detections :
  detections ≠ [] →
  ∃ i d,
    get_largest_bounding_box detections = Ok (box_of d)
    ∧ detections !! i = Some d
    ∧ ∀ j d', detections !! j = Some d' →
        (box_area d' <= box_area d)%Q ∧ (j < i → (box_area d' < box_area d)%Q).
Proof.
  intros Hne. unfold get_largest_bounding_box.
  destruct (py_max_spec (get_detection_sizes detections))
    as (r & -> & Hr & Hmax).
  { by destruct detections. }
  simpl.
  destruct (first_index_of_size_spec r (get_detection_sizes detections) r Hr)
    as (i & y & -> & Hy & Hyr & Hbefore); [reflexivity|].
  simpl. rewrite get_detection_sizes_lookup in Hy.
  destruct (detections !! i) as [d|] eqn:Hd; [|done].
  injection Hy as <-. exists i, d. do 2 (split; [done|]).
  intros j d' Hd'.
  assert (get_detection_sizes detections !! j = Some (box_area d')) as Hj.
  { by rewrite get_detection_sizes_lookup, Hd'. }
  assert (box_area d' <= r)%Q as Hle.
  { apply Hmax, list_elem_of_lookup. eauto. }
  split; [lra|]. intros Hlt. pose proof (Hbefore j _ Hlt Hj). lra.
Qed.

Lemma get_smallest_bounding_box_spec detections :
  detections ≠ [] →
  ∃ i d,
    get_smallest_bounding_box detections = Ok (box_of d)
    ∧ detections !! i = Some d
    ∧ ∀ j d', detections !! j = Some d' →
        (box_area d <= box_area d')%Q ∧ (j < i → (box_area d < box_area d')%Q).
Proof.
  intros Hne. unfold get_smallest_bounding_box.
  destruct (py_min_spec (get_detection_sizes detections))
    as (r & -> & Hr & Hmin).
  { by destruct detections. }
  simpl.
  destruct (first_index_of_size_spec r (get_detection_sizes detections) r Hr)
    as (i & y & -> & Hy & Hyr & Hbefore); [reflexivity|].
  simpl. rewrite get_detection_sizes_lookup in Hy.
  destruct (detections !! i) as [d|] eqn:Hd; [|done].
  injection Hy as <-. exists i, d. do 2 (split; [done|]).
  intros j d' Hd'.
  assert (get_detection_sizes detections !! j = Some (box_area d')) as Hj.
  { by rewrite get_detection_sizes_lookup, Hd'. }
  assert (r <= box_area d')%Q as Hle.
  { apply Hmin, list_elem_of_lookup. eauto. }
  split; [lra|]. intros Hlt. pose proof (Hbefore j _ Hlt Hj). lra.
Qed.

Lemma py_round_spec q :
  (inject_Z (py_round q) - q <= 1 # 2)%Q ∧ (q - inject_Z (py_round q) <= 1 # 2)%Q.
Proof.
  unfold py_round.
  pose proof (Qfloor_le q) as Hlo. pose proof (Qlt_floor q) as Hhi.
  rewrite inject_Z_plus in Hhi. change (inject_Z 1) with 1%Q in Hhi.
  set (f := inject_Z (Qfloor q)) in *.
  assert (inject_Z (Qfloor q + 1) == f + 1)%Q as Hup.
  { by rewrite inject_Z_plus. }
  destruct (q - f ?= 1 # 2)%Q eqn:Hcmp.
  - apply Qeq_alt in Hcmp.
    destruct (Z.even (Qfloor q)); fold f; [|rewrite Hup]; split; lra.
  - apply Qlt_alt in Hcmp. fold f. split; lra.
  - apply Qgt_alt in Hcmp. rewrite Hup. split; lra.
Qed.

Lemma mean_value detections field :
  detections ≠ [] →
  aggregate_field_values detections field AVERAGE
  = Ok (Qsum (get_field field <$> detections)
        / inject_Z (Z.of_nat (length detections)))%Q.
Proof.
  intros Hne. unfold aggregate_field_values. simpl.
  destruct detections; [done|]. simpl. by rewrite length_fmap.
Qed.

Lemma boxes_aggregator_total mode detections :
  detections ≠ [] → ∃ r, AGGREGATION_MODE2BOXES_AGGREGATOR mode detections = Ok r.
Proof.
  intros Hne. destruct mode; simpl.
  - unfold get_average_bounding_box. rewrite !mean_value by done. simpl. eauto.
  - destruct (get_largest_bounding_box_spec _ Hne) as (i & d & -> & _). eauto.
  - destruct (get_smallest_bounding_box_spec _ Hne) as (i & d & -> & _). eauto.
Qed.

Lemma merge_detections_total detections cmode bmode fresh :
  detections ≠ [] →
  ∃ merged,
    merge_detections detections cmode bmode fresh = Ok merged
    ∧ aggregate_field_values detections F_confidence cmode
      = Ok (det_confidence merged)
    ∧ AGGREGATION_MODE2BOXES_AGGREGATOR bmode detections = Ok (box_of merged)
    ∧ det_detection_id merged = fresh.
Proof.
  intros Hne. unfold merge_detections.
  destruct (class_selector_total cmode _ Hne) as ([cn ci] & ->).
  destruct (boxes_aggregator_total bmode _ Hne) as ([[[x y] w] h] & ->).
  destruct (aggregate_field_values_total _ F_confidence cmode Hne) as (c & ->).
  destruct detections as [|hd tl]; [done|]. simpl. eauto.
Qed.

(** *** One seed *)

Lemma elem_of_mark_considered cons d (m : list (nat * (Detection * Q))) x :
  x ∈ mark_considered cons d m
  ↔ x ∈ cons ∨ x ∈ det_detection_id <$> d :: (PyDict.values m).*1.
Proof.
  unfold mark_considered, PyDict.values.
  assert (∀ (vs : list (Detection * Q)) (s : gset string),
            x ∈ fold_left (λ s mv, s ∪ {[det_detection_id mv.1]}) vs s
            ↔ x ∈ s ∨ x ∈ det_detection_id <$> vs.*1) as Hfold.
  { induction vs as [|v vs IH]; intros s; simpl.
    - split; [by left|]. intros [?|H0]; [done|]. by apply elem_of_nil in H0.
    - rewrite IH, elem_of_union, elem_of_singleton, elem_of_cons. tauto. }
  rewrite Hfold, elem_of_union, elem_of_singleton. simpl.
  rewrite elem_of_cons. tauto.
Qed.

Lemma get_elem_of_NoDup {K V : Type} `{EqDecision K} (m : list (K * V)) k v :
  NoDup (PyDict.keys m) → (k, v) ∈ m → PyDict.get m k = Some v.
Proof.
  unfold PyDict.keys. induction m as [|[k' v'] m IH]; simpl.
  - intros _ H0. by apply elem_of_nil in H0.
  - intros [Hk Hnd]%NoDup_cons [[= <- <-]|Hin]%elem_of_cons.
    + by rewrite decide_True.
    + rewrite decide_False; [by apply IH|].
      intros ->. apply Hk, list_elem_of_fmap. by exists (k, v).
Qed.

Lemma matched_are_eligible d source predictions thr ca cons m c :
  get_detections_from_different_sources_with_max_overlap
    d source predictions thr ca cons = Ok m →
  c ∈ (PyDict.values m).*1 →
  candidate_ok d thr ca cons c = true.
Proof.
  intros Hm Hc.
  destruct (max_overlap_dict d source predictions thr ca cons)
    as (m' & Hm' & Hnd & Hget).
  rewrite Hm in Hm'. injection Hm' as <-.
  unfold PyDict.values in Hc.
  apply list_elem_of_fmap in Hc as ([c' v] & -> & Hcv).
  apply list_elem_of_fmap in Hcv as ([s [c2 v2]] & Heq & Hs).
  simpl in Heq. injection Heq as <- <-. simpl.
  apply get_elem_of_NoDup in Hs; [|done].
  rewrite Hget in Hs. destruct (decide (s = source)); [done|].
  by destruct (keep_best_fold_Some _ _ _ _ _ _ _ Hs) as (i & _ & Hok & _).
Qed.

Lemma candidate_ok_not_considered d thr ca cons c :
  candidate_ok d thr ca cons c = true → det_detection_id c ∉ cons.
Proof.
  unfold candidate_ok. rewrite !andb_true_iff, negb_true_iff.
  intros [[H _] _]. by apply bool_decide_eq_false in H.
Qed.

Lemma single_detection_spec d source_id predictions thr ca rv conf cm bm cons n :
  det_detection_id d ∉ cons →
  ∃ m merged,
    get_detections_from_different_sources_with_max_overlap
      d source_id predictions thr ca cons = Ok m
    ∧ merge_detections (d :: (PyDict.values m).*1) cm bm (uuid4 n) = Ok merged
    ∧ get_consensus_for_single_detection d source_id predictions thr ca rv
        conf cm bm cons n
      = Ok (if (Z.of_nat (length m) <? rv - 1)%Z then ([], cons, n)
            else if Qltb (det_confidence merged) conf then ([], cons, S n)
            else ([merged], mark_considered cons d m, S n)).
Proof.
  intros Hseed. unfold get_consensus_for_single_detection.
  rewrite decide_False by done.
  destruct (max_overlap_dict d source_id predictions thr ca cons)
    as (m & Hm & _).
  destruct (merge_detections_total (d :: (PyDict.values m).*1) cm bm (uuid4 n))
    as (merged & Hmerged & _); [done|].
  exists m, merged. rewrite Hm, Hmerged. simpl.
  do 2 (split; [done|]).
  destruct (_ <? _)%Z; [done|]. rewrite Hmerged. simpl.
  by destruct (Qltb _ _).
Qed.

Lemma single_detection_skip d source_id predictions thr ca rv conf cm bm cons n :
  det_detection_id d ∈ cons →
  get_consensus_for_single_detection d source_id predictions thr ca rv
    conf cm bm cons n = Ok ([], cons, n).
Proof.
  intros Hin. unfold get_consensus_for_single_detection.
  by rewrite decide_True.
Qed.

(** *** The loop over all seeds *)

Lemma group_not_considered d source_id predictions thr ca cons m y :
  det_detection_id d ∉ cons →
  get_detections_from_different_sources_with_max_overlap
    d source_id predictions thr ca cons = Ok m →
  y ∈ d :: (PyDict.values m).*1 → det_detection_id y ∉ cons.
Proof.
  intros Hseed Hm [->|Hy]%elem_of_cons; [done|].
  eapply candidate_ok_not_considered, matched_are_eligible; eauto.
Qed.

Lemma lineages_disjoint_snoc groups g (cons : gset string) :
  lineages_disjoint groups →
  (∀ g' x, g' ∈ groups → x ∈ g' → det_detection_id x ∈ cons) →
  (∀ y, y ∈ g → det_detection_id y ∉ cons) →
  lineages_disjoint (groups ++ [g]).
Proof.
  intros Hdis Hold Hnew i j gi gj x y Hij Hi Hj Hx Hy.
  apply lookup_snoc_Some in Hj as [[Hjlt Hj]|[-> <-]].
  - apply lookup_snoc_Some in Hi as [[_ Hi]|[-> _]]; [|lia].
    by apply (Hdis i j gi gj).
  - apply lookup_snoc_Some in Hi as [[_ Hi]|[-> _]]; [|lia].
    intros Heq. apply (Hnew y Hy). rewrite <- Heq.
    apply (Hold gi); [|done]. apply list_elem_of_lookup. eauto.
Qed.

Lemma lineage_step_spec thr ca rv conf cm bm predictions log cons n s d :
  loop_invariant rv conf log cons →
  ∃ log1 cons1 n1,
    lineage_loop_body thr ca rv conf cm bm predictions (log, cons, n) (s, d)
    = Ok (log1, cons1, n1)
    ∧ consensus_loop_body thr ca rv conf cm bm predictions
        (log.*1, cons, n) (s, d)
      = Ok (log1.*1, cons1, n1)
    ∧ loop_invariant rv conf log1 cons1.
Proof.
  intros (Hcons & Hdis & Hconf & Hvotes).
  unfold lineage_loop_body, consensus_loop_body.
  destruct (decide (det_detection_id d ∈ cons)) as [Hin|Hseed].
  { rewrite single_detection_skip by done. simpl. rewrite !app_nil_r.
    exists log, cons, n. by repeat split. }
  destruct (single_detection_spec d s predictions thr ca rv conf cm bm cons n
              Hseed) as (m & merged & Hm & Hmerged & ->).
  destruct (Z.of_nat (length m) <? rv - 1)%Z eqn:Hrv.
  { simpl. rewrite !app_nil_r. exists log, cons, n. by repeat split. }
  destruct (Qltb (det_confidence merged) conf) eqn:Hc.
  { simpl. rewrite !app_nil_r. exists log, cons, (S n). by repeat split. }
  simpl. unfold group_of. rewrite Hm.
  eexists _, _, _. split; [done|]. split; [by rewrite fmap_app|].
  unfold loop_invariant. rewrite !fmap_app. simpl. repeat split.
  - intros g x [Hg| ->%list_elem_of_singleton]%elem_of_app Hx;
      apply elem_of_mark_considered.
    + left. by apply (Hcons g).
    + right. apply list_elem_of_fmap. eauto.
  - apply lineages_disjoint_snoc with (cons := cons); [done..|].
    intros y Hy. by eapply group_not_considered.
  - apply Forall_app. split; [done|]. apply Forall_singleton.
    by apply Qltb_ge.
  - apply Forall_app. split; [done|]. apply Forall_singleton.
    apply Z.ltb_ge in Hrv. simpl. unfold PyDict.values.
    rewrite !length_fmap. lia.
Qed.

Lemma lineage_loop_spec thr ca rv conf cm bm predictions items :
  ∀ log cons n,
    loop_invariant rv conf log cons →
    ∃ log' cons' n',
      for_each (lineage_loop_body thr ca rv conf cm bm predictions) items
        (log, cons, n) = Ok (log', cons', n')
      ∧ for_each (consensus_loop_body thr ca rv conf cm bm predictions) items
          (log.*1, cons, n) = Ok (log'.*1, cons', n')
      ∧ loop_invariant rv conf log' cons'.
Proof.
  induction items as [|[s d] items IH]; intros log cons n Hinv;
    cbn [for_each].
  - eauto 10.
  - destruct (lineage_step_spec thr ca rv conf cm bm predictions log cons n
                s d Hinv) as (log1 & cons1 & n1 & -> & -> & Hinv1).
    cbn [bind]. by apply IH.
Qed.

Lemma loop_invariant_init rv conf : loop_invariant rv conf [] ∅.
Proof.
  repeat split; try by constructor.
  - intros g x Hg. by apply elem_of_nil in Hg.
  - intros i j gi gj x y _ Hi. simpl in Hi. by destruct i.
Qed.

(** *** Parent identifiers *)

Lemma does_not_detected_concat predictions :
  does_not_detected_objects_in_any_source predictions = true
  ↔ concat predictions = [].
Proof.
  unfold does_not_detected_objects_in_any_source.
  induction predictions as [|p ps IH]; simpl; [done|].
  rewrite andb_true_iff, IH, Nat.eqb_eq. split.
  - intros [Hp ->]. by destruct p.
  - intros [-> ->]%app_eq_nil. done.
Qed.

Lemma concat_imap_nil {A B : Type} (f : nat → list A → list B) ps :
  concat ps = [] → (∀ i, f i [] = []) → concat (imap f ps) = [].
Proof.
  revert f. induction ps as [|q qs IH]; intros f Hq Hf; simpl; [done|].
  apply app_eq_nil in Hq as [-> Hq]. rewrite Hf. simpl.
  apply IH; [done|]. intros i. apply Hf.
Qed.

Lemma enumerate_detections_nil predictions excl :
  concat predictions = [] → enumerate_detections predictions excl = [].
Proof.
  intros H. unfold enumerate_detections. apply concat_imap_nil; [done|].
  intros i. by destruct (decide _).
Qed.

Lemma filter_predictions_nil predictions classes_to_consider :
  concat predictions = [] →
  concat (filter_predictions predictions classes_to_consider) = [].
Proof.
  destruct classes_to_consider as [classes|]; simpl; [|done].
  induction predictions as [|p ps IH]; simpl; [done|].
  intros [-> Hps]%app_eq_nil. simpl. by apply IH.
Qed.

Lemma parent_ids_mismatch predictions d1 d2 :
  d1 ∈ concat predictions → d2 ∈ concat predictions →
  det_parent_id d1 ≠ det_parent_id d2 →
  get_parent_id_of_predictions_from_different_sources predictions
  = Raise ExecutionGraphError.
Proof.
  intros H1 H2 Hne.
  unfold get_parent_id_of_predictions_from_different_sources.
  set (ids := list_to_set _ : gset string).
  assert (1 < size ids) as Hsize.
  { assert ({[det_parent_id d1]} ∪ {[det_parent_id d2]} ⊆ ids) as Hsub.
    { apply union_subseteq. split; apply singleton_subseteq_l;
        apply elem_of_list_to_set, list_elem_of_fmap; eauto. }
    apply subseteq_size in Hsub.
    rewrite size_union in Hsub
      by (apply disjoint_singleton_l; by intros ?%elem_of_singleton).
    rewrite !size_singleton in Hsub. lia. }
  apply Nat.ltb_lt in Hsize. by rewrite Hsize.
Qed.

Lemma parent_ids_agree predictions p :
  concat predictions ≠ [] →
  (∀ d, d ∈ concat predictions → det_parent_id d = p) →
  get_parent_id_of_predictions_from_different_sources predictions = Ok p.
Proof.
  intros Hne Hall.
  unfold get_parent_id_of_predictions_from_different_sources.
  assert (list_to_set (det_parent_id <$> concat predictions) = ({[p]} : gset string))
    as ->.
  { apply set_eq. intros x.
    rewrite elem_of_list_to_set, list_elem_of_fmap, elem_of_singleton. split.
    - intros (d & -> & Hd). by apply Hall.
    - intros ->. destruct (concat predictions) as [|d ds] eqn:E; [done|].
      exists d. split; [symmetry; apply Hall|]; by left. }
  rewrite size_singleton, elements_singleton. done.
Qed.

(** *** One batch element *)

Lemma resolve_batch_consensus_cases
    predictions rv ca thr conf ctc ro pm cm bm :
  ∃ log cons n,
    for_each
      (lineage_loop_body thr ca rv conf cm bm (filter_predictions predictions ctc))
      (enumerate_detections (filter_predictions predictions ctc) None)
      ([], ∅, 0) = Ok (log, cons, n)
    ∧ for_each
        (consensus_loop_body thr ca rv conf cm bm
           (filter_predictions predictions ctc))
        (enumerate_detections (filter_predictions predictions ctc) None)
        ([], ∅, 0) = Ok (log.*1, cons, n)
    ∧ loop_invariant rv conf log cons
    ∧ (concat (filter_predictions predictions ctc) = [] → log = [])
    ∧ resolve_batch_consensus predictions rv ca thr conf ctc ro pm cm bm
      = if does_not_detected_objects_in_any_source predictions
        then Ok ("undefined", false, [], [])
        else
          do parent_id <-
            get_parent_id_of_predictions_from_different_sources predictions;
          do (object_present, presence_confidence) <-
            check_objects_presence_in_consensus_predictions log.*1 ca pm ro;
          Ok (parent_id, object_present, presence_confidence, log.*1).
Proof.
  destruct (lineage_loop_spec thr ca rv conf cm bm
              (filter_predictions predictions ctc)
              (enumerate_detections (filter_predictions predictions ctc) None)
              [] ∅ 0 (loop_invariant_init rv conf))
    as (log & cons & n & Hlin & Hloop & Hinv).
  exists log, cons, n. do 3 (split; [done|]). split.
  - intros Hnil. rewrite enumerate_detections_nil in Hlin by done.
    simpl in Hlin. by injection Hlin as <- _ _.
  - unfold resolve_batch_consensus.
    destruct (does_not_detected_objects_in_any_source predictions); [done|].
    destruct (get_parent_id_of_predictions_from_different_sources predictions);
      [|done].
    simpl in Hloop |- *. by rewrite Hloop.
Qed.

(** *** Presence of objects *)

Lemma NoDup_keys_set {V : Type} (m : list (string * V)) k v :
  NoDup (PyDict.keys m) → NoDup (PyDict.keys (PyDict.set m k v)).
Proof.
  intros Hnd. destruct (PyDict.get m k) as [v'|] eqn:Hget.
  - rewrite keys_set_present; [done | by rewrite Hget].
  - rewrite set_fresh by done. unfold PyDict.keys. rewrite fmap_app. simpl.
    apply NoDup_app. split; [done|]. split; [|apply NoDup_singleton].
    intros k' Hk ->%list_elem_of_singleton. by apply get_None in Hget.
Qed.

Lemma of_class_snoc c detections x :
  of_class c (detections ++ [x])
  = of_class c detections ++ (if String.eqb (det_class x) c then [x] else []).
Proof. unfold of_class. by rewrite List.filter_app. Qed.

Lemma group_by_class_spec detections :
  NoDup (PyDict.keys (group_by_class detections))
  ∧ ∀ c, PyDict.get (group_by_class detections) c
         = match of_class c detections with
           | [] => None
           | l => Some l
           end.
Proof.
  unfold group_by_class.
  induction detections as [|x detections [IHnd IH]] using rev_ind.
  - split; [apply NoDup_nil_2 | done].
  - rewrite fold_left_app. simpl. split; [by apply NoDup_keys_set|].
    intros c. rewrite of_class_snoc.
    destruct (String.eqb_spec (det_class x) c) as [->|Hne].
    + rewrite get_set_eq, IH.
      by destruct (of_class c detections).
    + rewrite get_set_ne by done. by rewrite IH, app_nil_r.
Qed.

Lemma count_in_group_by_class detections c :
  count_in (group_by_class detections) c = length (of_class c detections).
Proof.
  unfold count_in. destruct (group_by_class_spec detections) as [_ ->].
  by destruct (of_class c detections).
Qed.

Lemma count_in_set_empty (G : list (string * list Detection)) c c' :
  PyDict.get G c = None → count_in (PyDict.set G c []) c' = count_in G c'.
Proof.
  intros Hnone. unfold count_in. destruct (decide (c = c')) as [<-|Hne].
  - by rewrite get_set_eq, Hnone.
  - by rewrite get_set_ne.
Qed.

Lemma check_required_classes_None items :
  ∀ G, check_required_classes items G = None
       ↔ ∃ c n, (c, n) ∈ items ∧ (Z.of_nat (count_in G c) < n)%Z.
Proof.
  induction items as [|[c n] items IH]; intros G; simpl.
  - split; [done|]. intros (c & n & H0 & _). by apply elem_of_nil in H0.
  - assert (∀ G', (∀ c', count_in G' c' = count_in G c') →
              ((if (Z.of_nat (count_in G c) <? n)%Z then None
                else check_required_classes items G') = None
               ↔ ∃ c0 n0, (c0, n0) ∈ (c, n) :: items
                           ∧ (Z.of_nat (count_in G c0) < n0)%Z)) as Hgen.
    { intros G' Hsame. destruct (Z.ltb_spec (Z.of_nat (count_in G c)) n).
      - split; [|done]. intros _. exists c, n. split; [by left | done].
      - rewrite IH. split.
        + intros (c0 & n0 & Hin & Hlt). exists c0, n0.
          split; [by right | by rewrite <- Hsame].
        + intros (c0 & n0 & [[= -> ->]|Hin]%elem_of_cons & Hlt); [lia|].
          exists c0, n0. split; [done | by rewrite Hsame]. }
    destruct (PyDict.get G c) as [ds|] eqn:Hget.
    + specialize (Hgen G (λ _, eq_refl)). unfold count_in in Hgen at 1.
      by rewrite Hget in Hgen.
    + specialize (Hgen (PyDict.set G c [])
                    (λ c', count_in_set_empty G c c' Hget)).
      unfold count_in in Hgen at 1. by rewrite Hget in Hgen.
Qed.

Lemma check_required_classes_present items G :
  (∀ c n, (c, n) ∈ items →
     (n <= Z.of_nat (count_in G c))%Z ∧ is_Some (PyDict.get G c)) →
  check_required_classes items G = Some G.
Proof.
  induction items as [|[c n] items IH]; simpl; [done|]. intros Hall.
  destruct (Hall c n) as [Hn [ds Hds]]; [by left|].
  unfold count_in in Hn. rewrite Hds in Hn |- *. simpl in Hn.
  rewrite (proj2 (Z.ltb_ge _ _)) by done.
  apply IH. intros c' n' Hin. apply Hall. by right.
Qed.

Lemma class2confidence_of_spec mode (G : list (string * list Detection)) :
  (∀ c l, (c, l) ∈ G → l ≠ []) →
  ∃ pc, class2confidence_of mode G = Ok pc
    ∧ PyDict.keys pc = PyDict.keys G
    ∧ ∀ c, match PyDict.get G c with
           | None => PyDict.get pc c = None
           | Some l =>
               ∃ v, aggregate_field_values l F_confidence mode = Ok v
                    ∧ PyDict.get pc c = Some v
           end.
Proof.
  induction G as [|[c l] G IH]; intros Hne; simpl.
  - eexists; repeat split; done.
  - destruct (aggregate_field_values_total l F_confidence mode) as (v & Hv).
    { apply (Hne c). by left. }
    destruct IH as (pc & Hpc & Hkeys & Hget).
    { intros c' l' Hin. apply (Hne c'). by right. }
    rewrite Hv, Hpc. simpl. eexists; split; [done|].
    split; [unfold PyDict.keys in *; simpl; by f_equal|].
    intros c'. simpl. destruct (decide (c = c')); [eauto | apply Hget].
Qed.

(** ** The properties of the specification *)

(** C2: for a seed that is not yet considered, the group goes on to be
    merged exactly when the number of matched other sources is at least
    [required_votes - 1]; with [required_votes = 1] this holds whatever was
    matched; the sources of a group that passed are pairwise distinct and
    at least [required_votes] many. *)
Theorem votes_decide_acceptance
    d source_id predictions thr ca rv conf cm bm cons n
    (Hseed : det_detection_id d ∉ cons) :
  ∃ m merged,
    get_detections_from_different_sources_with_max_overlap
      d source_id predictions thr ca cons = Ok m
    ∧ merge_detections (d :: (PyDict.values m).*1) cm bm (uuid4 n) = Ok merged
    ∧ NoDup (source_id :: PyDict.keys m)
    ∧ length (d :: (PyDict.values m).*1) = length (source_id :: PyDict.keys m)
    ∧ ((Z.of_nat (length (PyDict.keys m)) < rv - 1)%Z →
       get_consensus_for_single_detection d source_id predictions thr ca rv
         conf cm bm cons n = Ok ([], cons, n))
    ∧ ((rv - 1 <= Z.of_nat (length (PyDict.keys m)))%Z →
       (rv <= Z.of_nat (length (source_id :: PyDict.keys m)))%Z
       ∧ get_consensus_for_single_detection d source_id predictions thr ca rv
           conf cm bm cons n
         = Ok (if Qltb (det_confidence merged) conf then ([], cons, S n)
               else ([merged], mark_considered cons d m, S n)))
    ∧ (rv = 1%Z →
       get_consensus_for_single_detection d source_id predictions thr ca rv
         conf cm bm cons n
       = Ok (if Qltb (det_confidence merged) conf then ([], cons, S n)
             else ([merged], mark_considered cons d m, S n))).
Proof.
  destruct (single_detection_spec d source_id predictions thr ca rv conf cm bm
              cons n Hseed) as (m & merged & Hm & Hmerged & Hres).
  exists m, merged. do 2 (split; [done|]).
  destruct (max_overlap_dict d source_id predictions thr ca cons)
    as (m' & Hm' & Hnd & Hget).
  rewrite Hm in Hm'. injection Hm' as <-.
  assert (length (PyDict.keys m) = length m) as Hlen.
  { unfold PyDict.keys. by rewrite length_fmap. }
  split.
  { apply NoDup_cons. split; [|done]. apply get_None.
    by rewrite Hget, decide_True. }
  split.
  { simpl. unfold PyDict.values, PyDict.keys. by rewrite !length_fmap. }
  rewrite Hres, Hlen. split; [|split].
  - intros Hlt. apply Z.ltb_lt in Hlt. by rewrite Hlt.
  - intros Hge. split; [simpl; lia|]. apply Z.ltb_ge in Hge. by rewrite Hge.
  - intros ->. by rewrite (proj2 (Z.ltb_ge _ _)) by lia.
Qed.

(** C3 (amended): a group whose merged confidence is strictly below the
    threshold gives no output and leaves the set of considered detections
    as it was, so that its members stay unconsidered; every merged
    detection that [resolve_batch_consensus] returns has a confidence at
    least the threshold. *)
Theorem low_confidence_group_is_dropped
    d source_id predictions thr ca rv conf ctc ro pm cm bm cons n
    (Hseed : det_detection_id d ∉ cons) :
  (∃ m merged,
     get_detections_from_different_sources_with_max_overlap
       d source_id predictions thr ca cons = Ok m
     ∧ merge_detections (d :: (PyDict.values m).*1) cm bm (uuid4 n) = Ok merged
     ∧ ((rv - 1 <= Z.of_nat (length m))%Z →
        (det_confidence merged < conf)%Q →
        get_consensus_for_single_detection d source_id predictions thr ca rv
          conf cm bm cons n = Ok ([], cons, S n)
        ∧ ∀ y, y ∈ d :: (PyDict.values m).*1 → det_detection_id y ∉ cons))
  ∧ ∀ parent_id object_present presence_confidence consensus_detections,
      resolve_batch_consensus predictions rv ca thr conf ctc ro pm cm bm
      = Ok (parent_id, object_present, presence_confidence,
            consensus_detections) →
      Forall (λ merged, (conf <= det_confidence merged)%Q)
        consensus_detections.
Proof.
  split.
  - destruct (single_detection_spec d source_id predictions thr ca rv conf cm
                bm cons n Hseed) as (m & merged & Hm & Hmerged & Hres).
    exists m, merged. do 2 (split; [done|]). intros Hge Hlt. split.
    + rewrite Hres. apply Z.ltb_ge in Hge. apply Qltb_lt in Hlt.
      by rewrite Hge, Hlt.
    + intros y Hy. by eapply group_not_considered.
  - intros p op pc dets Hres.
    destruct (resolve_batch_consensus_cases predictions rv ca thr conf ctc ro
                pm cm bm)
      as (log & cons' & n' & _ & _ & (_ & _ & Hconf & _) & _ & Heq).
    rewrite Heq in Hres.
    destruct (does_not_detected_objects_in_any_source predictions).
    { injection Hres as _ _ _ <-. constructor. }
    destruct (get_parent_id_of_predictions_from_different_sources predictions);
      [|done].
    simpl in Hres.
    destruct (check_objects_presence_in_consensus_predictions _ _ _ _)
      as [[op' pc']|]; [|done].
    simpl in Hres. by injection Hres as <- <- <- <-.
Qed.

(** C4: a detection that is already considered is skipped as a seed; no
    matched detection is one that is already considered; accepting a group
    adds exactly the identifiers of its members to the set; and over the
    whole batch element no raw [detection_id] belongs to the groups of two
    merged detections. *)
Theorem at_most_once_consumption
    predictions rv ca thr conf ctc ro pm cm bm d source_id cons0 n0 :
  (det_detection_id d ∈ cons0 →
   get_consensus_for_single_detection d source_id predictions thr ca rv conf
     cm bm cons0 n0 = Ok ([], cons0, n0))
  ∧ (∀ m c,
       get_detections_from_different_sources_with_max_overlap
         d source_id predictions thr ca cons0 = Ok m →
       c ∈ (PyDict.values m).*1 → det_detection_id c ∉ cons0)
  ∧ (∀ merged cons1 n1,
       get_consensus_for_single_detection d source_id predictions thr ca rv
         conf cm bm cons0 n0 = Ok ([merged], cons1, n1) →
       ∀ x, x ∈ cons1
            ↔ x ∈ cons0
              ∨ x ∈ det_detection_id
                      <$> group_of d source_id predictions thr ca cons0)
  ∧ ∃ log cons n,
      for_each
        (lineage_loop_body thr ca rv conf cm bm
           (filter_predictions predictions ctc))
        (enumerate_detections (filter_predictions predictions ctc) None)
        ([], ∅, 0) = Ok (log, cons, n)
      ∧ for_each
          (consensus_loop_body thr ca rv conf cm bm
             (filter_predictions predictions ctc))
          (enumerate_detections (filter_predictions predictions ctc) None)
          ([], ∅, 0) = Ok (log.*1, cons, n)
      ∧ lineages_disjoint log.*2
      ∧ (∀ g x, g ∈ log.*2 → x ∈ g → det_detection_id x ∈ cons)
      ∧ ∀ parent_id object_present presence_confidence consensus_detections,
          resolve_batch_consensus predictions rv ca thr conf ctc ro pm cm bm
          = Ok (parent_id, object_present, presence_confidence,
                consensus_detections) →
          consensus_detections = log.*1.
Proof.
  split; [apply single_detection_skip|]. split.
  { intros m c Hm Hc.
    eapply candidate_ok_not_considered, matched_are_eligible; eauto. }
  split.
  { intros merged cons1 n1 Hres x.
    destruct (decide (det_detection_id d ∈ cons0)) as [Hin|Hseed].
    { by rewrite single_detection_skip in Hres. }
    destruct (single_detection_spec d source_id predictions thr ca rv conf cm
                bm cons0 n0 Hseed) as (m & merged' & Hm & _ & Heq).
    rewrite Heq in Hres. unfold group_of. rewrite Hm.
    destruct (_ <? _)%Z; [done|]. destruct (Qltb _ _); [done|].
    injection Hres as _ <- _. apply elem_of_mark_considered. }
  destruct (resolve_batch_consensus_cases predictions rv ca thr conf ctc ro pm
              cm bm)
    as (log & cons & n & Hlin & Hloop & (Hcons & Hdis & _) & Hnil & Heq).
  exists log, cons, n. do 4 (split; [done|]).
  intros p op pc dets Hres. rewrite Heq in Hres.
  destruct (does_not_detected_objects_in_any_source predictions) eqn:Hempty.
  { injection Hres as _ _ _ <-. apply does_not_detected_concat in Hempty.
    by rewrite Hnil by by apply filter_predictions_nil. }
  destruct (get_parent_id_of_predictions_from_different_sources predictions);
    [|done].
  simpl in Hres.
  destruct (check_objects_presence_in_consensus_predictions _ _ _ _)
    as [[op' pc']|]; [|done].
  simpl in Hres. by injection Hres as _ _ _ <-.
Qed.

(** C5 (amended): when every source has zero detections the result is
    ("undefined", False, {}, []); when detections were supplied, all with
    parent identifier [p], and the class filter removes all of them, the
    result is (p, False, {}, []). *)
Theorem empty_element_result predictions rv ca thr conf ctc ro pm cm bm :
  ((∀ detections, detections ∈ predictions → detections = []) →
   resolve_batch_consensus predictions rv ca thr conf ctc ro pm cm bm
   = Ok ("undefined", false, [], []))
  ∧ ∀ p,
      concat predictions ≠ [] →
      (∀ d, d ∈ concat predictions → det_parent_id d = p) →
      (∀ detections,
         detections ∈ filter_predictions predictions ctc → detections = []) →
      resolve_batch_consensus predictions rv ca thr conf ctc ro pm cm bm
      = Ok (p, false, [], []).
Proof.
  assert (∀ l : list (list Detection),
            (∀ ds, ds ∈ l → ds = []) → concat l = []) as Hconcat.
  { induction l as [|ds l IH]; intros Hall; simpl; [done|].
    rewrite (Hall ds) by by left. simpl. apply IH. intros ds' Hds'.
    apply Hall. by right. }
  destruct (resolve_batch_consensus_cases predictions rv ca thr conf ctc ro pm
              cm bm) as (log & cons & n & _ & _ & _ & Hnil & ->).
  split.
  - intros Hall%Hconcat. apply does_not_detected_concat in Hall.
    by rewrite Hall.
  - intros p Hne Hp Hall%Hconcat.
    destruct (does_not_detected_objects_in_any_source predictions) eqn:Hempty.
    { by apply does_not_detected_concat in Hempty. }
    rewrite (parent_ids_agree predictions p) by done.
    by rewrite Hnil.
Qed.

(** C6: detections with two different parent identifiers make the parent
    check, and with it the whole batch element, fail with the error of the
    mismatch; when all detections share one parent identifier it is the one
    returned. *)
Theorem parent_id_must_agree predictions rv ca thr conf ctc ro pm cm bm :
  (∀ d1 d2,
     d1 ∈ concat predictions → d2 ∈ concat predictions →
     det_parent_id d1 ≠ det_parent_id d2 →
     get_parent_id_of_predictions_from_different_sources predictions
     = Raise ExecutionGraphError
     ∧ resolve_batch_consensus predictions rv ca thr conf ctc ro pm cm bm
       = Raise ExecutionGraphError)
  ∧ ∀ p,
      concat predictions ≠ [] →
      (∀ d, d ∈ concat predictions → det_parent_id d = p) →
      get_parent_id_of_predictions_from_different_sources predictions = Ok p
      ∧ ∃ consensus_detections,
          resolve_batch_consensus predictions rv ca thr conf ctc ro pm cm bm
          = do (object_present, presence_confidence) <-
              check_objects_presence_in_consensus_predictions
                consensus_detections ca pm ro;
            Ok (p, object_present, presence_confidence, consensus_detections).
Proof.
  destruct (resolve_batch_consensus_cases predictions rv ca thr conf ctc ro pm
              cm bm) as (log & cons & n & _ & _ & _ & _ & ->).
  split.
  - intros d1 d2 H1 H2 Hne.
    pose proof (parent_ids_mismatch predictions d1 d2 H1 H2 Hne) as Hraise.
    split; [done|].
    destruct (does_not_detected_objects_in_any_source predictions) eqn:Hempty.
    { apply does_not_detected_concat in Hempty. rewrite Hempty in H1.
      by apply elem_of_nil in H1. }
    by rewrite Hraise.
  - intros p Hne Hp. rewrite (parent_ids_agree predictions p) by done.
    split; [done|].
    destruct (does_not_detected_objects_in_any_source predictions) eqn:Hempty.
    { by apply does_not_detected_concat in Hempty. }
    by exists log.*1.
Qed.

(** C7 (amended): with at least one merged detection, class-aware
    evaluation against a mapping reports (False, {}) as soon as a named
    class has fewer merged detections than required; when every named
    class has its required count and at least one merged detection, it
    reports True with, for exactly the classes that occur, the aggregate of
    the confidences of that class. *)
Theorem class_aware_presence_with_required_classes
    consensus_detections mode m (Hne : consensus_detections ≠ []) :
  ((∃ c n, (c, n) ∈ m
           ∧ (Z.of_nat (length (of_class c consensus_detections)) < n)%Z) →
   check_objects_presence_in_consensus_predictions consensus_detections true
     mode (Some (RequiredDict m)) = Ok (false, []))
  ∧ ((∀ c n, (c, n) ∈ m →
        (n <= Z.of_nat (length (of_class c consensus_detections)))%Z
        ∧ of_class c consensus_detections ≠ []) →
     ∃ presence_confidence,
       check_objects_presence_in_consensus_predictions consensus_detections
         true mode (Some (RequiredDict m)) = Ok (true, presence_confidence)
       ∧ NoDup (PyDict.keys presence_confidence)
       ∧ ∀ c, match of_class c consensus_detections with
              | [] => PyDict.get presence_confidence c = None
              | l =>
                  ∃ v, aggregate_field_values l F_confidence mode = Ok v
                       ∧ PyDict.get presence_confidence c = Some v
              end).
Proof.
  unfold check_objects_presence_in_consensus_predictions.
  destruct consensus_detections as [|d0 ds] eqn:Hdets; [done|].
  rewrite <- Hdets in *. replace (length consensus_detections =? 0) with false
    by (by rewrite Hdets). simpl.
  destruct (group_by_class_spec consensus_detections) as [Hnd Hget].
  split.
  - intros (c & n & Hin & Hlt).
    assert (check_required_classes m (group_by_class consensus_detections)
            = None) as ->; [|done].
    apply check_required_classes_None. exists c, n. split; [done|].
    by rewrite count_in_group_by_class.
  - intros Hall.
    rewrite check_required_classes_present; last first.
    { intros c n Hin. destruct (Hall c n Hin) as [Hn Hc].
      rewrite count_in_group_by_class. split; [done|]. rewrite Hget.
      by destruct (of_class c consensus_detections). }
    destruct (class2confidence_of_spec mode
                (group_by_class consensus_detections))
      as (pc & -> & Hkeys & Hpc).
    { intros c l Hin ->. apply get_elem_of_NoDup in Hin; [|done].
      rewrite Hget in Hin. by destruct (of_class c consensus_detections). }
    simpl. exists pc. split; [done|]. split; [by rewrite Hkeys|].
    intros c. specialize (Hpc c). rewrite Hget in Hpc.
    by destruct (of_class c consensus_detections).
Qed.

(** C10: with no merged detection the presence evaluation reports
    (False, {}) whatever [class_aware], [required_objects] and the
    aggregation mode are, and so does every result of
    [resolve_batch_consensus] whose list of merged detections is empty. *)
Theorem no_merged_detection_no_presence
    predictions rv ca thr conf ctc ro pm cm bm :
  check_objects_presence_in_consensus_predictions [] ca pm ro = Ok (false, [])
  ∧ ∀ parent_id object_present presence_confidence,
      resolve_batch_consensus predictions rv ca thr conf ctc ro pm cm bm
      = Ok (parent_id, object_present, presence_confidence, []) →
      object_present = false ∧ presence_confidence = [].
Proof.
  split; [done|]. intros p op pc Hres.
  destruct (resolve_batch_consensus_cases predictions rv ca thr conf ctc ro pm
              cm bm) as (log & cons & n & _ & _ & _ & _ & Heq).
  rewrite Heq in Hres.
  destruct (does_not_detected_objects_in_any_source predictions).
  { by injection Hres as _ <- <-. }
  destruct (get_parent_id_of_predictions_from_different_sources predictions);
    [|done].
  simpl in Hres.
  destruct (check_objects_presence_in_consensus_predictions log.*1 ca pm ro)
    as [[op' pc']|] eqn:Hcheck; [|done].
  simpl in Hres. injection Hres as _ <- <- Hlog.
  rewrite Hlog in Hcheck. by injection Hcheck as <- <-.
Qed.

(** ** Further properties of the code *)

(** *** The IoU is symmetric *)







(** *** Aggregates stay within the values they aggregate *)

Lemma Qsum_from_bounds (lo hi : Q) (values : list Q) (a0 : Q) :
  (∀ x, x ∈ values → (lo <= x)%Q ∧ (x <= hi)%Q) →
  (a0 + lo * inject_Z (Z.of_nat (length values))
   <= fold_left Qplus values a0)%Q
  ∧ (fold_left Qplus values a0
     <= a0 + hi * inject_Z (Z.of_nat (length values)))%Q.
Proof.
  revert a0. induction values as [|v values IH]; intros a0 Hb.
  - simpl. change (inject_Z (Z.of_nat 0)) with 0%Q. split; lra.
  - destruct (Hb v) as [Hlo Hhi]; [by left|].
    destruct (IH (a0 + v)%Q) as [IHlo IHhi].
    { intros x Hx. apply Hb. by right. }
    cbn [fold_left length]. rewrite Nat2Z.inj_succ, <- Z.add_1_r.
    rewrite inject_Z_plus. change (inject_Z 1) with 1%Q.
    split; lra.
Qed.

Lemma statistics_mean_bounds (lo hi : Q) (values : list Q) :
  values ≠ [] →
  (∀ x, x ∈ values → (lo <= x)%Q ∧ (x <= hi)%Q) →
  ∃ r, statistics_mean values = Ok r ∧ (lo <= r)%Q ∧ (r <= hi)%Q.
Proof.
  intros Hne Hb. unfold statistics_mean.
  destruct values as [|v vs] eqn:E; [done|]. rewrite <- E in *.
  eexists; split; [done|].
  destruct (Qsum_from_bounds lo hi values 0 Hb) as [Hlo Hhi].
  fold (Qsum values) in Hlo, Hhi.
  set (n := inject_Z (Z.of_nat (length values))) in *.
  assert (0 < n)%Q as Hn.
  { unfold n. rewrite E. simpl length.
    change 0%Q with (inject_Z 0). rewrite <- Zlt_Qlt. lia. }
  split.
  - apply Qle_shift_div_l; [done | lra].
  - apply Qle_shift_div_r; [done | lra].
Qed.

Lemma aggregate_field_values_between detections field mode (lo hi : Q) :
  detections ≠ [] →
  (∀ d, d ∈ detections →
     (lo <= get_field field d)%Q ∧ (get_field field d <= hi)%Q) →
  ∃ r, aggregate_field_values detections field mode = Ok r
       ∧ (lo <= r)%Q ∧ (r <= hi)%Q.
Proof.
  intros Hne Hb. unfold aggregate_field_values.
  assert (get_field field <$> detections ≠ []) as Hv by by destruct detections.
  assert (∀ x, x ∈ get_field field <$> detections → (lo <= x)%Q ∧ (x <= hi)%Q)
    as Hbv.
  { intros x (d & -> & Hd)%list_elem_of_fmap. by apply Hb. }
  destruct mode; simpl.
  - by apply statistics_mean_bounds.
  - destruct (py_max_spec _ Hv) as (r & -> & Hr & _). exists r.
    split; [done|]. by apply Hbv.
  - destruct (py_min_spec _ Hv) as (r & -> & Hr & _). exists r.
    split; [done|]. by apply Hbv.
Qed.

(** X2: on a non-empty group every aggregation mode gives a value between
    any lower and upper bound of the aggregated field, so an aggregate of
    confidences in [0, 1] is in [0, 1]; on an empty group MAX and MIN raise
    ValueError and AVERAGE raises StatisticsError. *)
Theorem aggregate_field_values_bounds detections field mode (lo hi : Q) :
  (detections ≠ [] →
   (∀ d, d ∈ detections →
      (lo <= get_field field d)%Q ∧ (get_field field d <= hi)%Q) →
   ∃ r, aggregate_field_values detections field mode = Ok r
        ∧ (lo <= r)%Q ∧ (r <= hi)%Q)
  ∧ aggregate_field_values [] field mode
    = Raise (if mode is AVERAGE then StatisticsError else ValueError).
Proof.
  split; [apply aggregate_field_values_between | by destruct mode].
Qed.

(** *** Which class a group gets *)

Lemma first_filter_spec {A : Type} (p : A → bool) (l : list A) x :
  x ∈ l → p x = true →
  ∃ i y, first (List.filter p l) = Ok y
    ∧ l !! i = Some y ∧ p y = true
    ∧ ∀ j z, j < i → l !! j = Some z → p z = false.
Proof.
  induction l as [|a l IH]; intros Hx Hp.
  - by apply elem_of_nil in Hx.
  - simpl. destruct (p a) eqn:Ha.
    + exists 0, a. simpl. repeat split; try done. intros j z Hj. lia.
    + apply elem_of_cons in Hx as [->|Hx]; [congruence|].
      destruct (IH Hx Hp) as (i & y & Hfirst & Hy & Hpy & Hbefore).
      exists (S i), y. do 3 (split; [done|]).
      intros [|j] z Hj; simpl; [by intros [= <-] | intros Hz].
      apply (Hbefore j z); [lia | done].
Qed.

Lemma most_confident_spec detections :
  detections ≠ [] →
  ∃ i d,
    get_class_of_most_confident_detection detections
    = Ok (det_class d, det_class_id d)
    ∧ detections !! i = Some d
    ∧ ∀ j d', detections !! j = Some d' →
        (det_confidence d' <= det_confidence d)%Q
        ∧ (j < i → (det_confidence d' < det_confidence d)%Q).
Proof.
  intros Hne. unfold get_class_of_most_confident_detection,
    aggregate_field_values, AGGREGATION_MODE2FIELD_AGGREGATOR.
  destruct (py_max_spec (get_field F_confidence <$> detections))
    as (r & -> & Hr & Hmax); [by destruct detections|].
  apply list_elem_of_fmap in Hr as (d0 & -> & Hd0). simpl.
  destruct (first_filter_spec
              (λ d, Qeq_bool (det_confidence d) (det_confidence d0))
              detections d0 Hd0)
    as (i & d & -> & Hd & Hpd & Hbefore).
  { apply Qeq_bool_iff. reflexivity. }
  simpl. exists i, d. do 2 (split; [done|]). apply Qeq_bool_iff in Hpd.
  intros j d' Hd'.
  assert (det_confidence d' <= det_confidence d0)%Q as Hle.
  { apply Hmax, list_elem_of_fmap. exists d'. split; [done|].
    apply list_elem_of_lookup. eauto. }
  split; [lra|]. intros Hj. pose proof (Hbefore j d' Hj Hd') as Hn.
  assert (¬ (det_confidence d' == det_confidence d0)%Q) as Hneq.
  { intros Heq. apply Qeq_bool_iff in Heq. congruence. }
  lra.
Qed.

Lemma least_confident_spec detections :
  detections ≠ [] →
  ∃ i d,
    get_class_of_least_confident_detection detections
    = Ok (det_class d, det_class_id d)
    ∧ detections !! i = Some d
    ∧ ∀ j d', detections !! j = Some d' →
        (det_confidence d <= det_confidence d')%Q
        ∧ (j < i → (det_confidence d < det_confidence d')%Q).
Proof.
  intros Hne. unfold get_class_of_least_confident_detection,
    aggregate_field_values, AGGREGATION_MODE2FIELD_AGGREGATOR.
  destruct (py_min_spec (get_field F_confidence <$> detections))
    as (r & -> & Hr & Hmin); [by destruct detections|].
  apply list_elem_of_fmap in Hr as (d0 & -> & Hd0). simpl.
  destruct (first_filter_spec
              (λ d, Qeq_bool (det_confidence d) (det_confidence d0))
              detections d0 Hd0)
    as (i & d & -> & Hd & Hpd & Hbefore).
  { apply Qeq_bool_iff. reflexivity. }
  simpl. exists i, d. do 2 (split; [done|]). apply Qeq_bool_iff in Hpd.
  intros j d' Hd'.
  assert (det_confidence d0 <= det_confidence d')%Q as Hle.
  { apply Hmin, list_elem_of_fmap. exists d'. split; [done|].
    apply list_elem_of_lookup. eauto. }
  split; [lra|]. intros Hj. pose proof (Hbefore j d' Hj Hd') as Hn.
  assert (¬ (det_confidence d' == det_confidence d0)%Q) as Hneq.
  { intros Heq. apply Qeq_bool_iff in Heq. congruence. }
  lra.
Qed.

(** X3: with MAX the group gets the class pair of its first member of
    highest confidence, with MIN that of its first member of lowest
    confidence. *)
Theorem class_of_extreme_confidence detections (Hne : detections ≠ []) :
  (∃ i d,
     AGGREGATION_MODE2CLASS_SELECTOR MAX detections
     = Ok (det_class d, det_class_id d)
     ∧ detections !! i = Some d
     ∧ ∀ j d', detections !! j = Some d' →
         (det_confidence d' <= det_confidence d)%Q
         ∧ (j < i → (det_confidence d' < det_confidence d)%Q))
  ∧ (∃ i d,
       AGGREGATION_MODE2CLASS_SELECTOR MIN detections
       = Ok (det_class d, det_class_id d)
       ∧ detections !! i = Some d
       ∧ ∀ j d', detections !! j = Some d' →
           (det_confidence d <= det_confidence d')%Q
           ∧ (j < i → (det_confidence d < det_confidence d')%Q)).
Proof.
  split; [by apply most_confident_spec | by apply least_confident_spec].
Qed.

Lemma Counter_snoc names x :
  Counter (names ++ [x])
  = PyDict.set (Counter names) x (S (default 0 (PyDict.get (Counter names) x))).
Proof. unfold Counter. by rewrite fold_left_app. Qed.

Lemma Counter_NoDup names : NoDup (PyDict.keys (Counter names)).
Proof.
  induction names as [|x names IH] using rev_ind; [apply NoDup_nil_2|].
  rewrite Counter_snoc. by apply NoDup_keys_set.
Qed.

Lemma Counter_get names c :
  PyDict.get (Counter names) c
  = match length (List.filter (λ n, String.eqb n c) names) with
    | 0 => None
    | S k => Some (S k)
    end.
Proof.
  induction names as [|x names IH] using rev_ind; [done|].
  rewrite Counter_snoc, List.filter_app, length_app. simpl.
  destruct (String.eqb_spec x c) as [->|Hne].
  - rewrite get_set_eq, IH. simpl.
    destruct (length _); simpl; f_equal; lia.
  - rewrite get_set_ne by done. by rewrite IH, Nat.add_0_r.
Qed.

Lemma Counter_keys names c : c ∈ PyDict.keys (Counter names) ↔ c ∈ names.
Proof.
  unfold Counter.
  rewrite (fold_set_keys (λ acc x, S (default 0 (PyDict.get acc x)))).
  split; [|by right]. intros [H0|?]; [|done]. by apply elem_of_nil in H0.
Qed.

(** Keys come in the order of their first occurrence. *)
Lemma Counter_order names p q cp cq :
  p < q →
  PyDict.keys (Counter names) !! p = Some cp →
  PyDict.keys (Counter names) !! q = Some cq →
  ∃ i, names !! i = Some cp ∧ ∀ j, names !! j = Some cq → i < j.
Proof.
  revert p q cp cq.
  induction names as [|x names IH] using rev_ind; intros p q cp cq Hpq.
  { intros Hp. by destruct p. }
  rewrite Counter_snoc.
  destruct (PyDict.get (Counter names) x) as [n|] eqn:Hget.
  - rewrite keys_set_present by by rewrite Hget.
    intros Hp Hq. destruct (IH p q cp cq Hpq Hp Hq) as (i & Hi & Hafter).
    exists i. split; [by apply lookup_app_l_Some|].
    intros j [[_ Hj]|[-> _]]%lookup_snoc_Some; [by apply Hafter|].
    by apply lookup_lt_Some in Hi.
  - rewrite set_fresh by done. unfold PyDict.keys. rewrite fmap_app. simpl.
    fold (PyDict.keys (Counter names)).
    intros Hp [[Hqlt Hq]|[-> <-]]%lookup_snoc_Some.
    + apply lookup_snoc_Some in Hp as [[_ Hp]|[-> _]]; [|lia].
      destruct (IH p q cp cq Hpq Hp Hq) as (i & Hi & Hafter).
      exists i. split; [by apply lookup_app_l_Some|].
      intros j [[_ Hj]|[-> _]]%lookup_snoc_Some; [by apply Hafter|].
      by apply lookup_lt_Some in Hi.
    + apply lookup_snoc_Some in Hp as [[_ Hp]|[-> _]]; [|lia].
      assert (cp ∈ names) as (i & Hi)%list_elem_of_lookup.
      { apply Counter_keys, list_elem_of_lookup. eauto. }
      exists i. split; [by apply lookup_app_l_Some|].
      intros j [[_ Hj]|[-> _]]%lookup_snoc_Some.
      * exfalso. apply get_None in Hget. apply Hget, Counter_keys.
        apply list_elem_of_lookup. eauto.
      * by apply lookup_lt_Some in Hi.
Qed.

Lemma most_common_1_first_max (counts : list (string * nat)) :
  counts ≠ [] →
  ∃ p top,
    most_common_1 counts = [top] ∧ counts !! p = Some top
    ∧ ∀ q e, counts !! q = Some e →
        e.2 ≤ top.2 ∧ (q < p → e.2 < top.2).
Proof.
  destruct counts as [|c cs]; [done|]. intros _. unfold most_common_1.
  induction cs as [|x cs IH] using rev_ind.
  - exists 0, c. simpl. do 2 (split; [done|]).
    intros [|q] e; simpl; [|done]. intros [= <-]. split; lia.
  - destruct IH as (p & top & [= Htop] & Hp & Hmax).
    rewrite fold_left_app. simpl. rewrite Htop.
    destruct (Nat.ltb_spec top.2 x.2) as [Hlt|Hge].
    + exists (S (length cs)), x. split; [done|].
      split; [by apply (list_lookup_middle (c :: cs) [])|].
      intros q e Hq.
      change (c :: cs ++ [x]) with ((c :: cs) ++ [x]) in Hq.
      apply lookup_snoc_Some in Hq as [[Hqlt Hq]|[-> <-]].
      * destruct (Hmax q e Hq). split; [lia | intros; lia].
      * simpl. split; [lia | intros; lia].
    + exists p, top. split; [done|].
      split; [by apply (lookup_app_l_Some (c :: cs) [x])|].
      intros q e Hq.
      change (c :: cs ++ [x]) with ((c :: cs) ++ [x]) in Hq.
      apply lookup_snoc_Some in Hq as [[Hqlt Hq]|[-> <-]].
      * by apply Hmax.
      * split; [done|]. apply lookup_lt_Some in Hp. simpl in *. lia.
Qed.

Lemma of_class_length_names c detections :
  length (List.filter (λ n, String.eqb n c) (det_class <$> detections))
  = length (of_class c detections).
Proof.
  unfold of_class. induction detections as [|d ds IH]; simpl; [done|].
  destruct (String.eqb (det_class d) c); simpl; by f_equal.
Qed.

Lemma Counter_lookup_count detections q c n :
  Counter (det_class <$> detections) !! q = Some (c, n) →
  n = length (of_class c detections).
Proof.
  intros Hq.
  assert (PyDict.get (Counter (det_class <$> detections)) c = Some n) as Hget.
  { apply get_elem_of_NoDup; [apply Counter_NoDup|].
    apply list_elem_of_lookup. eauto. }
  rewrite Counter_get, of_class_length_names in Hget.
  by destruct (length (of_class c detections)); [|injection Hget].
Qed.

Lemma get_majority_class_spec detections :
  detections ≠ [] →
  ∃ i d,
    get_majority_class detections = Ok (det_class d, det_class_id d)
    ∧ detections !! i = Some d
    ∧ (∀ j d', j < i → detections !! j = Some d' → det_class d' ≠ det_class d)
    ∧ ∀ j d', detections !! j = Some d' →
        length (of_class (det_class d') detections)
        ≤ length (of_class (det_class d) detections)
        ∧ (j < i →
           length (of_class (det_class d') detections)
           < length (of_class (det_class d) detections)).
Proof.
  intros Hne. unfold get_majority_class.
  set (C := Counter (det_class <$> detections)).
  destruct (most_common_1_first_max C) as (p & [c n] & -> & Hp & Hmax).
  { intros HC. destruct detections as [|d0 ds]; [done|].
    assert (det_class d0 ∈ PyDict.keys C) as Hk.
    { apply Counter_keys. by left. }
    rewrite HC in Hk. by apply elem_of_nil in Hk. }
  simpl.
  assert (c ∈ det_class <$> detections) as Hc.
  { apply Counter_keys. unfold PyDict.keys. apply list_elem_of_fmap.
    exists (c, n). split; [done|]. apply list_elem_of_lookup. eauto. }
  apply list_elem_of_fmap in Hc as (d0 & -> & Hd0).
  destruct (first_filter_spec (λ d, String.eqb (det_class d) (det_class d0))
              detections d0 Hd0)
    as (i & d & Hfirst & Hd & Hpd & Hbefore); [by apply String.eqb_eq|].
  apply String.eqb_eq in Hpd.
  destruct (List.filter _ detections) as [|y ys] eqn:Hfilter; [done|].
  injection Hfirst as ->. simpl. rewrite <- Hpd.
  exists i, d. do 2 (split; [done|]). split.
  { intros j d' Hj Hd' Heq. apply (Hbefore j d' Hj) in Hd'.
    rewrite <- Hpd, Heq, String.eqb_refl in Hd'. done. }
  pose proof (Counter_lookup_count detections p _ _ Hp) as ->.
  rewrite <- Hpd in Hmax, Hp.
  intros j d' Hd'.
  assert (det_class d' ∈ PyDict.keys C) as Hk.
  { apply Counter_keys, list_elem_of_fmap. exists d'. split; [done|].
    apply list_elem_of_lookup. eauto. }
  apply list_elem_of_lookup in Hk as (q & Hq).
  unfold PyDict.keys in Hq. rewrite list_lookup_fmap in Hq.
  destruct (C !! q) as [[c' n']|] eqn:HCq; [|done].
  simpl in Hq. injection Hq as ->.
  pose proof (Counter_lookup_count detections q _ _ HCq) as ->.
  destruct (Hmax q _ HCq) as [Hle Hlt]. simpl in Hle, Hlt.
  split; [done|]. intros Hj. apply Hlt.
  destruct (Nat.lt_trichotomy q p) as [?|[->|Hpq]]; [done| |].
  - rewrite Hp in HCq. injection HCq as Heq _.
    exfalso. apply (Hbefore j d' Hj) in Hd'.
    by rewrite <- Hpd, Heq, String.eqb_refl in Hd'.
  - exfalso.
    destruct (Counter_order (det_class <$> detections) p q
                (det_class d) (det_class d') Hpq) as (i0 & Hi0 & Hafter).
    { fold C. unfold PyDict.keys. by rewrite list_lookup_fmap, Hp. }
    { fold C. unfold PyDict.keys. by rewrite list_lookup_fmap, HCq. }
    assert (i0 < j) as Hij.
    { apply Hafter. by rewrite list_lookup_fmap, Hd'. }
    rewrite list_lookup_fmap in Hi0.
    destruct (detections !! i0) as [e|] eqn:He; [|done].
    injection Hi0 as He'.
    assert (i0 < i) as Hlt0 by lia.
    apply (Hbefore i0 e Hlt0) in He.
    by rewrite <- Hpd, He', String.eqb_refl in He.
Qed.

(** X4: with AVERAGE the group gets the class that most members have, the
    class met first among those met equally often, together with the
    [class_id] of the first member of that class. *)
Theorem majority_class_is_first_most_frequent
    detections (Hne : detections ≠ []) :
  ∃ i d,
    AGGREGATION_MODE2CLASS_SELECTOR AVERAGE detections
    = Ok (det_class d, det_class_id d)
    ∧ detections !! i = Some d
    ∧ (∀ j d', j < i → detections !! j = Some d' → det_class d' ≠ det_class d)
    ∧ ∀ j d', detections !! j = Some d' →
        length (of_class (det_class d') detections)
        ≤ length (of_class (det_class d) detections)
        ∧ (j < i →
           length (of_class (det_class d') detections)
           < length (of_class (det_class d) detections)).
Proof. by apply get_majority_class_spec. Qed.

(** *** What a merged detection takes from its group *)

Lemma class_selector_member mode detections :
  detections ≠ [] →
  ∃ d, d ∈ detections
    ∧ AGGREGATION_MODE2CLASS_SELECTOR mode detections
      = Ok (det_class d, det_class_id d).
Proof.
  intros Hne. destruct mode; simpl.
  - destruct (get_majority_class_spec _ Hne) as (i & d & -> & Hd & _).
    exists d. split; [|done]. apply list_elem_of_lookup. eauto.
  - destruct (most_confident_spec _ Hne) as (i & d & -> & Hd & _).
    exists d. split; [|done]. apply list_elem_of_lookup. eauto.
  - destruct (least_confident_spec _ Hne) as (i & d & -> & Hd & _).
    exists d. split; [|done]. apply list_elem_of_lookup. eauto.
Qed.

Lemma merge_detections_spec head tail cmode bmode fresh :
  ∃ merged,
    merge_detections (head :: tail) cmode bmode fresh = Ok merged
    ∧ det_detection_id merged = fresh
    ∧ det_parent_id merged = det_parent_id head
    ∧ (∃ d, d ∈ head :: tail
            ∧ det_class merged = det_class d
            ∧ det_class_id merged = det_class_id d)
    ∧ aggregate_field_values (head :: tail) F_confidence cmode
      = Ok (det_confidence merged)
    ∧ AGGREGATION_MODE2BOXES_AGGREGATOR bmode (head :: tail)
      = Ok (box_of merged).
Proof.
  assert (head :: tail ≠ []) as Hne by done.
  unfold merge_detections.
  destruct (class_selector_member cmode _ Hne) as (d & Hd & ->).
  destruct (boxes_aggregator_total bmode _ Hne) as ([[[x y] w] h] & ->).
  destruct (aggregate_field_values_total _ F_confidence cmode Hne) as (c & ->).
  simpl. eexists. split; [done|]. simpl. repeat split; eauto.
Qed.

(** X5: a merged detection carries the fresh identifier, the parent
    identifier of the first member of its group (the seed), the class name
    and class identifier of one and the same member, and a confidence
    within every pair of bounds that holds for the members' confidences;
    merging an empty group raises IndexError with AVERAGE and ValueError
    with MAX or MIN. *)
Theorem merge_detections_provenance head tail cmode bmode fresh :
  (∃ merged,
     merge_detections (head :: tail) cmode bmode fresh = Ok merged
     ∧ det_detection_id merged = fresh
     ∧ det_parent_id merged = det_parent_id head
     ∧ (∃ d, d ∈ head :: tail
             ∧ det_class merged = det_class d
             ∧ det_class_id merged = det_class_id d)
     ∧ ∀ lo hi,
         (∀ d, d ∈ head :: tail →
            (lo <= det_confidence d)%Q ∧ (det_confidence d <= hi)%Q) →
         (lo <= det_confidence merged)%Q ∧ (det_confidence merged <= hi)%Q)
  ∧ merge_detections [] cmode bmode fresh
    = Raise (if cmode is AVERAGE then IndexError else ValueError).
Proof.
  split; [|by destruct cmode].
  destruct (merge_detections_spec head tail cmode bmode fresh)
    as (merged & Hm & Hid & Hp & Hc & Hconf & _).
  exists merged. do 4 (split; [done|]). intros lo hi Hb.
  destruct (aggregate_field_values_between (head :: tail) F_confidence cmode
              lo hi) as (r & Hr & Hlo & Hhi); [done | exact Hb |].
  rewrite Hconf in Hr. by injection Hr as <-.
Qed.

(** *** A group of one *)

Lemma py_round_comp q q' : (q == q')%Q → py_round q = py_round q'.
Proof.
  intros Heq. unfold py_round. rewrite (Qfloor_comp _ _ Heq).
  assert ((q - inject_Z (Qfloor q') ?= 1 # 2)%Q
          = (q' - inject_Z (Qfloor q') ?= 1 # 2)%Q) as ->; [|done].
  apply Qcompare_comp; [by rewrite Heq | reflexivity].
Qed.

Lemma mean_singleton d field :
  ∃ r, aggregate_field_values [d] field AVERAGE = Ok r
       ∧ (r == get_field field d)%Q.
Proof.
  unfold aggregate_field_values. simpl. eexists; split; [done|].
  unfold Qsum. simpl. change (inject_Z (Z.of_nat 1)) with 1%Q. field.
Qed.

Lemma confidence_singleton d mode :
  ∃ r, aggregate_field_values [d] F_confidence mode = Ok r
       ∧ (r == det_confidence d)%Q.
Proof.
  destruct mode; [apply (mean_singleton d F_confidence)| |];
    (eexists; split; [done | reflexivity]).
Qed.

Lemma class_selector_singleton d mode :
  AGGREGATION_MODE2CLASS_SELECTOR mode [d] = Ok (det_class d, det_class_id d).
Proof.
  destruct mode; simpl.
  - unfold get_majority_class. simpl. by rewrite String.eqb_refl.
  - unfold get_class_of_most_confident_detection. simpl.
    by rewrite (proj2 (Qeq_bool_iff _ _) (Qeq_refl _)).
  - unfold get_class_of_least_confident_detection. simpl.
    by rewrite (proj2 (Qeq_bool_iff _ _) (Qeq_refl _)).
Qed.

Lemma boxes_aggregator_singleton d mode :
  AGGREGATION_MODE2BOXES_AGGREGATOR mode [d]
  = Ok (if mode is AVERAGE
        then (inject_Z (py_round (det_x d)), inject_Z (py_round (det_y d)),
              inject_Z (py_round (det_width d)),
              inject_Z (py_round (det_height d)))
        else box_of d).
Proof.
  destruct mode; simpl.
  - unfold get_average_bounding_box.
    destruct (mean_singleton d F_x) as (x & -> & Hx).
    destruct (mean_singleton d F_y) as (y & -> & Hy).
    destruct (mean_singleton d F_width) as (w & -> & Hw).
    destruct (mean_singleton d F_height) as (h & -> & Hh).
    simpl in *.
    by rewrite (py_round_comp _ _ Hx), (py_round_comp _ _ Hy),
      (py_round_comp _ _ Hw), (py_round_comp _ _ Hh).
  - unfold get_largest_bounding_box, first_index_of_size. simpl.
    by rewrite (proj2 (Qeq_bool_iff _ _) (Qeq_refl _)).
  - unfold get_smallest_bounding_box, first_index_of_size. simpl.
    by rewrite (proj2 (Qeq_bool_iff _ _) (Qeq_refl _)).
Qed.

Lemma merge_singleton_spec d cmode bmode fresh :
  ∃ merged,
    merge_detections [d] cmode bmode fresh = Ok merged
    ∧ det_detection_id merged = fresh
    ∧ det_parent_id merged = det_parent_id d
    ∧ det_class merged = det_class d
    ∧ det_class_id merged = det_class_id d
    ∧ (det_confidence merged == det_confidence d)%Q
    ∧ box_of merged
      = if bmode is AVERAGE
        then (inject_Z (py_round (det_x d)), inject_Z (py_round (det_y d)),
              inject_Z (py_round (det_width d)),
              inject_Z (py_round (det_height d)))
        else box_of d.
Proof.
  unfold merge_detections.
  rewrite class_selector_singleton, boxes_aggregator_singleton.
  destruct (confidence_singleton d cmode) as (c & Hc & Heq).
  destruct bmode; simpl; rewrite Hc; simpl; eexists; by repeat split.
Qed.

(** X6: a detection merged on its own keeps its parent identifier, class
    name and class identifier, a confidence of the same value, and its box:
    unchanged with MAX or MIN, each of x, y, width and height rounded to the
    nearest integer with AVERAGE. *)
Theorem merge_of_a_single_detection d cmode bmode fresh :
  ∃ merged,
    merge_detections [d] cmode bmode fresh = Ok merged
    ∧ det_detection_id merged = fresh
    ∧ det_parent_id merged = det_parent_id d
    ∧ det_class merged = det_class d
    ∧ det_class_id merged = det_class_id d
    ∧ (det_confidence merged == det_confidence d)%Q
    ∧ box_of merged
      = if bmode is AVERAGE
        then (inject_Z (py_round (det_x d)), inject_Z (py_round (det_y d)),
              inject_Z (py_round (det_width d)),
              inject_Z (py_round (det_height d)))
        else box_of d.
Proof. apply merge_singleton_spec. Qed.

(** *** What the loop records *)

Lemma for_each_invariant {A S : Type} (body : S → A → result S)
    (I : S → Prop) (l : list A) :
  (∀ s a s', a ∈ l → I s → body s a = Ok s' → I s') →
  ∀ s s', I s → for_each body l s = Ok s' → I s'.
Proof.
  induction l as [|a l IH]; intros Hstep s s' Hs; simpl.
  - by intros [= <-].
  - destruct (body s a) as [s1|] eqn:Hbody; [|done]. simpl.
    apply IH; [|by apply (Hstep s a); [left|..]].
    intros s0 a0 s0' Ha0. apply Hstep. by right.
Qed.

Lemma lineage_step_cases thr ca rv conf cm bm predictions log cons n s d
    log1 cons1 n1 :
  lineage_loop_body thr ca rv conf cm bm predictions (log, cons, n) (s, d)
  = Ok (log1, cons1, n1) →
  (log1 = log ∧ cons1 = cons ∧ n ≤ n1)
  ∨ ∃ m merged,
      (det_detection_id d ∉ cons)
      ∧ get_detections_from_different_sources_with_max_overlap
          d s predictions thr ca cons = Ok m
      ∧ merge_detections (d :: (PyDict.values m).*1) cm bm (uuid4 n)
        = Ok merged
      ∧ (rv - 1 <= Z.of_nat (length m))%Z
      ∧ (conf <= det_confidence merged)%Q
      ∧ log1 = log ++ [(merged, d :: (PyDict.values m).*1)]
      ∧ cons1 = mark_considered cons d m
      ∧ n1 = S n.
Proof.
  unfold lineage_loop_body.
  destruct (decide (det_detection_id d ∈ cons)) as [Hin|Hseed].
  { rewrite single_detection_skip by done. simpl. rewrite app_nil_r.
    intros [= <- <- <-]. left. by repeat split. }
  destruct (single_detection_spec d s predictions thr ca rv conf cm bm cons n
              Hseed) as (m & merged & Hm & Hmerged & ->).
  destruct (Z.of_nat (length m) <? rv - 1)%Z eqn:Hrv.
  { simpl. rewrite app_nil_r. intros [= <- <- <-]. left. by repeat split. }
  destruct (Qltb (det_confidence merged) conf) eqn:Hc.
  { simpl. rewrite app_nil_r. intros [= <- <- <-]. left.
    repeat split; [done..|lia]. }
  simpl. unfold group_of. rewrite Hm. intros [= <- <- <-]. right.
  exists m, merged. apply Z.ltb_ge in Hrv. apply Qltb_ge in Hc.
  by repeat split.
Qed.

Lemma elem_of_concat_lookup {A : Type} (ls : list (list A)) s l x :
  ls !! s = Some l → x ∈ l → x ∈ concat ls.
Proof.
  intros Hs Hx. apply list_elem_of_In, in_concat. exists l.
  split; apply list_elem_of_In; [|done]. apply list_elem_of_lookup. eauto.
Qed.

Lemma elem_of_candidates_of s d items :
  (s, d) ∈ items → d ∈ candidates_of s items.
Proof.
  intros Hin. unfold candidates_of. apply list_elem_of_fmap.
  exists (s, d). split; [done|]. apply list_elem_of_In, filter_In.
  split; [by apply list_elem_of_In|]. simpl. apply Nat.eqb_refl.
Qed.

Lemma elem_of_enumerate_detections predictions s d :
  (s, d) ∈ enumerate_detections predictions None →
  ∃ dets, predictions !! s = Some dets ∧ d ∈ dets.
Proof.
  intros Hin%elem_of_candidates_of.
  rewrite candidates_of_enumerate in Hin. simpl in Hin.
  destruct (predictions !! s) as [dets|]; simpl in Hin; [eauto|].
  by apply elem_of_nil in Hin.
Qed.

Lemma matched_keys_in_range d source predictions thr ca cons m k :
  get_detections_from_different_sources_with_max_overlap
    d source predictions thr ca cons = Ok m →
  k ∈ PyDict.keys m → k ≠ source ∧ k < length predictions.
Proof.
  intros Hm Hk.
  destruct (max_overlap_dict d source predictions thr ca cons)
    as (m' & Hm' & _ & Hget).
  rewrite Hm in Hm'. injection Hm' as <-.
  assert (PyDict.get m k ≠ None) as Hsome.
  { intros Hnone. by apply get_None in Hnone. }
  rewrite Hget in Hsome. destruct (decide (k = source)); [done|].
  split; [done|]. destruct (predictions !! k) eqn:Hp; [|done].
  by apply lookup_lt_Some in Hp.
Qed.

Lemma matched_count_bound d source predictions thr ca cons m :
  source < length predictions →
  get_detections_from_different_sources_with_max_overlap
    d source predictions thr ca cons = Ok m →
  S (length m) ≤ length predictions.
Proof.
  intros Hsrc Hm.
  destruct (max_overlap_dict d source predictions thr ca cons)
    as (m' & Hm' & Hnd & Hget).
  rewrite Hm in Hm'. injection Hm' as <-.
  assert (NoDup (source :: PyDict.keys m)) as Hnd'.
  { apply NoDup_cons. split; [|done]. intros Hk.
    by destruct (matched_keys_in_range _ _ _ _ _ _ _ _ Hm Hk). }
  assert (source :: PyDict.keys m ⊆+ seq 0 (length predictions)) as Hsub.
  { apply NoDup_submseteq; [done|]. intros k [->|Hk]%elem_of_cons;
      apply elem_of_seq; [lia|].
    destruct (matched_keys_in_range _ _ _ _ _ _ _ _ Hm Hk). lia. }
  apply submseteq_length in Hsub. rewrite length_seq in Hsub.
  simpl in Hsub. unfold PyDict.keys in Hsub. by rewrite length_fmap in Hsub.
Qed.

Lemma matched_from_predictions d source predictions thr ca cons m c :
  get_detections_from_different_sources_with_max_overlap
    d source predictions thr ca cons = Ok m →
  c ∈ (PyDict.values m).*1 → c ∈ concat predictions.
Proof.
  intros Hm Hc.
  destruct (max_overlap_dict d source predictions thr ca cons)
    as (m' & Hm' & Hnd & Hget).
  rewrite Hm in Hm'. injection Hm' as <-.
  unfold PyDict.values in Hc.
  apply list_elem_of_fmap in Hc as ([c' v] & -> & Hcv).
  apply list_elem_of_fmap in Hcv as ([s [c2 v2]] & Heq & Hs).
  simpl in Heq. injection Heq as <- <-. simpl.
  apply get_elem_of_NoDup in Hs; [|done].
  rewrite Hget in Hs. destruct (decide (s = source)); [done|].
  destruct (keep_best_fold_Some _ _ _ _ _ _ _ Hs) as (i & Hi & _).
  destruct (predictions !! s) as [dets|] eqn:Hp; [|by destruct i].
  eapply elem_of_concat_lookup; [done|]. apply list_elem_of_lookup. eauto.
Qed.

Lemma lineage_loop_log_facts thr ca rv conf cm bm predictions n0 log cons n :
  for_each (lineage_loop_body thr ca rv conf cm bm predictions)
    (enumerate_detections predictions None) ([], ∅, n0) = Ok (log, cons, n) →
  log_facts cm bm predictions n0 (log, cons, n).
Proof.
  apply (for_each_invariant _ (log_facts cm bm predictions n0)).
  - intros [[log0 cons0] k0] [s d] [[log1 cons1] k1] Hitem
      (Hle & ks & Hks & Hnd & Hrange) Hstep.
    simpl in *.
    apply lineage_step_cases in Hstep
      as [(-> & -> & Hk)|(m & merged & Hseed & Hm & Hmerged & Hrv & Hc & ->
                           & -> & ->)].
    + split; [simpl; lia|]. exists ks. simpl. do 2 (split; [done|]).
      eapply Forall_impl; [done|]. simpl. intros. lia.
    + split; [simpl; lia|]. exists (ks ++ [k0]). simpl. split; [|split].
      * apply Forall2_app; [done|]. constructor; [|constructor].
        apply elem_of_enumerate_detections in Hitem as (dets & Hs & Hd).
        unfold group_facts. simpl. do 2 (split; [done|]). split.
        -- intros x [->|Hx]%elem_of_cons.
           ++ by eapply elem_of_concat_lookup.
           ++ by eapply matched_from_predictions.
        -- unfold PyDict.values. rewrite !length_fmap.
           eapply matched_count_bound; [|done]. by apply lookup_lt_Some in Hs.
      * apply NoDup_app. split; [done|]. split; [|apply NoDup_singleton].
        intros k Hk ->%list_elem_of_singleton.
        rewrite Forall_forall in Hrange. apply Hrange in Hk. lia.
      * apply Forall_app. split.
        -- eapply Forall_impl; [done|]. simpl. intros. lia.
        -- apply Forall_singleton. lia.
  - split; [simpl; lia|]. exists []. simpl.
    split; [constructor|]. split; [apply NoDup_nil_2 | constructor].
Qed.

(** *** What a batch element returns *)

Lemma resolve_batch_consensus_as_drawing
    predictions rv ca thr conf ctc ro pm cm bm :
  resolve_batch_consensus predictions rv ca thr conf ctc ro pm cm bm
  = do (parent_id, object_present, presence_confidence, consensus_detections,
        _) <-
      resolve_batch_consensus_drawing 0 predictions rv ca thr conf ctc ro pm
        cm bm;
    Ok (parent_id, object_present, presence_confidence, consensus_detections).
Proof.
  unfold resolve_batch_consensus, resolve_batch_consensus_drawing.
  destruct (does_not_detected_objects_in_any_source predictions); [done|].
  destruct (get_parent_id_of_predictions_from_different_sources predictions);
    [|done].
  simpl. destruct (for_each _ _ _) as [[[dets cons] n]|]; [|done]. simpl.
  by destruct (check_objects_presence_in_consensus_predictions _ _ _ _)
    as [[op pc]|].
Qed.

Lemma parent_id_of_all predictions p d :
  get_parent_id_of_predictions_from_different_sources predictions = Ok p →
  d ∈ concat predictions → det_parent_id d = p.
Proof.
  intros Hp Hd.
  assert (∃ d0, d0 ∈ concat predictions ∧ det_parent_id d0 = p)
    as (d0 & Hd0 & <-).
  { unfold get_parent_id_of_predictions_from_different_sources in Hp.
    destruct (1 <? size _); [done|].
    destruct (elements _) as [|p' ps] eqn:Hel; [done|]. injection Hp as ->.
    assert (p ∈ elements (list_to_set (det_parent_id <$> concat predictions)
                           : gset string)) as Hin.
    { rewrite Hel. by left. }
    apply elem_of_elements, elem_of_list_to_set, list_elem_of_fmap in Hin
      as (d0 & -> & Hd0).
    eauto. }
  destruct (decide (det_parent_id d = det_parent_id d0)) as [|Hne]; [done|].
  by rewrite (parent_ids_mismatch predictions d d0 Hd Hd0 Hne) in Hp.
Qed.

Lemma filter_predictions_length predictions ctc :
  length (filter_predictions predictions ctc) = length predictions.
Proof. destruct ctc; simpl; [by rewrite length_fmap | done]. Qed.

Lemma elem_of_filter_predictions predictions ctc d :
  d ∈ concat (filter_predictions predictions ctc) →
  d ∈ concat predictions
  ∧ ∀ classes, ctc = Some classes → det_class d ∈ classes.
Proof.
  destruct ctc as [classes|]; simpl; [|by split].
  induction predictions as [|ds predictions IH]; simpl.
  - intros H0. by apply elem_of_nil in H0.
  - intros [Hd|Hd]%elem_of_app.
    + apply list_elem_of_filter in Hd as [Hc Hd]. split.
      * apply elem_of_app. by left.
      * intros ? [= <-]. by apply elem_of_list_to_set in Hc.
    + destruct (IH Hd) as [Hin Hc]. split; [|done].
      apply elem_of_app. by right.
Qed.

Lemma resolve_batch_consensus_drawing_outputs
    n0 predictions rv ca thr conf ctc ro pm cm bm p op pc dets n :
  resolve_batch_consensus_drawing n0 predictions rv ca thr conf ctc ro pm cm
    bm = Ok (p, op, pc, dets, n) →
  ∃ log cons,
    dets = log.*1
    ∧ loop_invariant rv conf log cons
    ∧ log_facts cm bm (filter_predictions predictions ctc) n0 (log, cons, n)
    ∧ (dets ≠ [] →
       get_parent_id_of_predictions_from_different_sources predictions = Ok p)
    ∧ check_objects_presence_in_consensus_predictions dets ca pm ro
      = Ok (op, pc).
Proof.
  unfold resolve_batch_consensus_drawing.
  destruct (does_not_detected_objects_in_any_source predictions).
  { intros [= <- <- <- <- <-]. exists [], ∅.
    split; [done|]. split; [apply loop_invariant_init|]. split; [|done].
    split; [simpl; lia|]. exists []. simpl.
    split; [constructor|]. split; [apply NoDup_nil_2 | constructor]. }
  destruct (get_parent_id_of_predictions_from_different_sources predictions)
    as [p'|]; [|done].
  simpl.
  destruct (lineage_loop_spec thr ca rv conf cm bm
              (filter_predictions predictions ctc)
              (enumerate_detections (filter_predictions predictions ctc) None)
              [] ∅ n0 (loop_invariant_init rv conf))
    as (log & cons & n' & Hlin & Hloop & Hinv).
  simpl in Hloop. rewrite Hloop. simpl.
  destruct (check_objects_presence_in_consensus_predictions log.*1 ca pm ro)
    as [[op' pc']|] eqn:Hcheck; [|done].
  simpl. intros [= <- <- <- <- <-]. exists log, cons.
  split; [done|]. split; [done|].
  split; [by apply lineage_loop_log_facts with thr ca rv conf|]. by split.
Qed.

Lemma resolve_batch_consensus_outputs
    predictions rv ca thr conf ctc ro pm cm bm p op pc dets :
  resolve_batch_consensus predictions rv ca thr conf ctc ro pm cm bm
  = Ok (p, op, pc, dets) →
  ∃ n, resolve_batch_consensus_drawing 0 predictions rv ca thr conf ctc ro pm
         cm bm = Ok (p, op, pc, dets, n).
Proof.
  rewrite resolve_batch_consensus_as_drawing.
  destruct (resolve_batch_consensus_drawing _ _ _ _ _ _ _ _ _ _ _)
    as [[[[[p' op'] pc'] dets'] n]|]; [|done].
  simpl. intros [= <- <- <- <-]. eauto.
Qed.

Lemma log_entry_facts cm bm predictions n0 log cons n md :
  log_facts cm bm predictions n0 (log, cons, n) →
  md ∈ log.*1 →
  ∃ k head tail,
    n0 ≤ k < n
    ∧ merge_detections (head :: tail) cm bm (uuid4 k) = Ok md
    ∧ (∀ x, x ∈ head :: tail → x ∈ concat predictions)
    ∧ length (head :: tail) ≤ length predictions.
Proof.
  intros (_ & ks & Hks & _ & Hrange) Hmd. simpl in *.
  apply list_elem_of_fmap in Hmd as ([md' g] & -> & Hin).
  apply list_elem_of_lookup in Hin as (i & Hi).
  destruct (Forall2_lookup_r _ _ _ _ _ Hks Hi) as (k & Hk & Hmerge & Hne & Hsub
                                                    & Hlen).
  simpl in *. destruct g as [|head tail]; [done|].
  exists k, head, tail. split; [|done].
  rewrite Forall_forall in Hrange. apply Hrange, list_elem_of_lookup. eauto.
Qed.

(** X7: the matcher finds at most one match in each of the other sources,
    so fewer matches than there are sources; with [required_votes] above
    the number of sources a batch element yields no merged detection, and
    so object_present False and an empty presence_confidence. *)
Theorem more_votes_than_sources
    d source predictions rv ca thr conf ctc ro pm cm bm cons :
  (source < length predictions →
   ∃ m, get_detections_from_different_sources_with_max_overlap
          d source predictions thr ca cons = Ok m
        ∧ length m < length predictions)
  ∧ ((Z.of_nat (length predictions) < rv)%Z →
     ∀ p op pc dets,
       resolve_batch_consensus predictions rv ca thr conf ctc ro pm cm bm
       = Ok (p, op, pc, dets) →
       dets = [] ∧ op = false ∧ pc = []).
Proof.
  split.
  - intros Hsrc.
    destruct (max_overlap_dict d source predictions thr ca cons)
      as (m & Hm & _).
    exists m. split; [done|].
    pose proof (matched_count_bound _ _ _ _ _ _ _ Hsrc Hm). lia.
  - intros Hrv p op pc dets Hres.
    apply resolve_batch_consensus_outputs in Hres as (n & Hres).
    apply resolve_batch_consensus_drawing_outputs in Hres
      as (log & cons' & -> & (_ & _ & _ & Hvotes) & Hfacts & _ & Hcheck).
    assert (log = []) as ->.
    { destruct log as [|[md g] log]; [done|]. exfalso.
      apply Forall_cons in Hvotes as [Hg _]. simpl in Hg.
      destruct (log_entry_facts _ _ _ _ _ _ _ md Hfacts)
        as (k & head & tail & _ & Hmerged & _ & Hlen); [by left|].
      destruct Hfacts as (_ & ks & Hks & _). simpl in Hks.
      apply Forall2_cons_inv_r in Hks as (k' & ks' & (_ & _ & _ & Hlen') & _).
      simpl in Hlen'. rewrite filter_predictions_length in Hlen'. lia. }
    simpl in Hcheck. by injection Hcheck as <- <-.
Qed.

(** X8: every merged detection that a batch element returns carries the
    parent identifier returned for the element, and, when
    [classes_to_consider] is given, a class from that list. *)
Theorem outputs_keep_parent_and_classes
    predictions rv ca thr conf ctc ro pm cm bm p op pc dets merged :
  resolve_batch_consensus predictions rv ca thr conf ctc ro pm cm bm
  = Ok (p, op, pc, dets) →
  merged ∈ dets →
  det_parent_id merged = p
  ∧ ∀ classes, ctc = Some classes → det_class merged ∈ classes.
Proof.
  intros Hres Hmerged.
  apply resolve_batch_consensus_outputs in Hres as (n & Hres).
  apply resolve_batch_consensus_drawing_outputs in Hres
    as (log & cons' & -> & _ & Hfacts & Hparent & _).
  destruct (log_entry_facts _ _ _ _ _ _ _ merged Hfacts Hmerged)
    as (k & head & tail & _ & Hmerge & Hsub & _).
  destruct (merge_detections_spec head tail cm bm (uuid4 k))
    as (md & Hmd & _ & Hp & (d & Hd & Hc & _) & _).
  rewrite Hmerge in Hmd. injection Hmd as <-.
  split.
  - rewrite Hp. apply parent_id_of_all with predictions.
    + apply Hparent. intros Hnil. rewrite Hnil in Hmerged.
      by apply elem_of_nil in Hmerged.
    + apply (elem_of_filter_predictions predictions ctc), Hsub. by left.
  - intros classes Hctc. rewrite Hc.
    destruct (elem_of_filter_predictions predictions ctc d (Hsub d Hd))
      as [_ Hcls].
    by apply Hcls.
Qed.

(** X9: the merged detections of a batch element carry the identifiers of
    distinct draws from [uuid4], so pairwise different identifiers whenever
    [uuid4] does not repeat itself. *)
Theorem merged_identifiers_are_fresh
    n0 predictions rv ca thr conf ctc ro pm cm bm p op pc dets n :
  resolve_batch_consensus_drawing n0 predictions rv ca thr conf ctc ro pm cm
    bm = Ok (p, op, pc, dets, n) →
  n0 ≤ n
  ∧ ∃ ks, det_detection_id <$> dets = uuid4 <$> ks
          ∧ NoDup ks
          ∧ Forall (λ k, n0 ≤ k < n) ks
          ∧ ((∀ i j, uuid4 i = uuid4 j → i = j) →
             NoDup (det_detection_id <$> dets)).
Proof.
  intros Hres.
  apply resolve_batch_consensus_drawing_outputs in Hres
    as (log & cons' & -> & _ & (Hle & ks & Hks & Hnd & Hrange) & _).
  simpl in *. split; [done|]. exists ks.
  assert (det_detection_id <$> log.*1 = uuid4 <$> ks) as Hids.
  { clear Hnd Hrange. induction Hks as [|k [md g] ks log Hk Hks IH]; [done|].
    simpl. f_equal; [|done]. destruct Hk as (Hmerge & Hne & _). simpl in *.
    destruct g as [|head tail]; [done|].
    destruct (merge_detections_spec head tail cm bm (uuid4 k))
      as (md' & Hmd & Hid & _).
    rewrite Hmerge in Hmd. by injection Hmd as <-. }
  do 3 (split; [done|]). intros Hinj. rewrite Hids.
  apply NoDup_fmap_2; [|done]. intros i j. apply Hinj.
Qed.

(** *** Presence, in every configuration *)

(** X10: without class awareness and with at least one merged detection,
    the requirement is 0 for None, the number for a number and the sum of
    the counts for a mapping; below it the answer is (False, {}), otherwise
    (True, {"any_object": aggregate of all confidences}). *)
Theorem presence_without_class_awareness
    consensus_detections mode ro (Hne : consensus_detections ≠ []) :
  let required :=
    match ro with
    | None => 0%Z
    | Some (RequiredInt n) => n
    | Some (RequiredDict m) => fold_left Z.add (PyDict.values m) 0%Z
    end in
  ((Z.of_nat (length consensus_detections) < required)%Z →
   check_objects_presence_in_consensus_predictions consensus_detections false
     mode ro = Ok (false, []))
  ∧ ((required <= Z.of_nat (length consensus_detections))%Z →
     ∃ v, aggregate_field_values consensus_detections F_confidence mode = Ok v
          ∧ check_objects_presence_in_consensus_predictions
              consensus_detections false mode ro
            = Ok (true, [("any_object", v)])).
Proof.
  intros required. unfold check_objects_presence_in_consensus_predictions.
  replace (length consensus_detections =? 0) with false
    by (by destruct consensus_detections).
  destruct (aggregate_field_values_total consensus_detections F_confidence
              mode Hne) as (v & Hv).
  assert (∀ n : Z,
            ((Z.of_nat (length consensus_detections) < n)%Z →
             (if (Z.of_nat (length consensus_detections) <? n)%Z
              then Ok (false, [])
              else do aggregated_confidence <-
                     aggregate_field_values consensus_detections F_confidence
                       mode;
                   Ok (true, [("any_object", aggregated_confidence)]))
             = Ok (false, []))
            ∧ ((n <= Z.of_nat (length consensus_detections))%Z →
               ∃ v, aggregate_field_values consensus_detections F_confidence
                      mode = Ok v
                    ∧ (if (Z.of_nat (length consensus_detections) <? n)%Z
                       then Ok (false, [])
                       else do aggregated_confidence <-
                              aggregate_field_values consensus_detections
                                F_confidence mode;
                            Ok (true, [("any_object", aggregated_confidence)]))
                      = Ok (true, [("any_object", v)]))) as Hgen.
  { intros n. split.
    - intros Hlt. apply Z.ltb_lt in Hlt. by rewrite Hlt.
    - intros Hge. apply Z.ltb_ge in Hge. rewrite Hge, Hv. eauto. }
  destruct ro as [[n|m]|]; simpl; apply Hgen.
Qed.

(** X11: with class awareness, at least one merged detection and a number
    (or None, read as 0) for [required_objects]: fewer merged detections
    than that give (False, {}); otherwise the answer is True with one entry
    per class that occurs, holding the aggregate of the confidences of that
    class. *)
Theorem class_aware_presence_with_required_count
    consensus_detections mode ro (Hne : consensus_detections ≠ [])
    (Hro : ∀ m, ro ≠ Some (RequiredDict m)) :
  let required := match ro with Some (RequiredInt n) => n | _ => 0%Z end in
  ((Z.of_nat (length consensus_detections) < required)%Z →
   check_objects_presence_in_consensus_predictions consensus_detections true
     mode ro = Ok (false, []))
  ∧ ((required <= Z.of_nat (length consensus_detections))%Z →
     ∃ presence_confidence,
       check_objects_presence_in_consensus_predictions consensus_detections
         true mode ro = Ok (true, presence_confidence)
       ∧ NoDup (PyDict.keys presence_confidence)
       ∧ ∀ c, match of_class c consensus_detections with
              | [] => PyDict.get presence_confidence c = None
              | l =>
                  ∃ v, aggregate_field_values l F_confidence mode = Ok v
                       ∧ PyDict.get presence_confidence c = Some v
              end).
Proof.
  intros required. unfold check_objects_presence_in_consensus_predictions.
  replace (length consensus_detections =? 0) with false
    by (by destruct consensus_detections).
  destruct (group_by_class_spec consensus_detections) as [Hnd Hget].
  destruct (class2confidence_of_spec mode
              (group_by_class consensus_detections))
    as (pc & Hpc & Hkeys & Hpcget).
  { intros c l Hin ->. apply get_elem_of_NoDup in Hin; [|done].
    rewrite Hget in Hin. by destruct (of_class c consensus_detections). }
  assert (∀ c, match of_class c consensus_detections with
               | [] => PyDict.get pc c = None
               | l => ∃ v, aggregate_field_values l F_confidence mode = Ok v
                           ∧ PyDict.get pc c = Some v
               end) as Hall.
  { intros c. specialize (Hpcget c). rewrite Hget in Hpcget.
    by destruct (of_class c consensus_detections). }
  destruct ro as [[n|m]|]; [|by destruct (Hro m)|]; simpl; subst required.
  - split.
    + intros Hlt. apply Z.ltb_lt in Hlt. by rewrite Hlt.
    + intros Hge. apply Z.ltb_ge in Hge. rewrite Hge, Hpc. simpl.
      exists pc. split; [done|]. split; [by rewrite Hkeys | done].
  - split; [lia|]. intros _.
    replace (Z.of_nat (length consensus_detections) <? 0)%Z with false
      by (symmetry; apply Z.ltb_ge; lia).
    rewrite Hpc. simpl.
    exists pc. split; [done|]. split; [by rewrite Hkeys | done].
Qed.

Lemma check_required_classes_entries items :
  ∀ G G', check_required_classes items G = Some G' →
          (∀ c l, PyDict.get G c = Some l → PyDict.get G' c = Some l)
          ∧ ∀ c l, PyDict.get G' c = Some l →
                   PyDict.get G c = Some l ∨ l = [].
Proof.
  induction items as [|[c n] items IH]; intros G G'; simpl.
  - intros [= <-]. split; [done | by left].
  - destruct (PyDict.get G c) as [ds|] eqn:Hget.
    + destruct (_ <? _)%Z; [done|]. apply IH.
    + destruct (_ <? _)%Z; [done|]. intros [Hfw Hbw]%IH. split.
      * intros c' l Hc'. apply Hfw.
        destruct (decide (c = c')) as [<-|Hne]; [congruence|].
        by rewrite get_set_ne.
      * intros c' l Hc'. destruct (Hbw c' l Hc') as [Hin|?]; [|by right].
        destruct (decide (c = c')) as [<-|Hne].
        -- rewrite get_set_eq in Hin. right. congruence.
        -- rewrite get_set_ne in Hin by done. by left.
Qed.

Lemma check_required_classes_NoDup items :
  ∀ G G', check_required_classes items G = Some G' →
          NoDup (PyDict.keys G) → NoDup (PyDict.keys G').
Proof.
  induction items as [|[c n] items IH]; intros G G'; simpl.
  - by intros [= <-].
  - destruct (PyDict.get G c) as [ds|] eqn:Hget.
    + destruct (_ <? _)%Z; [done|]. apply IH.
    + destruct (_ <? _)%Z; [done|]. intros HG' Hnd.
      apply (IH _ _ HG'). by apply NoDup_keys_set.
Qed.

Lemma class2confidence_of_inv mode (G : list (string * list Detection)) pc :
  class2confidence_of mode G = Ok pc →
  ∀ c v, (c, v) ∈ pc →
    ∃ l, (c, l) ∈ G ∧ aggregate_field_values l F_confidence mode = Ok v.
Proof.
  revert pc. induction G as [|[c l] G IH]; intros pc; simpl.
  - intros [= <-] c v H0. by apply elem_of_nil in H0.
  - destruct (aggregate_field_values l F_confidence mode) as [v0|] eqn:Hv;
      [|done].
    simpl. destruct (class2confidence_of mode G) as [rest|]; [|done].
    simpl. intros [= <-] c' v' [[= -> ->]|Hin]%elem_of_cons.
    + exists l. split; [by left | done].
    + destruct (IH rest eq_refl c' v' Hin) as (l' & Hl' & Hagg).
      exists l'. split; [by right | done].
Qed.

(** X12: whenever presence is reported there is at least one merged
    detection and the confidence map is not empty; each of its keys is
    "any_object" (without class awareness) or the class of some merged
    detection (with it); each of its values lies within every pair of
    bounds that holds for the confidences of the merged detections; and
    absence is always reported with an empty map. *)
Theorem reported_presence_is_backed
    consensus_detections ca mode ro object_present presence_confidence :
  check_objects_presence_in_consensus_predictions consensus_detections ca
    mode ro = Ok (object_present, presence_confidence) →
  (object_present = false → presence_confidence = [])
  ∧ (object_present = true →
     consensus_detections ≠ []
     ∧ presence_confidence ≠ []
     ∧ ∀ c v, (c, v) ∈ presence_confidence →
         (if ca then of_class c consensus_detections ≠ []
          else c = "any_object")
         ∧ ∀ lo hi,
             (∀ d, d ∈ consensus_detections →
                (lo <= det_confidence d)%Q ∧ (det_confidence d <= hi)%Q) →
             (lo <= v)%Q ∧ (v <= hi)%Q).
Proof.
  unfold check_objects_presence_in_consensus_predictions.
  destruct consensus_detections as [|d0 ds] eqn:Hdets.
  { simpl. intros [= <- <-]. by split. }
  rewrite <- Hdets in *.
  assert (consensus_detections ≠ []) as Hne by by rewrite Hdets.
  replace (length consensus_detections =? 0) with false by by rewrite Hdets.
  set (ro' := match default (RequiredInt 0) ro with
              | RequiredDict m =>
                  if negb ca
                  then RequiredInt (fold_left Z.add (PyDict.values m) 0%Z)
                  else default (RequiredInt 0) ro
              | RequiredInt _ => default (RequiredInt 0) ro
              end).
  cbv zeta. fold ro'.
  destruct (match ro' with
            | RequiredInt n => (Z.of_nat (length consensus_detections) <? n)%Z
            | RequiredDict _ => false
            end).
  { intros [= <- <-]. by split. }
  destruct ca; simpl.
  - destruct (group_by_class_spec consensus_detections) as [Hnd Hget].
    set (checked := match ro' with
                    | RequiredDict m =>
                        check_required_classes m
                          (group_by_class consensus_detections)
                    | RequiredInt _ =>
                        Some (group_by_class consensus_detections)
                    end).
    assert (∀ G', checked = Some G' →
              NoDup (PyDict.keys G')
              ∧ (∀ c l, PyDict.get (group_by_class consensus_detections) c
                        = Some l → PyDict.get G' c = Some l)
              ∧ ∀ c l, PyDict.get G' c = Some l →
                  PyDict.get (group_by_class consensus_detections) c = Some l
                  ∨ l = []) as Hentries.
    { intros G' HG'. subst checked. destruct ro' as [n|m].
      - injection HG' as <-. split; [done|]. split; [done | by left].
      - split; [by apply (check_required_classes_NoDup m _ _ HG')|].
        by apply check_required_classes_entries with m. }
    destruct checked as [G'|]; [|intros [= <- <-]; by split].
    destruct (Hentries G' eq_refl) as (HndG' & Hfw & Hbw).
    destruct (class2confidence_of mode G') as [pc|] eqn:Hpc; [|done].
    simpl. intros [= <- <-]. split; [done|]. intros _. split; [done|].
    pose proof (class2confidence_of_inv mode G' pc Hpc) as Hinv.
    split.
    + intros ->. simpl in Hpc.
      assert (PyDict.get G' (det_class d0) ≠ None) as Hsome.
      { specialize (Hget (det_class d0)).
        destruct (of_class (det_class d0) consensus_detections) as [|x xs]
          eqn:Hoc.
        - exfalso. assert (d0 ∈ of_class (det_class d0) consensus_detections)
            as Hin; [|rewrite Hoc in Hin; by apply elem_of_nil in Hin].
          apply list_elem_of_In, filter_In. split.
          + apply list_elem_of_In. rewrite Hdets. by left.
          + apply String.eqb_refl.
        - by rewrite (Hfw _ _ Hget). }
      destruct G' as [|[c l] G']; [done|]. simpl in Hpc.
      destruct (aggregate_field_values l F_confidence mode); [|done].
      simpl in Hpc. by destruct (class2confidence_of mode G').
    + intros c v Hcv. destruct (Hinv c v Hcv) as (l & Hl & Hagg).
      assert (l ≠ []) as Hlne.
      { intros ->. by destruct mode. }
      apply get_elem_of_NoDup in Hl; [|by apply HndG'].
      destruct (Hbw c l Hl) as [HG|?]; [|done].
      rewrite Hget in HG.
      destruct (of_class c consensus_detections) as [|x xs] eqn:Hoc; [done|].
      injection HG as <-. split; [done|]. intros lo hi Hb.
      destruct (aggregate_field_values_between (x :: xs) F_confidence mode
                  lo hi) as (r & Hr & Hlo & Hhi); [done| |].
      { intros d Hd. apply Hb. rewrite <- Hoc in Hd.
        apply list_elem_of_In, filter_In in Hd as [Hd _].
        by apply list_elem_of_In. }
      rewrite Hagg in Hr. by injection Hr as <-.
  - destruct (aggregate_field_values consensus_detections F_confidence mode)
      as [v|] eqn:Hv; [|done].
    simpl. intros [= <- <-]. split; [done|]. intros _. do 2 (split; [done|]).
    intros c v' [= -> ->]%list_elem_of_singleton. split; [done|].
    intros lo hi Hb.
    destruct (aggregate_field_values_between consensus_detections F_confidence
                mode lo hi Hne Hb) as (r & Hr & Hlo & Hhi).
    rewrite Hv in Hr. by injection Hr as <-.
Qed.

(** *** The whole batch *)

Lemma all_batch_sizes_equal_spec (batch_sizes : list nat) :
  all_batch_sizes_equal batch_sizes = true
  ↔ ∀ a b, a ∈ batch_sizes → b ∈ batch_sizes → a = b.
Proof.
  destruct batch_sizes as [|reference sizes]; simpl.
  - split; [|done]. intros _ a b Ha. by apply elem_of_nil in Ha.
  - rewrite Nat.eqb_refl. simpl. rewrite forallb_forall. split.
    + intros Hall a b Ha Hb.
      assert (∀ x, x ∈ reference :: sizes → x = reference) as Href.
      { intros x [->|Hx]%elem_of_cons; [done|].
        by apply Nat.eqb_eq, Hall, list_elem_of_In. }
      by rewrite (Href a Ha), (Href b Hb).
    + intros Hall x Hx. apply Nat.eqb_eq, Hall; [|by left].
      right. by apply list_elem_of_In.
Qed.

Lemma set_of_sizes_small (batch_sizes : list nat) :
  size (list_to_set batch_sizes : gset nat) ≤ 1
  ↔ ∀ a b, a ∈ batch_sizes → b ∈ batch_sizes → a = b.
Proof.
  split.
  - intros Hsize a b Ha Hb. destruct (decide (a = b)) as [|Hne]; [done|].
    assert ({[a]} ∪ {[b]} ⊆ (list_to_set batch_sizes : gset nat)) as Hsub.
    { apply union_subseteq. split; apply singleton_subseteq_l;
        by apply elem_of_list_to_set. }
    apply subseteq_size in Hsub.
    rewrite size_union in Hsub
      by (apply disjoint_singleton_l; by intros ?%elem_of_singleton).
    rewrite !size_singleton in Hsub. lia.
  - intros Hall. destruct batch_sizes as [|reference sizes].
    + change (list_to_set [] : gset nat) with (∅ : gset nat).
      rewrite size_empty. lia.
    + assert ((list_to_set (reference :: sizes) : gset nat) ⊆ {[reference]})
        as Hsub.
      { intros x Hx%elem_of_list_to_set. apply elem_of_singleton.
        apply Hall; [done | by left]. }
      apply subseteq_size in Hsub. by rewrite size_singleton in Hsub.
Qed.

(** X13: batches of equal length across the sources pass the check of
    either implementation, which then returns the list of the lengths; two
    sources with batches of different length make the dict-based
    implementation raise ExecutionGraphError and the other raise
    ValueError. *)
Theorem batch_sizes_are_validated (all_predictions : list (list (list Detection))) :
  ((∀ s1 s2, s1 ∈ all_predictions → s2 ∈ all_predictions →
      length s1 = length s2) →
   get_and_validate_batch_sizes all_predictions
   = Ok (length <$> all_predictions)
   ∧ CoreVariant.get_and_validate_batch_sizes all_predictions
     = Ok (length <$> all_predictions))
  ∧ (∀ s1 s2, s1 ∈ all_predictions → s2 ∈ all_predictions →
       length s1 ≠ length s2 →
       get_and_validate_batch_sizes all_predictions
       = Raise ExecutionGraphError
       ∧ CoreVariant.get_and_validate_batch_sizes all_predictions
         = Raise ValueError).
Proof.
  unfold get_and_validate_batch_sizes,
    CoreVariant.get_and_validate_batch_sizes, get_predictions_batch_sizes.
  split.
  - intros Hall.
    assert (∀ a b, a ∈ length <$> all_predictions →
              b ∈ length <$> all_predictions → a = b) as Hsizes.
    { intros a b (s1 & -> & H1)%list_elem_of_fmap
        (s2 & -> & H2)%list_elem_of_fmap. by apply Hall. }
    rewrite (proj2 (all_batch_sizes_equal_spec _) Hsizes). simpl.
    split; [done|]. apply set_of_sizes_small in Hsizes.
    by rewrite (proj2 (Nat.ltb_ge _ _) Hsizes).
  - intros s1 s2 H1 H2 Hne.
    assert (¬ ∀ a b, a ∈ length <$> all_predictions →
                b ∈ length <$> all_predictions → a = b) as Hsizes.
    { intros Hall. apply Hne, Hall; apply list_elem_of_fmap; eauto. }
    split.
    + destruct (all_batch_sizes_equal _) eqn:E; [|done].
      exfalso. apply Hsizes. by apply all_batch_sizes_equal_spec.
    + destruct (Nat.ltb_spec 1 (size (list_to_set (length <$> all_predictions)
                                        : gset nat))) as [|Hle]; [done|].
      exfalso. apply Hsizes. by apply set_of_sizes_small.
Qed.

Lemma comprehension_index {A : Type} (ls : list (list A)) i column :
  comprehension (λ e, index e i) ls = Ok column
  ↔ Forall2 (λ e c, e !! i = Some c) ls column.
Proof.
  revert column. induction ls as [|e ls IH]; intros column; simpl.
  - split; [intros [= <-]; constructor | by intros ->%Forall2_nil_inv_l].
  - unfold index at 1. destruct (e !! i) as [c|] eqn:He; simpl.
    + destruct (comprehension _ ls) as [cs|]; simpl.
      * split.
        -- intros [= <-]. constructor; [done | by apply IH].
        -- intros (c' & cs' & Hc & Hcs & ->)%Forall2_cons_inv_l.
           apply IH in Hcs. congruence.
      * split; [done|].
        intros (c' & cs' & Hc & Hcs & ->)%Forall2_cons_inv_l.
        by apply IH in Hcs.
    + split; [done|].
      intros (c' & cs' & Hc & Hcs & ->)%Forall2_cons_inv_l. congruence.
Qed.

Lemma comprehension_index_total {A : Type} (ls : list (list A)) i :
  (∀ e, e ∈ ls → i < length e) →
  ∃ column, comprehension (λ e, index e i) ls = Ok column.
Proof.
  induction ls as [|e ls IH]; intros Hall; simpl; [eauto|].
  destruct (lookup_lt_is_Some_2 e i) as [c Hc]; [apply Hall; by left|].
  unfold index at 1. rewrite Hc. simpl.
  destruct IH as (cs & ->); [intros; apply Hall; by right|]. simpl. eauto.
Qed.

Lemma resolve_batch_consensus_drawing_mono
    n0 predictions rv ca thr conf ctc ro pm cm bm p op pc dets n :
  resolve_batch_consensus_drawing n0 predictions rv ca thr conf ctc ro pm cm
    bm = Ok (p, op, pc, dets, n) → n0 ≤ n.
Proof.
  intros Hres%resolve_batch_consensus_drawing_outputs.
  by destruct Hres as (log & cons & _ & _ & (Hle & _) & _).
Qed.

Section Dispatcher.
Context {Meta : Type}.
Implicit Types (image_metadata : list Meta) (results : list (ConsensusResult Meta)).

Lemma run_locally_body_spec predictions image_metadata rv ca thr conf ctc ro
    pm cm bm results n i results' n' :
  run_locally_body predictions image_metadata rv ca thr conf ctc ro pm cm bm
    (results, n) i = Ok (results', n') →
  ∃ column p op pc dets img,
    Forall2 (λ e c, e !! i = Some c) predictions column
    ∧ resolve_batch_consensus_drawing n column rv ca thr conf ctc ro pm cm bm
      = Ok (p, op, pc, dets, n')
    ∧ image_metadata !! i = Some img
    ∧ results'
      = results ++ [mkConsensusResult dets p op pc img "object-detection"].
Proof.
  unfold run_locally_body.
  destruct (comprehension _ predictions) as [column|] eqn:Hcol; [|done].
  simpl.
  destruct (resolve_batch_consensus_drawing _ _ _ _ _ _ _ _ _ _ _)
    as [[[[[p op] pc] dets] n1]|] eqn:Hres; [|done].
  simpl. unfold index. destruct (image_metadata !! i) as [img|] eqn:Himg;
    [|done].
  simpl. intros [= <- <-]. exists column, p, op, pc, dets, img.
  split; [by apply comprehension_index|]. by repeat split.
Qed.

Lemma run_locally_loop_spec predictions image_metadata rv ca thr conf ctc ro
    pm cm bm j :
  ∀ k results n results' n',
    length results = k →
    for_each
      (run_locally_body predictions image_metadata rv ca thr conf ctc ro pm cm
         bm) (seq k j) (results, n) = Ok (results', n') →
    length results' = k + j
    ∧ n ≤ n'
    ∧ (∀ i, i < k → results' !! i = results !! i)
    ∧ ∀ i r, k ≤ i → results' !! i = Some r →
        ∃ column a b,
          Forall2 (λ e c, e !! i = Some c) predictions column
          ∧ n ≤ a ∧ b ≤ n'
          ∧ resolve_batch_consensus_drawing a column rv ca thr conf ctc ro pm
              cm bm
            = Ok (res_parent_id r, res_object_present r,
                  res_presence_confidence r, res_predictions r, b)
          ∧ image_metadata !! i = Some (res_image r)
          ∧ res_prediction_type r = "object-detection".
Proof.
  induction j as [|j IH]; intros k results n results' n' Hlen;
    cbn [seq for_each].
  - intros [= <- <-]. split; [lia|]. split; [lia|]. split; [done|].
    intros i r Hi Hr. apply lookup_lt_Some in Hr. lia.
  - destruct (run_locally_body predictions image_metadata rv ca thr conf ctc
                ro pm cm bm (results, n) k)
      as [[results1 n1]|] eqn:Hbody; [|done].
    cbn [bind]. intros Hloop.
    apply run_locally_body_spec in Hbody
      as (column & p & op & pc & dets & img & Hcol & Hres & Himg & ->).
    pose proof (resolve_batch_consensus_drawing_mono _ _ _ _ _ _ _ _ _ _ _ _
                  _ _ _ _ Hres) as Hmono.
    set (r0 := mkConsensusResult dets p op pc img "object-detection") in *.
    assert (length (results ++ [r0]) = S k) as Hlen1.
    { rewrite length_app. simpl. lia. }
    destruct (IH (S k) _ n1 results' n' Hlen1 Hloop)
      as (Hlen' & Hn & Hold & Hnew).
    split; [lia|]. split; [lia|]. split.
    { intros i Hi. rewrite Hold by lia. apply lookup_app_l. lia. }
    intros i r Hi Hr. destruct (decide (i = k)) as [->|Hne].
    + rewrite Hold in Hr by lia.
      rewrite lookup_app_r, Hlen, Nat.sub_diag in Hr by lia.
      injection Hr as <-. subst r0. simpl. exists column, n, n1.
      split; [done|]. split; [lia|]. split; [lia|]. by repeat split.
    + destruct (Hnew i r ltac:(lia) Hr)
        as (column' & a & b & Hcol' & Ha & Hb & Hrest).
      exists column', a, b. split; [done|]. split; [lia|]. by split.
Qed.

(** X14: when [run_locally] succeeds there is at least one source, every
    source has as many batch elements as there are records, the metadata
    has at least as many, and the record at index i holds the metadata at
    index i, the type "object-detection" and the four results of
    [resolve_batch_consensus] on the i-th elements of the sources, in the
    order of the sources. *)
Theorem run_locally_results predictions image_metadata rv ca thr conf ctc ro
    pm cm bm n0 results n :
  run_locally predictions image_metadata rv ca thr conf ctc ro pm cm bm n0
  = Ok (results, n) →
  predictions ≠ []
  ∧ (∀ s, s ∈ predictions → length s = length results)
  ∧ length results ≤ length image_metadata
  ∧ ∀ i r, results !! i = Some r →
      ∃ column a b,
        Forall2 (λ e c, e !! i = Some c) predictions column
        ∧ n0 ≤ a ∧ b ≤ n
        ∧ resolve_batch_consensus_drawing a column rv ca thr conf ctc ro pm
            cm bm
          = Ok (res_parent_id r, res_object_present r,
                res_presence_confidence r, res_predictions r, b)
        ∧ image_metadata !! i = Some (res_image r)
        ∧ res_prediction_type r = "object-detection".
Proof.
  unfold run_locally. destruct (length predictions <? 1); [done|].
  unfold get_and_validate_batch_sizes.
  destruct (all_batch_sizes_equal _) eqn:Hequal; [|done]. cbn [negb bind].
  unfold get_predictions_batch_sizes, index. rewrite list_lookup_fmap.
  destruct (predictions !! 0) as [s0|] eqn:Hs0; [|done].
  cbn [fmap option_fmap option_map bind]. intros Hloop.
  apply run_locally_loop_spec in Hloop as (Hlen & _ & _ & Hnew); [|done].
  simpl in Hlen.
  split; [by intros ->|]. split; [|split].
  - intros s Hs. rewrite Hlen.
    apply (proj1 (all_batch_sizes_equal_spec _) Hequal);
      apply list_elem_of_fmap; [by exists s|].
    exists s0. split; [done|]. apply list_elem_of_lookup. eauto.
  - destruct (decide (length results = 0)) as [Hzero|Hpos]; [lia|].
    destruct (lookup_lt_is_Some_2 results (length results - 1)) as [r Hr];
      [lia|].
    destruct (Hnew _ r (Nat.le_0_l _) Hr)
      as (column & a & b & _ & _ & _ & _ & Himg & _).
    apply lookup_lt_Some in Himg. lia.
  - intros i r Hr. apply Hnew; [lia | done].
Qed.

(** X15: [run_locally] raises ExecutionGraphError when it is given no
    source, and when two sources have batches of different length,
    whatever the detections are. *)
Theorem run_locally_rejects_bad_batches predictions image_metadata rv ca thr
    conf ctc ro pm cm bm n0 :
  (predictions = [] →
   run_locally predictions image_metadata rv ca thr conf ctc ro pm cm bm n0
   = Raise ExecutionGraphError)
  ∧ (∀ s1 s2, s1 ∈ predictions → s2 ∈ predictions →
       length s1 ≠ length s2 →
       run_locally predictions image_metadata rv ca thr conf ctc ro pm cm bm
         n0 = Raise ExecutionGraphError).
Proof.
  split; [by intros ->|]. intros s1 s2 H1 H2 Hne. unfold run_locally.
  destruct (length predictions <? 1); [done|].
  unfold get_and_validate_batch_sizes.
  destruct (all_batch_sizes_equal _) eqn:E; [|done].
  exfalso. apply Hne.
  apply (proj1 (all_batch_sizes_equal_spec _) E); apply list_elem_of_fmap;
    eauto.
Qed.

(** X16: with at least one source, batches of one length B in all sources,
    at least B entries of metadata, and no batch element on which
    [resolve_batch_consensus] raises, [run_locally] returns B records. *)
Theorem run_locally_succeeds predictions image_metadata rv ca thr conf ctc ro
    pm cm bm n0 B
    (Hsources : predictions ≠ [])
    (Hsizes : ∀ s, s ∈ predictions → length s = B)
    (Hmeta : B ≤ length image_metadata)
    (Hresolve : ∀ i column k,
       i < B → Forall2 (λ e c, e !! i = Some c) predictions column →
       ∃ out, resolve_batch_consensus_drawing k column rv ca thr conf ctc ro
                pm cm bm = Ok out) :
  ∃ results n,
    run_locally predictions image_metadata rv ca thr conf ctc ro pm cm bm n0
    = Ok (results, n)
    ∧ length results = B.
Proof.
  unfold run_locally.
  destruct (predictions !! 0) as [s0|] eqn:Hs0; last first.
  { by destruct predictions. }
  replace (length predictions <? 1) with false by by destruct predictions.
  unfold get_and_validate_batch_sizes.
  rewrite (proj2 (all_batch_sizes_equal_spec _)); last first.
  { intros a b (s1 & -> & H1)%list_elem_of_fmap
      (s2 & -> & H2)%list_elem_of_fmap.
    by rewrite (Hsizes s1 H1), (Hsizes s2 H2). }
  cbn [negb bind]. unfold get_predictions_batch_sizes, index.
  rewrite list_lookup_fmap, Hs0. cbn [fmap option_fmap option_map bind].
  rewrite (Hsizes s0) by (apply list_elem_of_lookup; eauto).
  assert (∀ j k results n,
            length results = k → k + j = B →
            ∃ results' n',
              for_each
                (run_locally_body predictions image_metadata rv ca thr conf
                   ctc ro pm cm bm) (seq k j) (results, n)
              = Ok (results', n') ∧ length results' = B) as Hloop.
  { induction j as [|j IH]; intros k results n Hlen Hk; cbn [seq for_each].
    - exists results, n. split; [done | lia].
    - unfold run_locally_body at 1.
      destruct (comprehension_index_total predictions k) as (column & Hcol).
      { intros e He. rewrite (Hsizes e He). lia. }
      rewrite Hcol. simpl.
      destruct (Hresolve k column n ltac:(lia))
        as ([[[[p op] pc] dets] n1] & ->); [by apply comprehension_index|].
      simpl. unfold index.
      destruct (lookup_lt_is_Some_2 image_metadata k) as [img ->]; [lia|].
      simpl. apply IH; [rewrite length_app; simpl; lia | lia]. }
  destruct (Hloop B 0 [] n0) as (results & n & Hres & Hlen); [done | lia |].
  exists results, n. by split.
Qed.
End Dispatcher.

(** *** A single source *)

Lemma Qltb_comp a a' b : (a == a')%Q → Qltb a b = Qltb a' b.
Proof.
  intros Heq. unfold Qltb.
  by rewrite (Qcompare_comp a a' Heq b b (Qeq_refl b)).
Qed.

Lemma max_overlap_single_source d kept thr ca cons :
  get_detections_from_different_sources_with_max_overlap
    d 0 [kept] thr ca cons = Ok [].
Proof.
  unfold get_detections_from_different_sources_with_max_overlap,
    enumerate_detections.
  by simpl.
Qed.

Lemma single_source_loop thr ca rv conf cm bm all_kept kept :
  (rv <= 1)%Z →
  ∀ out cons n,
    NoDup (det_detection_id <$> kept) →
    (∀ d, d ∈ kept → det_detection_id d ∉ cons) →
    ∃ out' cons' n',
      for_each (consensus_loop_body thr ca rv conf cm bm [all_kept])
        (pair 0 <$> kept) (out, cons, n) = Ok (out ++ out', cons', n')
      ∧ Forall2
          (λ d merged,
             det_parent_id merged = det_parent_id d
             ∧ det_class merged = det_class d
             ∧ det_class_id merged = det_class_id d
             ∧ (det_confidence merged == det_confidence d)%Q
             ∧ box_of merged
               = if bm is AVERAGE
                 then (inject_Z (py_round (det_x d)),
                       inject_Z (py_round (det_y d)),
                       inject_Z (py_round (det_width d)),
                       inject_Z (py_round (det_height d)))
                 else box_of d)
          (List.filter (λ d, negb (Qltb (det_confidence d) conf)) kept) out'.
Proof.
  intros Hrv. induction kept as [|d kept IH]; intros out cons n Hnd Hcons.
  - exists [], cons, n. simpl. rewrite app_nil_r. split; [done | constructor].
  - cbn [fmap list_fmap for_each]. unfold consensus_loop_body at 1.
    unfold get_consensus_for_single_detection.
    rewrite decide_False by (apply Hcons; by left).
    rewrite max_overlap_single_source. cbn [bind length].
    replace (Z.of_nat 0 <? rv - 1)%Z with false
      by (symmetry; apply Z.ltb_ge; lia).
    cbn [PyDict.values fmap list_fmap].
    destruct (merge_singleton_spec d cm bm (uuid4 n))
      as (merged & -> & _ & Hp & Hc & Hci & Hconf & Hbox).
    cbn [bind]. rewrite (Qltb_comp _ _ conf Hconf).
    apply NoDup_cons in Hnd as [Hd Hnd]. cbn [List.filter].
    destruct (Qltb (det_confidence d) conf); cbn [negb bind].
    + rewrite app_nil_r. apply IH; [done|]. intros d' Hd'. apply Hcons.
      by right.
    + destruct (IH (out ++ [merged]) (mark_considered cons d []) (S n) Hnd)
        as (out' & cons' & n' & Hloop & Hall).
      { intros d' Hd' [Hin|Hin]%elem_of_mark_considered.
        - apply (Hcons d'); [by right | done].
        - simpl in Hin. apply list_elem_of_singleton in Hin.
          apply Hd. rewrite <- Hin. apply list_elem_of_fmap. eauto. }
      exists (merged :: out'), cons', n'.
      rewrite <- app_assoc in Hloop. split; [done|]. by constructor.
Qed.

(** X17: with a single source, [required_votes] at most 1 and detections
    of pairwise different identifiers, a batch element returns one merged
    detection for each detection that passes the class filter and has a
    confidence not below the threshold, in order, each keeping the parent
    identifier, class, class identifier, confidence and (rounded with
    AVERAGE) box of its detection. *)
Theorem single_source_passes_through
    dets rv ca thr conf ctc ro pm cm bm p op pc out
    (Hrv : (rv <= 1)%Z) (Hnd : NoDup (det_detection_id <$> dets)) :
  resolve_batch_consensus [dets] rv ca thr conf ctc ro pm cm bm
  = Ok (p, op, pc, out) →
  ∃ kept,
    filter_predictions [dets] ctc = [kept]
    ∧ Forall2
        (λ d merged,
           det_parent_id merged = det_parent_id d
           ∧ det_class merged = det_class d
           ∧ det_class_id merged = det_class_id d
           ∧ (det_confidence merged == det_confidence d)%Q
           ∧ box_of merged
             = if bm is AVERAGE
               then (inject_Z (py_round (det_x d)),
                     inject_Z (py_round (det_y d)),
                     inject_Z (py_round (det_width d)),
                     inject_Z (py_round (det_height d)))
               else box_of d)
        (List.filter (λ d, negb (Qltb (det_confidence d) conf)) kept) out.
Proof.
  assert (∃ kept, filter_predictions [dets] ctc = [kept]
                  ∧ NoDup (det_detection_id <$> kept)
                  ∧ (dets = [] → kept = [])) as (kept & Hkept & Hndk & Hnil).
  { destruct ctc as [classes|]; simpl; eexists; (split; [done|]).
    - split; [|by intros ->].
      eapply sublist_NoDup; [exact Hnd|]. apply fmap_sublist, sublist_filter.
    - by split. }
  intros Hres. exists kept. split; [done|]. revert Hres.
  unfold resolve_batch_consensus. rewrite Hkept.
  destruct (does_not_detected_objects_in_any_source [dets]) eqn:Hempty.
  { intros [= <- <- <- <-]. apply does_not_detected_concat in Hempty.
    simpl in Hempty. rewrite app_nil_r in Hempty. rewrite (Hnil Hempty).
    constructor. }
  destruct (get_parent_id_of_predictions_from_different_sources [dets]);
    [|done].
  cbn [bind].
  assert (enumerate_detections [kept] None = pair 0 <$> kept) as ->.
  { unfold enumerate_detections. simpl. by rewrite app_nil_r. }
  destruct (single_source_loop thr ca rv conf cm bm kept kept Hrv [] ∅ 0 Hndk)
    as (out' & cons' & n' & -> & Hall).
  { intros d _. apply not_elem_of_empty. }
  cbn [bind app].
  destruct (check_objects_presence_in_consensus_predictions out' ca pm ro)
    as [[op' pc']|]; [|done].
  cbn [bind]. by intros [= <- <- <- <-].
Qed.
End Consensus.

(** ** Static crops: facts *)

Lemma py_round_inject_Z z : py_round (inject_Z z) = z.
Proof.
  unfold py_round. rewrite Qfloor_Z.
  assert ((inject_Z z - inject_Z z ?= 1 # 2)%Q = Lt) as ->; [|done].
  apply (proj1 (Qlt_alt _ _)). generalize (inject_Z z). intros q. lra.
Qed.

Lemma py_round_ge z q : (inject_Z z <= q)%Q → (z <= py_round q)%Z.
Proof.
  intros Hle. destruct (py_round_spec q) as [_ Hlo].
  destruct (Z_le_gt_dec z (py_round q)) as [|Hgt]; [done|]. exfalso.
  assert (inject_Z (py_round q + 1) <= inject_Z z)%Q as H
    by (rewrite <- Zle_Qle; lia).
  rewrite inject_Z_plus in H. change (inject_Z 1) with 1%Q in H. lra.
Qed.

Lemma py_round_le z q : (q <= inject_Z z)%Q → (py_round q <= z)%Z.
Proof.
  intros Hle. destruct (py_round_spec q) as [Hhi _].
  destruct (Z_le_gt_dec (py_round q) z) as [|Hgt]; [done|]. exfalso.
  assert (inject_Z (z + 1) <= inject_Z (py_round q))%Q as H
    by (rewrite <- Zle_Qle; lia).
  rewrite inject_Z_plus in H. change (inject_Z 1) with 1%Q in H. lra.
Qed.

Lemma crop_window_spec shape_0 shape_1 x_center y_center width height :
  ∃ xc yc w h x_min y_min,
    StaticCrop.crop_window shape_0 shape_1 x_center y_center width height
    = (xc, yc, w, h, x_min, y_min, (x_min + w)%Z, (y_min + h)%Z)
    ∧ xc = py_round (inject_Z (Z.of_nat shape_1) * x_center)
    ∧ yc = py_round (inject_Z (Z.of_nat shape_0) * y_center)
    ∧ w = py_round (inject_Z (Z.of_nat shape_1) * width)
    ∧ h = py_round (inject_Z (Z.of_nat shape_0) * height)
    ∧ x_min = py_round (inject_Z xc - inject_Z w / 2)
    ∧ y_min = py_round (inject_Z yc - inject_Z h / 2).
Proof.
  unfold StaticCrop.crop_window. rewrite !py_round_inject_Z.
  eexists _, _, _, _, _, _. by repeat split.
Qed.



Lemma rounded_fraction_bounds (len : nat) (q : Q) :
  (0 <= q)%Q →
  (0 <= py_round (inject_Z (Z.of_nat len) * q))%Z
  ∧ ((q <= 1)%Q → (py_round (inject_Z (Z.of_nat len) * q) <= Z.of_nat len)%Z).
Proof.
  intros Hq.
  assert (0 <= inject_Z (Z.of_nat len))%Q as Hlen.
  { change 0%Q with (inject_Z 0). rewrite <- Zle_Qle. lia. }
  split.
  - apply py_round_ge. change (inject_Z 0) with 0%Q.
    by apply Qmult_le_0_compat.
  - intros Hq1. apply py_round_le.
    rewrite <- (Qmult_1_r (inject_Z (Z.of_nat len))) at 2.
    rewrite (Qmult_comm _ q), (Qmult_comm _ 1).
    by apply Qmult_le_compat_r.
Qed.

Lemma window_before_the_axis (len : nat) (c w : Z) :
  (0 <= c)%Z → (0 <= w)%Z → (w <= Z.of_nat len)%Z →
  (py_round (inject_Z c - inject_Z w / 2) < 0)%Z →
  StaticCrop.slice_bound (py_round (inject_Z c - inject_Z w / 2) + w) len
  - StaticCrop.slice_bound (py_round (inject_Z c - inject_Z w / 2)) len = 0.
Proof.
  intros Hc0 Hw0 Hw1.
  assert (- w <= py_round (inject_Z c - inject_Z w / 2))%Z as Hlow.
  { apply py_round_ge. rewrite inject_Z_opp.
    assert (0 <= inject_Z c)%Q as Hc'
      by (change 0%Q with (inject_Z 0); by rewrite <- Zle_Qle).
    assert (0 <= inject_Z w)%Q as Hw'
      by (change 0%Q with (inject_Z 0); by rewrite <- Zle_Qle).
    revert Hc' Hw'. generalize (inject_Z c) (inject_Z w). intros a b ? ?.
    unfold Qdiv. change (/ 2)%Q with (1 # 2)%Q. lra. }
  revert Hlow. generalize (py_round (inject_Z c - inject_Z w / 2)).
  intros lo Hlow Hlo. unfold StaticCrop.slice_bound.
  rewrite (proj2 (Z.ltb_lt lo 0)) by done.
  rewrite (proj2 (Z.ltb_ge (lo + w) 0)) by lia. lia.
Qed.

(** X19: for a centre and a size given as fractions (centre at least 0,
    size between 0 and 1), a window that starts left of the image gives a
    crop without columns, and one that starts above it a crop without
    rows: the negative start counts from the far edge. *)
Theorem take_static_crop_before_the_edge {A S : Type} numpy_object
    (image : StaticCrop.Image A) x_center y_center width height
    (origin_size : S) fresh xc yc w h x_min y_min x_max y_max
    (Hwindow : StaticCrop.crop_window (StaticCrop.shape0 image)
                 (StaticCrop.shape1 image) x_center y_center width height
               = (xc, yc, w, h, x_min, y_min, x_max, y_max)) :
  let crop :=
    StaticCrop.take_static_crop numpy_object image x_center y_center width
      height origin_size fresh in
  ((0 <= x_center)%Q → (0 <= width)%Q → (width <= 1)%Q → (x_min < 0)%Z →
   StaticCrop.shape1 (StaticCrop.crop_value crop) = 0)
  ∧ ((0 <= y_center)%Q → (0 <= height)%Q → (height <= 1)%Q → (y_min < 0)%Z →
     StaticCrop.shape0 (StaticCrop.crop_value crop) = 0).
Proof.
  intros crop. subst crop. unfold StaticCrop.take_static_crop.
  destruct (crop_window_spec (StaticCrop.shape0 image)
              (StaticCrop.shape1 image) x_center y_center width height)
    as (xc' & yc' & w' & h' & x_min' & y_min' & Heq & Hxc & Hyc & Hw & Hh
        & Hxmin & Hymin).
  rewrite Hwindow in Heq. injection Heq as -> -> -> -> -> -> -> ->.
  rewrite Hwindow. cbn. split.
  - intros H1 H2 H3 H4.
    destruct (rounded_fraction_bounds (StaticCrop.shape1 image) x_center H1)
      as [Hc0 _].
    destruct (rounded_fraction_bounds (StaticCrop.shape1 image) width H2)
      as [Hw0 Hw1].
    subst. by apply window_before_the_axis; [..|apply Hw1|].
  - intros H1 H2 H3 H4.
    destruct (rounded_fraction_bounds (StaticCrop.shape0 image) y_center H1)
      as [Hc0 _].
    destruct (rounded_fraction_bounds (StaticCrop.shape0 image) height H2)
      as [Hw0 Hw1].
    subst. by apply window_before_the_axis; [..|apply Hw1|].
Qed.

(** X20: a window that starts inside the image and ends beyond its right
    or lower edge is clipped at that edge. *)
Theorem take_static_crop_beyond_the_edge {A S : Type} numpy_object
    (image : StaticCrop.Image A) x_center y_center width height
    (origin_size : S) fresh xc yc w h x_min y_min x_max y_max
    (Hwindow : StaticCrop.crop_window (StaticCrop.shape0 image)
                 (StaticCrop.shape1 image) x_center y_center width height
               = (xc, yc, w, h, x_min, y_min, x_max, y_max)) :
  let crop :=
    StaticCrop.take_static_crop numpy_object image x_center y_center width
      height origin_size fresh in
  ((0 <= x_min <= Z.of_nat (StaticCrop.shape1 image))%Z →
   (Z.of_nat (StaticCrop.shape1 image) < x_max)%Z →
   Z.of_nat (StaticCrop.shape1 (StaticCrop.crop_value crop))
   = (Z.of_nat (StaticCrop.shape1 image) - x_min)%Z)
  ∧ ((0 <= y_min <= Z.of_nat (StaticCrop.shape0 image))%Z →
     (Z.of_nat (StaticCrop.shape0 image) < y_max)%Z →
     Z.of_nat (StaticCrop.shape0 (StaticCrop.crop_value crop))
     = (Z.of_nat (StaticCrop.shape0 image) - y_min)%Z).
Proof.
  intros crop. subst crop. unfold StaticCrop.take_static_crop.
  rewrite Hwindow. cbn. unfold StaticCrop.slice_bound. split.
  - intros [H1 H2] H3.
    rewrite (proj2 (Z.ltb_ge x_min 0)), (proj2 (Z.ltb_ge x_max 0)) by lia.
    lia.
  - intros [H1 H2] H3.
    rewrite (proj2 (Z.ltb_ge y_min 0)), (proj2 (Z.ltb_ge y_max 0)) by lia.
    lia.
Qed.

(** ** The identifiers drawn do not matter *)

Lemma merge_detections_ignores_fresh detections cm bm fresh fresh' :
  match merge_detections detections cm bm fresh,
        merge_detections detections cm bm fresh' with
  | Ok a, Ok b => erase_id a = erase_id b ∧ det_confidence a = det_confidence b
  | Raise e, Raise e' => e = e'
  | _, _ => False
  end.
Proof.
  unfold merge_detections.
  destruct (AGGREGATION_MODE2CLASS_SELECTOR cm detections) as [[cn ci]|];
    [|done].
  simpl.
  destruct (AGGREGATION_MODE2BOXES_AGGREGATOR bm detections)
    as [[[[x y] w] h]|]; [|done].
  simpl. destruct (first detections); [|done]. simpl.
  by destruct (aggregate_field_values detections F_confidence cm).
Qed.

Lemma single_detection_ignores_uuid4 xyxy u u' d s predictions thr ca rv conf
    cm bm cons n :
  match get_consensus_for_single_detection xyxy u d s predictions thr ca rv
          conf cm bm cons n,
        get_consensus_for_single_detection xyxy u' d s predictions thr ca rv
          conf cm bm cons n with
  | Ok (o, c, k), Ok (o', c', k') =>
      erase_id <$> o = erase_id <$> o' ∧ c = c' ∧ k = k'
  | Raise e, Raise e' => e = e'
  | _, _ => False
  end.
Proof.
  unfold get_consensus_for_single_detection.
  destruct (decide (det_detection_id d ∈ cons)); [done|].
  destruct (get_detections_from_different_sources_with_max_overlap xyxy d s
              predictions thr ca cons) as [m|]; [|done].
  simpl. destruct (_ <? _)%Z; [done|].
  pose proof (merge_detections_ignores_fresh (d :: (PyDict.values m).*1) cm bm
                (u n) (u' n)) as Hmerge.
  destruct (merge_detections _ cm bm (u n)) as [a|];
    destruct (merge_detections _ cm bm (u' n)) as [b|]; try done.
  simpl. destruct Hmerge as [Herase Hconf]. rewrite Hconf.
  destruct (Qltb (det_confidence b) conf); [done|].
  simpl. by rewrite Herase.
Qed.

Lemma consensus_loop_ignores_uuid4 xyxy u u' thr ca rv conf cm bm predictions
    items :
  ∀ out out' cons n,
    erase_id <$> out = erase_id <$> out' →
    match for_each (consensus_loop_body xyxy u thr ca rv conf cm bm
                      predictions) items (out, cons, n),
          for_each (consensus_loop_body xyxy u' thr ca rv conf cm bm
                      predictions) items (out', cons, n) with
    | Ok (o, c, k), Ok (o', c', k') =>
        erase_id <$> o = erase_id <$> o' ∧ c = c' ∧ k = k'
    | Raise e, Raise e' => e = e'
    | _, _ => False
    end.
Proof.
  induction items as [|[s d] items IH]; intros out out' cons n Hout;
    cbn [for_each].
  - done.
  - set (rest := for_each (consensus_loop_body xyxy u thr ca rv conf cm bm
                               predictions) items).
    set (rest' := for_each (consensus_loop_body xyxy u' thr ca rv conf cm bm
                                predictions) items).
    unfold consensus_loop_body.
    pose proof (single_detection_ignores_uuid4 xyxy u u' d s predictions thr
                  ca rv conf cm bm cons n) as Hstep.
    destruct (get_consensus_for_single_detection xyxy u _ _ _ _ _ _ _ _ _ _ _)
      as [[[o c] k]|];
      destruct (get_consensus_for_single_detection xyxy u' _ _ _ _ _ _ _ _ _
                  _ _) as [[[o' c'] k']|]; try done.
    destruct Hstep as (Ho & <- & <-). cbn [bind]. subst rest rest'.
    apply IH. by rewrite !fmap_app, Hout, Ho.
Qed.

Section DictValues.
Context {K V W : Type} `{EqDecision K} (f : V → W).

Lemma get_map_values (m : list (K * V)) k :
  PyDict.get (prod_map id f <$> m) k = f <$> PyDict.get m k.
Proof.
  induction m as [|[k' v] m IH]; simpl; [done|]. by destruct (decide _).
Qed.

Lemma set_map_values (m : list (K * V)) k v :
  PyDict.set (prod_map id f <$> m) k (f v)
  = prod_map id f <$> PyDict.set m k v.
Proof.
  induction m as [|[k' v'] m IH]; [done|].
  change (prod_map id f <$> (k', v') :: m)
    with ((k', f v') :: (prod_map id f <$> m)).
  cbn [PyDict.set]. destruct (decide _); [done|].
  by rewrite IH.
Qed.
End DictValues.

Lemma aggregate_field_values_erase (detections : list Detection) field mode :
  aggregate_field_values (erase_id <$> detections) field mode
  = aggregate_field_values detections field mode.
Proof.
  unfold aggregate_field_values. f_equal. rewrite <- list_fmap_compose.
  apply list_fmap_ext. intros _ d _. by destruct field.
Qed.

Lemma group_by_class_erase (detections : list Detection) :
  group_by_class (erase_id <$> detections)
  = prod_map id (fmap (M:=list) erase_id) <$> group_by_class detections.
Proof.
  unfold group_by_class.
  induction detections as [|d detections IH] using rev_ind; [done|].
  rewrite fmap_app, !fold_left_app, IH. simpl.
  rewrite get_map_values, <- set_map_values. f_equal.
  destruct (PyDict.get _ (det_class d)); simpl; [|done].
  by rewrite fmap_app.
Qed.

Lemma check_required_classes_erase items :
  ∀ G : list (string * list Detection),
    check_required_classes items (prod_map id (fmap (M:=list) erase_id) <$> G)
    = fmap (M:=list) (prod_map id (fmap (M:=list) erase_id))
        <$> check_required_classes items G.
Proof.
  induction items as [|[c n] items IH]; intros G; simpl; [done|].
  rewrite get_map_values.
  destruct (PyDict.get G c) as [ds|]; simpl.
  - rewrite length_fmap. destruct (_ <? _)%Z; [done|]. apply IH.
  - destruct (_ <? _)%Z; [done|].
    rewrite <- IH. f_equal.
    exact (set_map_values (fmap (M:=list) erase_id) G c []).
Qed.

Lemma class2confidence_of_erase mode (G : list (string * list Detection)) :
  class2confidence_of mode (prod_map id (fmap (M:=list) erase_id) <$> G)
  = class2confidence_of mode G.
Proof.
  induction G as [|[c l] G IH]; [done|].
  change (prod_map id (fmap (M:=list) erase_id) <$> (c, l) :: G)
    with ((c, erase_id <$> l)
            :: (prod_map id (fmap (M:=list) erase_id) <$> G)).
  cbn [class2confidence_of].
  by rewrite aggregate_field_values_erase, IH.
Qed.

Lemma presence_ignores_identifiers (detections : list Detection) ca mode ro :
  check_objects_presence_in_consensus_predictions (erase_id <$> detections) ca
    mode ro
  = check_objects_presence_in_consensus_predictions detections ca mode ro.
Proof.
  unfold check_objects_presence_in_consensus_predictions.
  rewrite length_fmap, aggregate_field_values_erase, group_by_class_erase.
  destruct (length detections =? 0); [done|].
  destruct (match default (RequiredInt 0) ro with
            | RequiredInt _ => default (RequiredInt 0) ro
            | RequiredDict m =>
                if negb ca
                then RequiredInt (fold_left Z.add (PyDict.values m) 0%Z)
                else default (RequiredInt 0) ro
            end) as [n|m].
  - destruct (_ <? _)%Z; [done|]. destruct (negb ca); [done|].
    by rewrite class2confidence_of_erase.
  - destruct (negb ca); [done|]. rewrite check_required_classes_erase.
    destruct (check_required_classes m (group_by_class detections)); [|done].
    simpl. by rewrite class2confidence_of_erase.
Qed.

(** X21: what a batch element returns does not depend on the identifiers
    that [uuid4] hands out: with any two supplies it raises the same error,
    or returns the same parent identifier, presence and confidences and
    merged detections that agree in everything but their identifier. *)
Theorem resolve_batch_consensus_ignores_uuid4
    xyxy u u' predictions rv ca thr conf ctc ro pm cm bm :
  match resolve_batch_consensus xyxy u predictions rv ca thr conf ctc ro pm
          cm bm,
        resolve_batch_consensus xyxy u' predictions rv ca thr conf ctc ro pm
          cm bm with
  | Ok (p, op, pc, dets), Ok (p', op', pc', dets') =>
      p = p' ∧ op = op' ∧ pc = pc' ∧ erase_id <$> dets = erase_id <$> dets'
  | Raise e, Raise e' => e = e'
  | _, _ => False
  end.
Proof.
  unfold resolve_batch_consensus.
  destruct (does_not_detected_objects_in_any_source predictions); [done|].
  destruct (get_parent_id_of_predictions_from_different_sources predictions)
    as [p|]; [|done].
  cbn [bind].
  pose proof (consensus_loop_ignores_uuid4 xyxy u u' thr ca rv conf cm bm
                (filter_predictions predictions ctc)
                (enumerate_detections (filter_predictions predictions ctc)
                   None) [] [] ∅ 0 eq_refl) as Hloop.
  destruct (for_each (consensus_loop_body xyxy u _ _ _ _ _ _ _) _ _)
    as [[[o c] k]|];
    destruct (for_each (consensus_loop_body xyxy u' _ _ _ _ _ _ _) _ _)
      as [[[o' c'] k']|]; try done.
  destruct Hloop as (Ho & _ & _). cbn [bind].
  rewrite <- (presence_ignores_identifiers o),
    <- (presence_ignores_identifiers o'), Ho.
  destruct (check_objects_presence_in_consensus_predictions _ ca pm ro)
    as [[op pc]|]; [|done].
  by simpl.
Qed.

(** ** Floats: facts *)

Section FloatFacts.
Import Binary64.

(** *** Rounding to the nearest float *)

Lemma pow2_pos e : (0 < pow2 e)%Q.
Proof. by apply Qpower_0_lt. Qed.

Lemma pow2_plus a b : (pow2 (a + b) == pow2 a * pow2 b)%Q.
Proof. by apply Qpower_plus. Qed.

Lemma pow2_le a b : (a <= b)%Z → (pow2 a <= pow2 b)%Q.
Proof. intros H. by apply Qpower_le_compat_l. Qed.

Lemma pow2_lt_inv a b : (pow2 a < pow2 b)%Q → (a < b)%Z.
Proof. intros H. by apply (Qpower_lt_compat_l_inv 2). Qed.

Lemma pow2_inject_Z a : (0 <= a)%Z → (inject_Z (2 ^ a) == pow2 a)%Q.
Proof. intros H. by apply Zpower_Qpower. Qed.

Lemma log2_bounds z :
  (0 < z)%Z →
  (pow2 (Z.log2 z) <= inject_Z z)%Q ∧ (inject_Z z < pow2 (Z.log2 z + 1))%Q.
Proof.
  intros Hz. destruct (Z.log2_spec z Hz) as [Hlo Hhi].
  pose proof (Z.log2_nonneg z) as Hnn.
  rewrite <- !pow2_inject_Z by lia. rewrite <- Zle_Qle, <- Zlt_Qlt.
  split; [done|]. by rewrite <- Z.add_1_r in Hhi.
Qed.

Lemma floor_log2_spec q :
  (0 < q)%Q →
  (pow2 (floor_log2 q) <= q)%Q ∧ (q < pow2 (floor_log2 q + 1))%Q.
Proof.
  intros Hq. unfold floor_log2.
  destruct q as [n d]. 
  assert (0 < n)%Z as Hn.
  { unfold Qlt in Hq. simpl in Hq. lia. }
  cbn [Qnum Qden].
  destruct (log2_bounds n Hn) as [Hnlo Hnhi].
  destruct (log2_bounds (Z.pos d)) as [Hdlo Hdhi]; [done|].
  set (a := Z.log2 n) in *. set (b := Z.log2 (Z.pos d)) in *.
  assert (n # d == inject_Z n / inject_Z (Z.pos d))%Q as Hdiv
    by apply Qmake_Qdiv.
  assert (0 < inject_Z (Z.pos d))%Q as HD by (by rewrite <- (Zlt_Qlt 0)).
  assert ((n # d) * inject_Z (Z.pos d) == inject_Z n)%Q as Hmul.
  { rewrite Hdiv. field. lra. }
  set (q := (n # d)%Q) in *. clearbody q.
  set (N := inject_Z n) in *. set (D := inject_Z (Z.pos d)) in *.
  clearbody N D.
  assert (pow2 (a - b - 1) <= q)%Q as Hlow.
  { pose proof (pow2_plus (a - b - 1) (b + 1)) as Hp.
    replace (a - b - 1 + (b + 1))%Z with a in Hp by lia.
    pose proof (pow2_pos (a - b - 1)) as Hpos.
    set (P := pow2 (a - b - 1)) in *. set (B := pow2 (b + 1)) in *.
    set (A := pow2 a) in *. clearbody P B A. nra. }
  assert (q < pow2 (a - b + 1))%Q as Hhigh.
  { pose proof (pow2_plus (a - b + 1) b) as Hp.
    replace (a - b + 1 + b)%Z with (a + 1)%Z in Hp by lia.
    pose proof (pow2_pos (a - b + 1)) as Hpos.
    set (P := pow2 (a - b + 1)) in *. set (B := pow2 b) in *.
    set (A := pow2 (a + 1)) in *. clearbody P B A. nra. }
  destruct (Qle_bool (pow2 (a - b)) q) eqn:E.
  - apply Qle_bool_iff in E. split; [done | done].
  - replace (a - b - 1 + 1)%Z with (a - b)%Z by lia.
    split; [done|]. apply Qnot_le_lt. intros H. apply Qle_bool_iff in H.
    congruence.
Qed.

Lemma max_float_eq :
  (max_float == inject_Z (2 ^ 53 - 1) * pow2 971)%Q.
Proof. vm_compute. reflexivity. Qed.

Lemma max_float_lt : (max_float < pow2 1024)%Q.
Proof. vm_compute. reflexivity. Qed.

Lemma pow2_1023_le : (pow2 1023 <= max_float)%Q.
Proof. vm_compute. discriminate. Qed.

Lemma round_positive_range q :
  (0 < q)%Q → (q <= max_float)%Q →
  (0 <= round_positive q)%Q ∧ (round_positive q <= max_float)%Q.
Proof.
  intros Hpos Hmax. unfold round_positive.
  destruct (floor_log2_spec q Hpos) as [Hlo Hhi].
  set (fl := floor_log2 q) in *.
  assert (fl < 1024)%Z as Hfl.
  { apply pow2_lt_inv. pose proof max_float_lt. lra. }
  set (e := Z.max (fl - 52) (-1074)).
  assert (fl - 52 <= e)%Z as He1 by lia.
  assert (e <= 971)%Z as He2 by lia.
  rewrite Qred_correct.
  pose proof (pow2_pos e) as HE.
  assert (q / pow2 e * pow2 e == q)%Q as Hx by (field; lra).
  set (x := (q / pow2 e)%Q) in *.
  assert (0 <= x)%Q as Hx0.
  { clearbody x. set (E := pow2 e) in *. clearbody E. nra. }
  assert (0 <= py_round x)%Z as Hm0 by (by apply py_round_ge).
  assert (0 <= inject_Z (py_round x))%Q as Hm0' by (by rewrite <- (Zle_Qle 0)).
  split.
  { set (E := pow2 e) in *. clearbody E. nra. }
  destruct (decide (e = 971%Z)) as [He|He].
  - assert (py_round x <= 2 ^ 53 - 1)%Z as Hm.
    { apply py_round_le. pose proof max_float_eq as Hmf.
      rewrite He in *. clearbody x.
      set (E := pow2 971) in *. set (M := inject_Z (2 ^ 53 - 1)) in *.
      clearbody E M. nra. }
    rewrite Zle_Qle in Hm. rewrite max_float_eq, He.
    pose proof (pow2_pos 971).
    set (E := pow2 971) in *. clearbody E. nra.
  - assert (py_round x <= 2 ^ 53)%Z as Hm.
    { apply py_round_le. rewrite pow2_inject_Z by lia.
      pose proof (pow2_plus 53 e) as Hp.
      assert (pow2 (fl + 1) <= pow2 (53 + e))%Q as Hle by (apply pow2_le; lia).
      pose proof (pow2_pos 53).
      clearbody x.
      set (E := pow2 e) in *. set (A := pow2 53) in *.
      set (B := pow2 (53 + e)) in *. set (C := pow2 (fl + 1)) in *.
      clearbody E A B C. nra. }
    rewrite Zle_Qle in Hm. rewrite pow2_inject_Z in Hm by lia.
    pose proof (pow2_plus 53 e) as Hp.
    assert (pow2 (53 + e) <= pow2 1023)%Q as Hle by (apply pow2_le; lia).
    pose proof pow2_1023_le. pose proof (pow2_pos 53).
    set (E := pow2 e) in *. set (A := pow2 53) in *.
    set (B := pow2 (53 + e)) in *. set (C := pow2 1023) in *.
    set (m := inject_Z (py_round x)) in *.
    clearbody E A B C m. nra.
Qed.

Lemma b64_range q :
  (Qabs q <= max_float)%Q → (Qabs (b64 q) <= max_float)%Q.
Proof.
  intros Hq. unfold b64. destruct q as [[|n|n] d]; cbn [Qnum].
  - vm_compute. discriminate.
  - assert (0 < Z.pos n # d)%Q as Hpos by done.
    rewrite Qabs_pos in Hq by lra.
    destruct (round_positive_range _ Hpos Hq) as [H0 H1].
    by rewrite Qabs_pos.
  - change (Qabs (Z.neg n # d)) with (Z.pos n # d)%Q in Hq.
    change (- (Z.neg n # d))%Q with (Z.pos n # d)%Q.
    assert (0 < Z.pos n # d)%Q as Hpos by done.
    destruct (round_positive_range _ Hpos Hq) as [H0 H1].
    rewrite Qabs_opp. by rewrite Qabs_pos.
Qed.

Lemma of_Q_in_range q :
  (Qabs q <= max_float)%Q → of_Q q = Finite (b64 q).
Proof.
  intros Hq. unfold of_Q.
  assert (Qle_bool (pow2 1024) (Qabs (b64 q)) = false) as ->; [|done].
  apply Qle_bool_false. pose proof (b64_range q Hq). pose proof max_float_lt.
  lra.
Qed.

Lemma round_positive_nearby q :
  (0 < q)%Q →
  (Qabs (round_positive q - q) <= q * pow2 (-53) + pow2 (-1075))%Q.
Proof.
  intros Hpos. unfold round_positive.
  destruct (floor_log2_spec q Hpos) as [Hlo _].
  set (fl := floor_log2 q) in *.
  set (e := Z.max (fl - 52) (-1074)).
  rewrite Qred_correct.
  pose proof (pow2_pos e) as HE.
  assert (q / pow2 e * pow2 e == q)%Q as Hx by (field; lra).
  set (x := (q / pow2 e)%Q) in *.
  destruct (py_round_spec x) as [Hup Hdown].
  set (m := inject_Z (py_round x)) in *.
  pose proof (pow2_plus (e - 1) 1) as Hhalf.
  replace (e - 1 + 1)%Z with e in Hhalf by lia.
  change (pow2 1) with 2%Q in Hhalf.
  pose proof (pow2_pos (e - 1)) as HE'.
  assert (pow2 (e - 1) <= q * pow2 (-53) + pow2 (-1075))%Q as Hbound.
  { pose proof (pow2_pos (-53)). pose proof (pow2_pos (-1075)).
    destruct (Z.max_spec (fl - 52) (-1074)) as [[_ He]|[_ He]]; fold e in He.
    - rewrite He. change (-1074 - 1)%Z with (-1075)%Z.
      set (A := pow2 (-53)) in *. set (B := pow2 (-1075)) in *.
      clearbody A B. nra.
    - pose proof (pow2_plus fl (-53)) as Hp.
      replace (fl + -53)%Z with (e - 1)%Z in Hp by lia.
      set (A := pow2 (-53)) in *. set (B := pow2 (-1075)) in *.
      set (C := pow2 fl) in *. set (D := pow2 (e - 1)) in *.
      clearbody A B C D. nra. }
  apply Qabs_Qle_condition.
  clearbody x m. set (E := pow2 e) in *. set (H := pow2 (e - 1)) in *.
  set (bound := (q * pow2 (-53) + pow2 (-1075))%Q) in *.
  clearbody E H bound. split; nra.
Qed.

Lemma b64_nearby q :
  (Qabs (b64 q - q) <= Qabs q * pow2 (-53) + pow2 (-1075))%Q.
Proof.
  unfold b64. destruct q as [[|n|n] d]; cbn [Qnum].
  - vm_compute. discriminate.
  - assert (0 < Z.pos n # d)%Q as Hpos by done.
    rewrite (Qabs_pos (Z.pos n # d)) by lra.
    by apply round_positive_nearby.
  - change (Qabs (Z.neg n # d)) with (Z.pos n # d)%Q.
    change (- (Z.neg n # d))%Q with (Z.pos n # d)%Q.
    assert (0 < Z.pos n # d)%Q as Hpos by done.
    pose proof (round_positive_nearby _ Hpos) as H.
    assert (- round_positive (Z.pos n # d) - (Z.neg n # d)
            == - (round_positive (Z.pos n # d) - (Z.pos n # d)))%Q as ->.
    { change (Z.neg n # d)%Q with (- (Z.pos n # d))%Q. ring. }
    by rewrite Qabs_opp.
Qed.

(** *** The order of the floats *)

Lemma of_Q_not_NaN q : of_Q q ≠ NaN.
Proof. unfold of_Q. by destruct (Qle_bool _ _). Qed.

Lemma fltb_irrefl a : fltb a a = false.
Proof.
  destruct a as [p|[]|]; simpl; try done. apply Qltb_ge. apply Qle_refl.
Qed.

Lemma fltb_trans a b c :
  fltb a b = true → fltb b c = true → fltb a c = true.
Proof.
  destruct a as [p|[]|], b as [q|[]|], c as [r|[]|]; simpl; try done.
  rewrite !Qltb_lt. apply Qlt_trans.
Qed.

(** Between numbers, what is not below is above or equal. *)
Lemma fltb_negative_trans a b c :
  b ≠ NaN → fltb a b = false → fltb b c = false → fltb a c = false.
Proof.
  destruct a as [p|[]|], b as [q|[]|], c as [r|[]|]; simpl; try done.
  rewrite !Qltb_ge. intros _ H1 H2. by apply Qle_trans with q.
Qed.

Lemma fltb_total a b :
  a ≠ NaN → b ≠ NaN → fltb a b = false → feqb a b = false → fltb b a = true.
Proof.
  destruct a as [p|[]|], b as [q|[]|]; simpl; try done.
  rewrite Qltb_ge, Qltb_lt. intros _ _ Hle Hne.
  apply Qle_lteq in Hle as [Hlt|Heq]; [done|].
  symmetry in Heq. apply Qeq_bool_iff in Heq. congruence.
Qed.

Lemma feqb_refl a : a ≠ NaN → feqb a a = true.
Proof.
  destruct a as [p|[]|]; simpl; try done. intros _. by apply Qeq_bool_iff.
Qed.

Lemma feqb_sym a b : feqb a b = feqb b a.
Proof.
  destruct a as [p|[]|], b as [q|[]|]; simpl; try done.
  destruct (Qeq_bool p q) eqn:E1, (Qeq_bool q p) eqn:E2; try done.
  - apply Qeq_bool_iff in E1. symmetry in E1. apply Qeq_bool_iff in E1.
    congruence.
  - apply Qeq_bool_iff in E2. symmetry in E2. apply Qeq_bool_iff in E2.
    congruence.
Qed.

Lemma feqb_fltb_l a b c : feqb a b = true → fltb a c = fltb b c.
Proof.
  destruct a as [p|[]|], b as [q|[]|], c as [r|[]|]; simpl; try done.
  intros Heq%Qeq_bool_iff.
  destruct (Qltb p r) eqn:E1, (Qltb q r) eqn:E2; try done.
  - apply Qltb_lt in E1. apply Qltb_ge in E2. lra.
  - apply Qltb_lt in E2. apply Qltb_ge in E1. lra.
Qed.

Lemma feqb_fltb_r a b c : feqb a b = true → fltb c a = fltb c b.
Proof.
  destruct a as [p|[]|], b as [q|[]|], c as [r|[]|]; simpl; try done.
  intros Heq%Qeq_bool_iff.
  destruct (Qltb r p) eqn:E1, (Qltb r q) eqn:E2; try done.
  - apply Qltb_lt in E1. apply Qltb_ge in E2. lra.
  - apply Qltb_lt in E2. apply Qltb_ge in E1. lra.
Qed.

Lemma fold_fmax2_spec vs v :
  Forall (λ x, x ≠ NaN) (v :: vs) →
  fold_left fmax2 vs v ∈ v :: vs
  ∧ ∀ x, x ∈ v :: vs → fltb (fold_left fmax2 vs v) x = false.
Proof.
  revert v. induction vs as [|a vs IH]; intros v Hnum; simpl.
  - split; [by left|]. intros x ->%list_elem_of_singleton. apply fltb_irrefl.
  - apply Forall_cons in Hnum as [Hv [Ha Hvs]%Forall_cons].
    assert (fmax2 v a = if fltb v a then a else v) as Hstep by done.
    destruct (fltb v a) eqn:E; rewrite Hstep; clear Hstep.
    + destruct (IH a) as [Hin Hle]; [by apply Forall_cons|].
      split; [by right|].
      intros x [->|Hx]%elem_of_cons; [|by apply Hle].
      destruct (fltb (fold_left fmax2 vs a) v) eqn:E'; [|done].
      rewrite <- (Hle a ltac:(by left)). symmetry.
      by apply fltb_trans with v.
    + destruct (IH v) as [Hin Hle]; [by apply Forall_cons|].
      split.
      { apply elem_of_cons in Hin as [->|Hin]; [by left | right; by right]. }
      intros x [->|[->|Hx]%elem_of_cons]%elem_of_cons.
      * apply Hle. by left.
      * apply fltb_negative_trans with v; [done | | done]. apply Hle. by left.
      * apply Hle. by right.
Qed.

Lemma fold_fmin2_spec vs v :
  Forall (λ x, x ≠ NaN) (v :: vs) →
  fold_left fmin2 vs v ∈ v :: vs
  ∧ ∀ x, x ∈ v :: vs → fltb x (fold_left fmin2 vs v) = false.
Proof.
  revert v. induction vs as [|a vs IH]; intros v Hnum; simpl.
  - split; [by left|]. intros x ->%list_elem_of_singleton. apply fltb_irrefl.
  - apply Forall_cons in Hnum as [Hv [Ha Hvs]%Forall_cons].
    assert (fmin2 v a = if fltb a v then a else v) as Hstep by done.
    destruct (fltb a v) eqn:E; rewrite Hstep; clear Hstep.
    + destruct (IH a) as [Hin Hle]; [by apply Forall_cons|].
      split; [by right|].
      intros x [->|Hx]%elem_of_cons; [|by apply Hle].
      destruct (fltb v (fold_left fmin2 vs a)) eqn:E'; [|done].
      rewrite <- (Hle a ltac:(by left)). symmetry.
      by apply fltb_trans with v.
    + destruct (IH v) as [Hin Hle]; [by apply Forall_cons|].
      split.
      { apply elem_of_cons in Hin as [->|Hin]; [by left | right; by right]. }
      intros x [->|[->|Hx]%elem_of_cons]%elem_of_cons.
      * apply Hle. by left.
      * apply fltb_negative_trans with v; [done | done |]. apply Hle. by left.
      * apply Hle. by right.
Qed.

Lemma first_match_spec {A : Type} (p : A → bool) k (l : list A) x :
  x ∈ l → p x = true →
  ∃ i y rest,
    List.filter (λ iv : nat * A, p iv.2) (imap (λ i v, (k + i, v)) l)
    = (k + i, y) :: rest
    ∧ l !! i = Some y ∧ p y = true
    ∧ ∀ j z, j < i → l !! j = Some z → p z = false.
Proof.
  revert k. induction l as [|a l IH]; intros k Hx Hp.
  - by apply elem_of_nil in Hx.
  - simpl. destruct (p a) eqn:Ha.
    + exists 0, a. eexists. rewrite Nat.add_0_r.
      repeat split; try done. intros j z Hj. lia.
    + apply elem_of_cons in Hx as [->|Hx]; [congruence|].
      destruct (IH (S k) Hx Hp) as (i & y & rest & Hfirst & Hy & Hpy & Hbefore).
      exists (S i), y, rest.
      rewrite (imap_ext _ (λ i v, (S k + i, v))); last first.
      { intros j z _. simpl. f_equal. lia. }
      rewrite Hfirst. split; [do 2 f_equal; lia|]. do 2 (split; [done|]).
      intros [|j] z Hj; simpl; [by intros [= <-] | intros Hz].
      apply (Hbefore j z); [lia | done].
Qed.

Lemma float_first_index_of_size_spec size (sizes : list float) x :
  x ∈ sizes → feqb x size = true →
  ∃ i y,
    OnFloats.first_index_of_size size sizes = Ok i
    ∧ sizes !! i = Some y ∧ feqb y size = true
    ∧ ∀ j z, j < i → sizes !! j = Some z → feqb z size = false.
Proof.
  intros Hx Heq. unfold OnFloats.first_index_of_size.
  destruct (first_match_spec (λ v, feqb v size) 0 sizes x Hx Heq)
    as (i & y & rest & Hfirst & Hy & Hpy & Hbefore).
  change (imap pair sizes) with (imap (λ i v, (0 + i, v)) sizes).
  rewrite Hfirst. exists i, y. by repeat split.
Qed.

Lemma float_sizes_lookup detections i :
  OnFloats.get_detection_sizes detections !! i
  = OnFloats.box_area <$> detections !! i.
Proof. unfold OnFloats.get_detection_sizes. by rewrite list_lookup_fmap. Qed.

Lemma float_sizes_are_numbers detections :
  Forall (λ x, x ≠ NaN) (OnFloats.get_detection_sizes detections).
Proof.
  unfold OnFloats.get_detection_sizes. apply Forall_fmap, Forall_forall.
  intros d _. apply of_Q_not_NaN.
Qed.

Lemma float_largest_bounding_box_spec detections :
  detections ≠ [] →
  ∃ i d,
    OnFloats.get_largest_bounding_box detections = Ok (OnFloats.box_of d)
    ∧ detections !! i = Some d
    ∧ ∀ j d', detections !! j = Some d' →
        fltb (OnFloats.box_area d) (OnFloats.box_area d') = false
        ∧ (j < i → fltb (OnFloats.box_area d') (OnFloats.box_area d) = true).
Proof.
  intros Hne. unfold OnFloats.get_largest_bounding_box.
  pose proof (float_sizes_are_numbers detections) as Hnum.
  destruct (OnFloats.get_detection_sizes detections) as [|v vs] eqn:Hsizes.
  { by destruct detections. }
  destruct (fold_fmax2_spec vs v Hnum) as [Hin Hmax].
  cbn [OnFloats.py_max bind]. set (m := fold_left fmax2 vs v) in *.
  assert (m ≠ NaN) as Hm.
  { by apply (proj1 (Forall_forall _ _) Hnum). }
  destruct (float_first_index_of_size_spec m (v :: vs) m Hin (feqb_refl m Hm))
    as (i & y & -> & Hy & Hym & Hbefore).
  cbn [bind]. rewrite <- Hsizes in *. rewrite float_sizes_lookup in Hy.
  destruct (detections !! i) as [d|] eqn:Hd; [|done].
  injection Hy as <-. exists i, d. do 2 (split; [done|]).
  intros j d' Hd'.
  assert (OnFloats.get_detection_sizes detections !! j
          = Some (OnFloats.box_area d')) as Hj.
  { by rewrite float_sizes_lookup, Hd'. }
  assert (fltb m (OnFloats.box_area d') = false) as Hle.
  { apply Hmax, list_elem_of_lookup. eauto. }
  split; [by rewrite (feqb_fltb_l _ _ _ Hym)|].
  intros Hlt. rewrite (feqb_fltb_r _ _ _ Hym).
  apply fltb_total; [done | | done | rewrite feqb_sym; by apply (Hbefore j)].
  apply (proj1 (Forall_forall _ _) Hnum), list_elem_of_lookup. eauto.
Qed.

Lemma float_smallest_bounding_box_spec detections :
  detections ≠ [] →
  ∃ i d,
    OnFloats.get_smallest_bounding_box detections = Ok (OnFloats.box_of d)
    ∧ detections !! i = Some d
    ∧ ∀ j d', detections !! j = Some d' →
        fltb (OnFloats.box_area d') (OnFloats.box_area d) = false
        ∧ (j < i → fltb (OnFloats.box_area d) (OnFloats.box_area d') = true).
Proof.
  intros Hne. unfold OnFloats.get_smallest_bounding_box.
  pose proof (float_sizes_are_numbers detections) as Hnum.
  destruct (OnFloats.get_detection_sizes detections) as [|v vs] eqn:Hsizes.
  { by destruct detections. }
  destruct (fold_fmin2_spec vs v Hnum) as [Hin Hmin].
  cbn [OnFloats.py_min bind]. set (m := fold_left fmin2 vs v) in *.
  assert (m ≠ NaN) as Hm.
  { by apply (proj1 (Forall_forall _ _) Hnum). }
  destruct (float_first_index_of_size_spec m (v :: vs) m Hin (feqb_refl m Hm))
    as (i & y & -> & Hy & Hym & Hbefore).
  cbn [bind]. rewrite <- Hsizes in *. rewrite float_sizes_lookup in Hy.
  destruct (detections !! i) as [d|] eqn:Hd; [|done].
  injection Hy as <-. exists i, d. do 2 (split; [done|]).
  intros j d' Hd'.
  assert (OnFloats.get_detection_sizes detections !! j
          = Some (OnFloats.box_area d')) as Hj.
  { by rewrite float_sizes_lookup, Hd'. }
  assert (fltb (OnFloats.box_area d') m = false) as Hle.
  { apply Hmin, list_elem_of_lookup. eauto. }
  split; [by rewrite (feqb_fltb_r _ _ _ Hym)|].
  intros Hlt. rewrite (feqb_fltb_l _ _ _ Hym).
  apply fltb_total; [| done | done | by apply (Hbefore j)].
  apply (proj1 (Forall_forall _ _) Hnum), list_elem_of_lookup. eauto.
Qed.

(** *** Boxes in floats *)

Lemma py_round_half_even q :
  (q - inject_Z (Qfloor q) == 1 # 2)%Q → Z.even (py_round q) = true.
Proof.
  intros Hhalf. unfold py_round.
  apply Qeq_alt in Hhalf. rewrite Hhalf.
  destruct (Z.even (Qfloor q)) eqn:E; [done|].
  by rewrite Z.even_add, E.
Qed.

Lemma float_mean_value detections field :
  detections ≠ [] →
  (∀ d, d ∈ detections → (Qabs (get_field field d) <= max_float)%Q) →
  OnFloats.aggregate_field_values detections field
  = Ok (Finite (b64 (field_mean detections field))).
Proof.
  intros Hne Hrange.
  destruct (aggregate_field_values_between detections field AVERAGE
              (- max_float) max_float Hne) as (r & Hr & Hlo & Hhi).
  { intros d Hd. by apply Qabs_Qle_condition, Hrange. }
  rewrite mean_value in Hr by done. injection Hr as <-.
  fold (field_mean detections field) in Hlo, Hhi.
  unfold OnFloats.aggregate_field_values, OnFloats.statistics_mean.
  destruct (get_field field <$> detections) as [|v vs] eqn:E.
  { by destruct detections. }
  rewrite <- E, length_fmap.
  change (fold_left Qplus (get_field field <$> detections) 0
          / inject_Z (Z.of_nat (length detections)))%Q
    with (field_mean detections field).
  rewrite of_Q_in_range; [done|]. by apply Qabs_Qle_condition.
Qed.

(** C8 (amended): on a non-empty group of boxes whose fields are finite
    floats, AVERAGE gives, for each of x, y, width and height, the mean as
    [statistics.mean] returns it, that is the exact mean rounded to the
    nearest float, rounded again to the nearest integer; MAX gives the whole
    box of the first member of largest area and MIN that of the first
    member of smallest area, the areas being the float products the code
    compares. *)
Theorem boxes_aggregation_by_mode detections (Hne : detections ≠ [])
    (Hfloat : ∀ d field, d ∈ detections →
                (Qabs (get_field field d) <= max_float)%Q) :
  (OnFloats.AGGREGATION_MODE2BOXES_AGGREGATOR AVERAGE detections
   = Ok (Int (py_round (b64 (field_mean detections F_x))),
         Int (py_round (b64 (field_mean detections F_y))),
         Int (py_round (b64 (field_mean detections F_width))),
         Int (py_round (b64 (field_mean detections F_height))))
   ∧ ∀ field,
       (inject_Z (py_round (b64 (field_mean detections field)))
        - b64 (field_mean detections field) <= 1 # 2)%Q
       ∧ (b64 (field_mean detections field)
          - inject_Z (py_round (b64 (field_mean detections field)))
          <= 1 # 2)%Q
       ∧ ((b64 (field_mean detections field)
           - inject_Z (Qfloor (b64 (field_mean detections field)))
           == 1 # 2)%Q →
          Z.even (py_round (b64 (field_mean detections field))) = true)
       ∧ (Qabs (b64 (field_mean detections field)
                - field_mean detections field)
          <= Qabs (field_mean detections field) * pow2 (-53)
             + pow2 (-1075))%Q)
  ∧ (∃ i d,
       OnFloats.AGGREGATION_MODE2BOXES_AGGREGATOR MAX detections
       = Ok (OnFloats.box_of d)
       ∧ detections !! i = Some d
       ∧ ∀ j d', detections !! j = Some d' →
           fltb (OnFloats.box_area d) (OnFloats.box_area d') = false
           ∧ (j < i →
              fltb (OnFloats.box_area d') (OnFloats.box_area d) = true))
  ∧ (∃ i d,
       OnFloats.AGGREGATION_MODE2BOXES_AGGREGATOR MIN detections
       = Ok (OnFloats.box_of d)
       ∧ detections !! i = Some d
       ∧ ∀ j d', detections !! j = Some d' →
           fltb (OnFloats.box_area d') (OnFloats.box_area d) = false
           ∧ (j < i →
              fltb (OnFloats.box_area d) (OnFloats.box_area d') = true)).
Proof.
  split; [split|split].
  - simpl. unfold OnFloats.get_average_bounding_box.
    rewrite !float_mean_value by (try done; intros d Hd; by apply Hfloat).
    done.
  - intros field. destruct (py_round_spec (b64 (field_mean detections field))).
    do 2 (split; [done|]). split; [apply py_round_half_even | apply b64_nearby].
  - by apply float_largest_bounding_box_spec.
  - by apply float_smallest_bounding_box_spec.
Qed.

(** *** The IoU in floats *)

Lemma to_float_cases a :
  match to_float a with
  | Ok f => match a with Int _ => ∃ q, f = Finite q | Float g => f = g end
  | Raise e => e = OverflowError
  end.
Proof.
  destruct a as [z|f]; simpl; [|done].
  pose proof (of_Q_not_NaN (inject_Z z)).
  destruct (of_Q (inject_Z z)); [eauto | done | done].
Qed.

Lemma arith_cases on_int on_float a b :
  match arith on_int on_float a b with
  | Ok (Int z) => ∃ x y, a = Int x ∧ b = Int y ∧ z = on_int x y
  | Ok (Float f) =>
      ∃ fa fb, to_float a = Ok fa ∧ to_float b = Ok fb ∧ f = on_float fa fb
  | Raise e => e = OverflowError
  end.
Proof.
  unfold arith.
  destruct a as [x|fa], b as [y|fb]; first by eauto.
  - pose proof (to_float_cases (Int x)) as Hx.
    destruct (to_float (Int x)) as [fx|]; [|done]. simpl. eauto.
  - pose proof (to_float_cases (Int y)) as Hy. simpl to_float at 1.
    cbn [bind]. destruct (to_float (Int y)) as [fy|]; [|done]. simpl. eauto.
  - simpl. eauto.
Qed.

(** X22: on floats [calculate_iou] can raise OverflowError and nothing
    else; it raises whenever the union cannot be computed; it returns 0
    when the union it computes is zero, and a float that is a number
    whenever that union is finite. *)
Theorem calculate_iou_on_floats xyxy a b :
  (∀ e, OnFloats.calculate_iou xyxy a b = Raise e → e = OverflowError)
  ∧ (∀ e, OnFloats.union_area xyxy a b = Raise e →
       OnFloats.calculate_iou xyxy a b = Raise e)
  ∧ ∀ u, OnFloats.union_area xyxy a b = Ok u →
      (feqb u (Finite 0) = true →
       OnFloats.calculate_iou xyxy a b = Ok (Finite 0))
      ∧ (∀ q, u = Finite q →
         ∃ v, OnFloats.calculate_iou xyxy a b = Ok v ∧ v ≠ NaN).
Proof.
  unfold OnFloats.calculate_iou, OnFloats.union_area.
  destruct (OnFloats.intersection_area xyxy a b) as [i|e0] eqn:Hi.
  2:{ cbn [bind]. split; [|split; [done|done]].
      intros e [= <-]. revert Hi. unfold OnFloats.intersection_area.
      destruct (xyxy a) as [[[a0 a1] a2] a3], (xyxy b) as [[[b0 b1] b2] b3].
      pose proof (arith_cases Z.sub fsub (min2 a2 b2) (max2 a0 b0)) as H1.
      fold sub in H1. destruct (sub (min2 a2 b2) (max2 a0 b0)) as [dx|];
        [|by intros [= <-]].
      pose proof (arith_cases Z.sub fsub (min2 a3 b3) (max2 a1 b1)) as H2.
      fold sub in H2. destruct (sub (min2 a3 b3) (max2 a1 b1)) as [dy|];
        [|by intros [= <-]].
      cbn [bind].
      pose proof (arith_cases Z.mul fmul (max2 (Int 0) dx) (max2 (Int 0) dy))
        as H3.
      fold mul in H3. destruct (mul _ _); [done | by intros [= <-]]. }
  cbn [bind OnFloats.get_detection_sizes fmap list_fmap].
  set (areas := fadd _ _).
  pose proof (arith_cases Z.sub fsub (Float areas) i) as Hd. fold sub in Hd.
  destruct (sub (Float areas) i) as [difference|e1]; cbn [bind].
  2:{ subst e1. split; [by intros e [= <-]|]. by split. }
  pose proof (to_float_cases difference) as Hu.
  destruct (to_float difference) as [u|e2]; cbn [bind].
  2:{ subst e2. split; [by intros e [= <-]|]. by split. }
  assert (∀ q, u = Finite q → feqb u (Finite 0) = false →
          ∃ v, truediv i (Float u) = Ok v ∧ v ≠ NaN) as Hdiv.
  { intros q -> Hnz.
    destruct difference as [z|f]; [by destruct Hd as (? & ? & ? & _)|].
    subst f. destruct Hd as (fa & fb & [= <-] & Hfb & Hq).
    unfold truediv. destruct i as [z|f].
    - rewrite Hfb. cbn [to_float bind]. rewrite Hnz.
      pose proof (to_float_cases (Int z)) as Hz. rewrite Hfb in Hz.
      destruct Hz as [p ->]. eexists; split; [done|]. apply of_Q_not_NaN.
    - injection Hfb as ->. cbn [to_float bind]. rewrite Hnz.
      eexists; split; [done|].
      destruct areas as [p| |], fb as [r|s|]; try done; try (by destruct s).
      apply of_Q_not_NaN. }
  split; [|split; [done|]].
  - intros e. destruct (feqb u (Finite 0)) eqn:Hz; [done|].
    destruct u as [q|s|].
    + destruct (Hdiv q eq_refl eq_refl) as (v & -> & _). done.
    + unfold truediv. pose proof (to_float_cases i) as Hi'.
      destruct i as [z|f].
      * destruct (to_float (Int z)) as [fz|]; [|by intros [= <-]].
        by cbn [to_float bind feqb].
      * by cbn [to_float bind feqb].
    + unfold truediv. pose proof (to_float_cases i) as Hi'.
      destruct i as [z|f].
      * destruct (to_float (Int z)) as [fz|]; [|by intros [= <-]].
        by cbn [to_float bind feqb].
      * by cbn [to_float bind feqb].
  - intros u' [= <-]. split.
    + by intros ->.
    + intros q ->. destruct (feqb (Finite q) (Finite 0)) eqn:Hz.
      * by exists (Finite 0).
      * by apply (Hdiv q).
Qed.

(** C9: on two boxes whose sides are the float 2^700 the areas overflow;
    with float corners [calculate_iou] returns NaN, with corners in whole
    pixels it raises OverflowError. *)
Theorem calculate_iou_of_huge_boxes :
  OnFloats.calculate_iou OnFloats.center_to_xyxy OnFloats.huge_box
    OnFloats.huge_box = Ok NaN
  ∧ OnFloats.calculate_iou OnFloats.whole_pixel_xyxy OnFloats.huge_box
      OnFloats.huge_box = Raise OverflowError.
Proof. split; vm_compute; reflexivity. Qed.

End FloatFacts.

(** ** The properties at sample inputs *)


Example max_overlap_tie_keeps_first :
  get_detections_from_different_sources_with_max_overlap center_to_xyxy
    cat_a 0 [[cat_a]; [cat_b; cat_b2]] (3 # 10) true ∅
  = Ok [(1, (cat_b, (16384 # 25600)%Q))].
Proof. vm_compute. reflexivity. Qed.

Example max_overlap_needs_strictly_more_than_threshold :
  get_detections_from_different_sources_with_max_overlap center_to_xyxy
    cat_a 0 [[cat_a]; [cat_b; cat_b2]] (64 # 100) true ∅
  = Ok [].
Proof. vm_compute. reflexivity. Qed.

Lemma votes_decide_acceptance_witness :
  (det_detection_id cat_a ∉ (∅ : gset string))
  ∧ ∃ m merged,
      get_detections_from_different_sources_with_max_overlap center_to_xyxy
        cat_a 0 [[cat_a]; [cat_b]] (3 # 10) true ∅ = Ok m
      ∧ merge_detections (cat_a :: (PyDict.values m).*1) AVERAGE AVERAGE
          (numbered_uuid4 0) = Ok merged
      ∧ NoDup (0 :: PyDict.keys m)
      ∧ length (cat_a :: (PyDict.values m).*1) = length (0 :: PyDict.keys m)
      ∧ ((Z.of_nat (length (PyDict.keys m)) < 2 - 1)%Z →
         get_consensus_for_single_detection center_to_xyxy numbered_uuid4
           cat_a 0 [[cat_a]; [cat_b]] (3 # 10) true 2 0 AVERAGE AVERAGE ∅ 0
         = Ok ([], ∅, 0))
      ∧ ((2 - 1 <= Z.of_nat (length (PyDict.keys m)))%Z →
         (2 <= Z.of_nat (length (0%nat :: PyDict.keys m)))%Z
         ∧ get_consensus_for_single_detection center_to_xyxy numbered_uuid4
             cat_a 0 [[cat_a]; [cat_b]] (3 # 10) true 2 0 AVERAGE AVERAGE ∅ 0
           = Ok (if Qltb (det_confidence merged) 0 then ([], ∅, 1)
                 else ([merged], mark_considered ∅ cat_a m, 1)))
      ∧ (2%Z = 1%Z →
         get_consensus_for_single_detection center_to_xyxy numbered_uuid4
           cat_a 0 [[cat_a]; [cat_b]] (3 # 10) true 2 0 AVERAGE AVERAGE ∅ 0
         = Ok (if Qltb (det_confidence merged) 0 then ([], ∅, 1)
               else ([merged], mark_considered ∅ cat_a m, 1))).
Proof.
  split; [apply not_elem_of_empty|].
  apply (votes_decide_acceptance center_to_xyxy numbered_uuid4).
  apply not_elem_of_empty.
Defined.

Example two_sources_agree :
  resolve_batch_consensus center_to_xyxy numbered_uuid4 [[cat_a]; [cat_b]]
    2 true (3 # 10) 0 None None MAX AVERAGE AVERAGE
  = Ok ("img", true, [("cat", (170 # 200)%Q)],
        [mkDetection "img" "merged-0" "cat" 0 (170 # 200) 5 5 9 9]).
Proof. vm_compute. reflexivity. Qed.

Example one_vote_short :
  resolve_batch_consensus center_to_xyxy numbered_uuid4 [[cat_a]; [dog_c]]
    2 true (3 # 10) 0 None None MAX AVERAGE AVERAGE
  = Ok ("img", false, [], []).
Proof. vm_compute. reflexivity. Qed.

Example single_vote_suffices :
  resolve_batch_consensus center_to_xyxy numbered_uuid4 [[cat_a]; [dog_c]]
    1 true (3 # 10) 0 None None MAX AVERAGE AVERAGE
  = Ok ("img", true, [("cat", (9 # 10)%Q); ("dog", (6 # 10)%Q)],
        [mkDetection "img" "merged-0" "cat" 0 (9 # 10) 5 5 10 10;
         mkDetection "img" "merged-1" "dog" 1 (6 # 10) 5 5 10 10]).
Proof. vm_compute. reflexivity. Qed.

(** C3 as stated fails: the group of [faint_cat] passes the vote, its
    merged confidence 1/10 is below the threshold 1/2, it is dropped, and
    the set of considered detections stays empty, so [faint_cat] is not
    marked. *)
Lemma dropped_group_is_not_marked :
  get_consensus_for_single_detection center_to_xyxy numbered_uuid4
    faint_cat 0 [[faint_cat]] (3 # 10) true 1 (1 # 2) AVERAGE AVERAGE ∅ 0
  = Ok ([], ∅, 1)
  ∧ det_detection_id faint_cat ∉ (∅ : gset string).
Proof. split; [vm_compute; reflexivity | apply not_elem_of_empty]. Qed.

Lemma low_confidence_group_is_dropped_witness :
  (det_detection_id faint_cat ∉ (∅ : gset string))
  ∧ (∃ m merged,
       get_detections_from_different_sources_with_max_overlap center_to_xyxy
         faint_cat 0 [[faint_cat]] (3 # 10) true ∅ = Ok m
       ∧ merge_detections (faint_cat :: (PyDict.values m).*1) AVERAGE AVERAGE
           (numbered_uuid4 0) = Ok merged
       ∧ ((1 - 1 <= Z.of_nat (length m))%Z →
          (det_confidence merged < 1 # 2)%Q →
          get_consensus_for_single_detection center_to_xyxy numbered_uuid4
            faint_cat 0 [[faint_cat]] (3 # 10) true 1 (1 # 2) AVERAGE AVERAGE
            ∅ 0 = Ok ([], ∅, 1)
          ∧ ∀ y, y ∈ faint_cat :: (PyDict.values m).*1 →
              det_detection_id y ∉ (∅ : gset string)))
  ∧ ∀ parent_id object_present presence_confidence consensus_detections,
      resolve_batch_consensus center_to_xyxy numbered_uuid4 [[faint_cat]]
        1 true (3 # 10) (1 # 2) None None MAX AVERAGE AVERAGE
      = Ok (parent_id, object_present, presence_confidence,
            consensus_detections) →
      Forall (λ merged, (1 # 2 <= det_confidence merged)%Q)
        consensus_detections.
Proof.
  split; [apply not_elem_of_empty|].
  apply (low_confidence_group_is_dropped center_to_xyxy numbered_uuid4).
  apply not_elem_of_empty.
Defined.

Lemma at_most_once_consumption_witness :
  ∃ log cons n,
    for_each
      (lineage_loop_body center_to_xyxy numbered_uuid4 (3 # 10) true 1 0
         AVERAGE AVERAGE [[cat_a]; [cat_b; cat_b2]])
      (enumerate_detections [[cat_a]; [cat_b; cat_b2]] None) ([], ∅, 0)
    = Ok (log, cons, n)
    ∧ lineages_disjoint log.*2.
Proof.
  destruct (at_most_once_consumption center_to_xyxy numbered_uuid4
              [[cat_a]; [cat_b; cat_b2]] 1 true (3 # 10) 0 None None MAX
              AVERAGE AVERAGE cat_a 0 ∅ 0)
    as (_ & _ & _ & log & cons & n & Hlog & _ & Hdis & _).
  exists log, cons, n. split; [exact Hlog | exact Hdis].
Defined.

Example lineage_of_a_tie :
  for_each
    (lineage_loop_body center_to_xyxy numbered_uuid4 (3 # 10) true 1 0
       AVERAGE AVERAGE [[cat_a]; [cat_b; cat_b2]])
    (enumerate_detections [[cat_a]; [cat_b; cat_b2]] None) ([], ∅, 0)
  = Ok ([(mkDetection "img" "merged-0" "cat" 0 (170 # 200) 5 5 9 9,
          [cat_a; cat_b]);
         (mkDetection "img" "merged-1" "cat" 0 (7 # 10) 5 5 8 8, [cat_b2])],
        {["a"; "b"; "b2"]}, 2).
Proof.
  match goal with
  | |- ?l = Ok (?log, ?cons, ?n) =>
      assert (∃ cons', l = Ok (log, cons', n)
                       ∧ bool_decide (cons' = cons) = true) as (c & -> & Hc)
  end.
  { eexists. split; [vm_compute; reflexivity | by vm_compute]. }
  apply bool_decide_eq_true in Hc. by rewrite Hc.
Qed.

(** A detection of a dropped group is free to join a later one: the group
    of [wide_a] averages 16/30 and is dropped; [left_b] then takes [wide_a]
    along. *)
Example dropped_member_joins_later_group :
  get_consensus_for_single_detection center_to_xyxy numbered_uuid4
    wide_a 0 [[wide_a]; [left_b]; [right_c]] (3 # 10) true 1 (7 # 10)
    AVERAGE AVERAGE ∅ 0 = Ok ([], ∅, 1)
  ∧ ∃ cons,
      for_each
        (lineage_loop_body center_to_xyxy numbered_uuid4 (3 # 10) true 1
           (7 # 10) AVERAGE AVERAGE [[wide_a]; [left_b]; [right_c]])
        (enumerate_detections [[wide_a]; [left_b]; [right_c]] None)
        ([], ∅, 0)
      = Ok ([(mkDetection "img" "merged-1" "cat" 0 (150 # 200) 4 5 8 10,
              [left_b; wide_a])], cons, 3).
Proof. split; [|eexists]; vm_compute; reflexivity. Qed.

(** C5 as stated fails: the only detection is filtered away, and the
    parent identifier of the result is that of the detection. *)
Lemma filtered_out_keeps_parent_id :
  filter_predictions [[dog_c]] (Some ["cat"]) = [[]]
  ∧ resolve_batch_consensus center_to_xyxy numbered_uuid4 [[dog_c]]
      1 true (3 # 10) 0 (Some ["cat"]) None MAX AVERAGE AVERAGE
    = Ok ("img", false, [], [])
  ∧ "img" ≠ "undefined".
Proof. split; [|split]; [vm_compute; reflexivity.. | done]. Qed.

Lemma empty_element_result_witness :
  concat [[dog_c]] ≠ []
  ∧ (∀ d, d ∈ concat [[dog_c]] → det_parent_id d = "img")
  ∧ (∀ detections,
       detections ∈ filter_predictions [[dog_c]] (Some ["cat"]) →
       detections = [])
  ∧ resolve_batch_consensus center_to_xyxy numbered_uuid4 [[dog_c]]
      1 true (3 # 10) 0 (Some ["cat"]) None MAX AVERAGE AVERAGE
    = Ok ("img", false, [], []).
Proof.
  assert (concat [[dog_c]] ≠ []) as H1 by done.
  assert (∀ d, d ∈ concat [[dog_c]] → det_parent_id d = "img") as H2.
  { intros d Hd. apply list_elem_of_singleton in Hd. by rewrite Hd. }
  assert (∀ detections,
            detections ∈ filter_predictions [[dog_c]] (Some ["cat"]) →
            detections = []) as H3.
  { intros ds Hds. change (ds ∈ [[]: list Detection]) in Hds.
    by apply list_elem_of_singleton in Hds. }
  do 3 (split; [assumption|]).
  exact (proj2 (empty_element_result center_to_xyxy numbered_uuid4 [[dog_c]]
                  1 true (3 # 10) 0 (Some ["cat"]) None MAX AVERAGE AVERAGE)
           "img" H1 H2 H3).
Defined.

Example nothing_detected :
  resolve_batch_consensus center_to_xyxy numbered_uuid4 [[]; []]
    2 true (3 # 10) 0 None None MAX AVERAGE AVERAGE
  = Ok ("undefined", false, [], []).
Proof. reflexivity. Qed.

Lemma parent_id_must_agree_witness :
  cat_a ∈ concat [[cat_a]; [cat_other_image]]
  ∧ cat_other_image ∈ concat [[cat_a]; [cat_other_image]]
  ∧ det_parent_id cat_a ≠ det_parent_id cat_other_image
  ∧ get_parent_id_of_predictions_from_different_sources
      [[cat_a]; [cat_other_image]] = Raise ExecutionGraphError
  ∧ resolve_batch_consensus center_to_xyxy numbered_uuid4
      [[cat_a]; [cat_other_image]] 1 true (3 # 10) 0 None None MAX AVERAGE
      AVERAGE = Raise ExecutionGraphError.
Proof.
  assert (cat_a ∈ concat [[cat_a]; [cat_other_image]]) as H1.
  { simpl. apply elem_of_cons. by left. }
  assert (cat_other_image ∈ concat [[cat_a]; [cat_other_image]]) as H2.
  { simpl. apply elem_of_cons. right. apply elem_of_cons. by left. }
  assert (det_parent_id cat_a ≠ det_parent_id cat_other_image) as H3 by done.
  do 3 (split; [assumption|]).
  exact (proj1 (parent_id_must_agree center_to_xyxy numbered_uuid4
                  [[cat_a]; [cat_other_image]] 1 true (3 # 10) 0 None None MAX
                  AVERAGE AVERAGE) cat_a cat_other_image H1 H2 H3).
Defined.

Example shared_parent_id_is_returned :
  get_parent_id_of_predictions_from_different_sources [[cat_a]; []; [dog_c]]
  = Ok "img".
Proof. vm_compute. reflexivity. Qed.

(** C7 as stated fails: no class is named, so none falls short, and still
    the answer without merged detections is (False, {}). *)
Lemma empty_mapping_without_detections :
  (¬ ∃ c n, (c, n) ∈ ([] : list (string * Z))
            ∧ (Z.of_nat (length (of_class c [])) < n)%Z)
  ∧ check_objects_presence_in_consensus_predictions [] true MAX
      (Some (RequiredDict [])) = Ok (false, []).
Proof.
  split; [|reflexivity]. intros (c & n & Hin & _). by apply elem_of_nil in Hin.
Qed.

Lemma class_aware_presence_with_required_classes_witness :
  [cat_a; dog_c] ≠ []
  ∧ (∀ c n, (c, n) ∈ [("cat", 1%Z)] →
       (n <= Z.of_nat (length (of_class c [cat_a; dog_c])))%Z
       ∧ of_class c [cat_a; dog_c] ≠ [])
  ∧ ∃ presence_confidence,
      check_objects_presence_in_consensus_predictions [cat_a; dog_c] true MAX
        (Some (RequiredDict [("cat", 1%Z)])) = Ok (true, presence_confidence)
      ∧ NoDup (PyDict.keys presence_confidence)
      ∧ ∀ c, match of_class c [cat_a; dog_c] with
             | [] => PyDict.get presence_confidence c = None
             | l =>
                 ∃ v, aggregate_field_values l F_confidence MAX = Ok v
                      ∧ PyDict.get presence_confidence c = Some v
             end.
Proof.
  assert ([cat_a; dog_c] ≠ []) as H1 by done.
  assert (∀ c n, (c, n) ∈ [("cat", 1%Z)] →
            (n <= Z.of_nat (length (of_class c [cat_a; dog_c])))%Z
            ∧ of_class c [cat_a; dog_c] ≠ []) as H2.
  { intros c n Hin. apply list_elem_of_singleton in Hin.
    injection Hin as -> ->. split; [simpl; lia | done]. }
  do 2 (split; [assumption|]).
  exact (proj2 (class_aware_presence_with_required_classes [cat_a; dog_c] MAX
                  [("cat", 1%Z)] H1) H2).
Defined.

Example required_class_missing :
  check_objects_presence_in_consensus_predictions [cat_a; dog_c] true MAX
    (Some (RequiredDict [("cat", 1%Z); ("bird", 1%Z)])) = Ok (false, []).
Proof. reflexivity. Qed.

Example required_classes_present :
  check_objects_presence_in_consensus_predictions [cat_a; dog_c] true MAX
    (Some (RequiredDict [("cat", 1%Z)]))
  = Ok (true, [("cat", (9 # 10)%Q); ("dog", (6 # 10)%Q)]).
Proof. reflexivity. Qed.

(** Asking for zero detections of a class that has none stores an empty
    list under it, which the aggregation then cannot handle. *)
Example zero_count_of_absent_class :
  check_objects_presence_in_consensus_predictions [cat_a] true MAX
    (Some (RequiredDict [("dog", 0%Z)])) = Raise ValueError.
Proof. reflexivity. Qed.

(** C8 as stated fails: the mean of the x coordinates is 1/2 and AVERAGE
    gives 0. *)
Lemma average_box_is_rounded :
  OnFloats.AGGREGATION_MODE2BOXES_AGGREGATOR AVERAGE [box_at_0; box_at_1]
  = Ok (Binary64.Int 0, Binary64.Int 0, Binary64.Int 3, Binary64.Int 3)
  ∧ (field_mean [box_at_0; box_at_1] F_x == 1 # 2)%Q
  ∧ ¬ (0 == 1 # 2)%Q.
Proof. split; [|split]; [vm_compute; reflexivity.. | done]. Qed.

Example largest_box_is_a_whole_box :
  AGGREGATION_MODE2BOXES_AGGREGATOR MAX [box_at_0; box_at_1; left_b]
  = Ok (box_of left_b)
  ∧ AGGREGATION_MODE2BOXES_AGGREGATOR MIN [box_at_1; box_at_0; left_b]
    = Ok (box_of box_at_0).
Proof. split; reflexivity. Qed.

Lemma no_merged_detection_no_presence_witness :
  resolve_batch_consensus center_to_xyxy numbered_uuid4 [[cat_a]; [dog_c]]
    2 true (3 # 10) 0 None (Some (RequiredInt 0)) MIN AVERAGE AVERAGE
  = Ok ("img", false, [], [])
  ∧ false = false ∧ ([] : list (string * Q)) = [].
Proof.
  assert (resolve_batch_consensus center_to_xyxy numbered_uuid4
            [[cat_a]; [dog_c]] 2 true (3 # 10) 0 None (Some (RequiredInt 0))
            MIN AVERAGE AVERAGE = Ok ("img", false, [], [])) as H1
    by (vm_compute; reflexivity).
  split; [assumption|].
  exact (proj2 (no_merged_detection_no_presence center_to_xyxy numbered_uuid4
                  [[cat_a]; [dog_c]] 2 true (3 # 10) 0 None
                  (Some (RequiredInt 0)) MIN AVERAGE AVERAGE)
           "img" false [] H1).
Defined.

(** ** The further properties at sample inputs *)

Lemma aggregate_field_values_bounds_witness :
  [cat_a; cat_b] ≠ []
  ∧ (∀ d, d ∈ [cat_a; cat_b] →
       ((8 # 10) <= get_field F_confidence d <= (9 # 10))%Q)
  ∧ ∃ r, aggregate_field_values [cat_a; cat_b] F_confidence AVERAGE = Ok r
         ∧ ((8 # 10) <= r <= (9 # 10))%Q.
Proof.
  assert ([cat_a; cat_b] ≠ []) as H1 by done.
  assert (∀ d, d ∈ [cat_a; cat_b] →
            ((8 # 10) <= get_field F_confidence d <= (9 # 10))%Q) as H2.
  { intros d Hd.
    apply elem_of_cons in Hd as [->|Hd];
      [|apply list_elem_of_singleton in Hd as ->]; by vm_compute. }
  do 2 (split; [assumption|]).
  exact (proj1 (aggregate_field_values_bounds [cat_a; cat_b] F_confidence
                  AVERAGE (8 # 10) (9 # 10)) H1 H2).
Defined.

Lemma class_of_extreme_confidence_witness :
  [dog_c; cat_a; cat_b] ≠ []
  ∧ ∃ i d,
      AGGREGATION_MODE2CLASS_SELECTOR MAX [dog_c; cat_a; cat_b]
      = Ok (det_class d, det_class_id d)
      ∧ [dog_c; cat_a; cat_b] !! i = Some d
      ∧ ∀ j d', [dog_c; cat_a; cat_b] !! j = Some d' →
          (det_confidence d' <= det_confidence d)%Q
          ∧ (j < i → (det_confidence d' < det_confidence d)%Q).
Proof.
  assert ([dog_c; cat_a; cat_b] ≠ []) as H1 by done.
  split; [assumption|].
  exact (proj1 (class_of_extreme_confidence [dog_c; cat_a; cat_b] H1)).
Defined.

Lemma majority_class_is_first_most_frequent_witness :
  [dog_c; cat_a; cat_b] ≠ []
  ∧ ∃ i d,
      AGGREGATION_MODE2CLASS_SELECTOR AVERAGE [dog_c; cat_a; cat_b]
      = Ok (det_class d, det_class_id d)
      ∧ [dog_c; cat_a; cat_b] !! i = Some d
      ∧ (∀ j d', j < i → [dog_c; cat_a; cat_b] !! j = Some d' →
           det_class d' ≠ det_class d)
      ∧ ∀ j d', [dog_c; cat_a; cat_b] !! j = Some d' →
          length (of_class (det_class d') [dog_c; cat_a; cat_b])
          <= length (of_class (det_class d) [dog_c; cat_a; cat_b])
          ∧ (j < i →
             length (of_class (det_class d') [dog_c; cat_a; cat_b])
             < length (of_class (det_class d) [dog_c; cat_a; cat_b])).
Proof.
  assert ([dog_c; cat_a; cat_b] ≠ []) as H1 by done.
  split; [assumption|].
  exact (majority_class_is_first_most_frequent [dog_c; cat_a; cat_b] H1).
Defined.

Lemma merge_detections_provenance_witness :
  (∀ d, d ∈ [cat_a; cat_b] → ((8 # 10) <= det_confidence d <= (9 # 10))%Q)
  ∧ ∃ merged,
      merge_detections [cat_a; cat_b] AVERAGE AVERAGE "m" = Ok merged
      ∧ ((8 # 10) <= det_confidence merged <= (9 # 10))%Q.
Proof.
  assert (∀ d, d ∈ [cat_a; cat_b] →
            ((8 # 10) <= det_confidence d <= (9 # 10))%Q) as H1.
  { intros d Hd.
    apply elem_of_cons in Hd as [->|Hd];
      [|apply list_elem_of_singleton in Hd as ->]; by vm_compute. }
  split; [assumption|].
  destruct (proj1 (merge_detections_provenance cat_a [cat_b] AVERAGE AVERAGE
                     "m")) as (merged & Hmerged & _ & _ & _ & Hbounds).
  exists merged. split; [assumption|]. exact (Hbounds _ _ H1).
Defined.

Lemma more_votes_than_sources_witness :
  0 < length [[cat_a]; [cat_b]]
  ∧ (Z.of_nat (length [[cat_a]; [cat_b]]) < 3)%Z
  ∧ resolve_batch_consensus center_to_xyxy numbered_uuid4 [[cat_a]; [cat_b]]
      3 true (3 # 10) 0 None None MAX AVERAGE AVERAGE
    = Ok ("img", false, [], [])
  ∧ (∃ m,
       get_detections_from_different_sources_with_max_overlap center_to_xyxy
         cat_a 0 [[cat_a]; [cat_b]] (3 # 10) true ∅ = Ok m
       ∧ length m < length [[cat_a]; [cat_b]])
  ∧ ([] : list Detection) = [] ∧ false = false
  ∧ ([] : list (string * Q)) = [].
Proof.
  assert (0 < length [[cat_a]; [cat_b]]) as H1 by (simpl; lia).
  assert (Z.of_nat (length [[cat_a]; [cat_b]]) < 3)%Z as H2 by (simpl; lia).
  assert (resolve_batch_consensus center_to_xyxy numbered_uuid4
            [[cat_a]; [cat_b]] 3 true (3 # 10) 0 None None MAX AVERAGE
            AVERAGE = Ok ("img", false, [], [])) as H3
    by (vm_compute; reflexivity).
  do 3 (split; [assumption|]).
  destruct (more_votes_than_sources center_to_xyxy numbered_uuid4 cat_a 0
              [[cat_a]; [cat_b]] 3 true (3 # 10) 0 None None MAX AVERAGE
              AVERAGE ∅) as [Hm Hr].
  split; [exact (Hm H1) | exact (Hr H2 _ _ _ _ H3)].
Defined.

Lemma outputs_keep_parent_and_classes_witness :
  resolve_batch_consensus center_to_xyxy numbered_uuid4
    [[cat_a; dog_c]; [cat_b]] 2 true (3 # 10) 0 (Some ["cat"]) None MAX
    AVERAGE AVERAGE
  = Ok ("img", true, [("cat", (170 # 200)%Q)],
        [mkDetection "img" "merged-0" "cat" 0 (170 # 200) 5 5 9 9])
  ∧ mkDetection "img" "merged-0" "cat" 0 (170 # 200) 5 5 9 9
    ∈ [mkDetection "img" "merged-0" "cat" 0 (170 # 200) 5 5 9 9]
  ∧ "img" = "img"
  ∧ ∀ classes, Some ["cat"] = Some classes → "cat" ∈ classes.
Proof.
  assert (resolve_batch_consensus center_to_xyxy numbered_uuid4
            [[cat_a; dog_c]; [cat_b]] 2 true (3 # 10) 0 (Some ["cat"]) None
            MAX AVERAGE AVERAGE
          = Ok ("img", true, [("cat", (170 # 200)%Q)],
                [mkDetection "img" "merged-0" "cat" 0 (170 # 200) 5 5 9 9]))
    as H1 by (vm_compute; reflexivity).
  assert (mkDetection "img" "merged-0" "cat" 0 (170 # 200) 5 5 9 9
          ∈ [mkDetection "img" "merged-0" "cat" 0 (170 # 200) 5 5 9 9])
    as H2 by (by apply list_elem_of_singleton).
  do 2 (split; [assumption|]).
  exact (outputs_keep_parent_and_classes center_to_xyxy numbered_uuid4 _ _ _
           _ _ _ _ _ _ _ _ _ _ _ _ H1 H2).
Defined.

Lemma merged_identifiers_are_fresh_witness :
  resolve_batch_consensus_drawing center_to_xyxy numbered_uuid4 5
    [[cat_a; dog_c]; [cat_b; dog_c]] 1 true (3 # 10) 0 None None MAX AVERAGE
    AVERAGE
  = Ok ("img", true, [("cat", (170 # 200)%Q); ("dog", (120 # 200)%Q)],
        [mkDetection "img" "merged-5" "cat" 0 (170 # 200) 5 5 9 9;
         mkDetection "img" "merged-6" "dog" 1 (120 # 200) 5 5 10 10], 7)
  ∧ 5 <= 7
  ∧ ∃ ks, ["merged-5"; "merged-6"] = numbered_uuid4 <$> ks
          ∧ NoDup ks
          ∧ Forall (λ k, 5 <= k < 7) ks
          ∧ ((∀ i j, numbered_uuid4 i = numbered_uuid4 j → i = j) →
             NoDup ["merged-5"; "merged-6"]).
Proof.
  assert (resolve_batch_consensus_drawing center_to_xyxy numbered_uuid4 5
            [[cat_a; dog_c]; [cat_b; dog_c]] 1 true (3 # 10) 0 None None MAX
            AVERAGE AVERAGE
          = Ok ("img", true,
                [("cat", (170 # 200)%Q); ("dog", (120 # 200)%Q)],
                [mkDetection "img" "merged-5" "cat" 0 (170 # 200) 5 5 9 9;
                 mkDetection "img" "merged-6" "dog" 1 (120 # 200) 5 5 10 10],
                7)) as H1 by (vm_compute; reflexivity).
  split; [assumption|].
  exact (merged_identifiers_are_fresh center_to_xyxy numbered_uuid4 _ _ _ _ _
           _ _ _ _ _ _ _ _ _ _ _ H1).
Defined.

Lemma presence_without_class_awareness_witness :
  [cat_a; dog_c] ≠ []
  ∧ (1 ≤ Z.of_nat (length [cat_a; dog_c]))%Z
  ∧ ∃ v, aggregate_field_values [cat_a; dog_c] F_confidence MAX = Ok v
         ∧ check_objects_presence_in_consensus_predictions [cat_a; dog_c]
             false MAX (Some (RequiredInt 1))
           = Ok (true, [("any_object", v)]).
Proof.
  assert ([cat_a; dog_c] ≠ []) as H1 by done.
  assert (1 ≤ Z.of_nat (length [cat_a; dog_c]))%Z as H2 by (simpl; lia).
  do 2 (split; [assumption|]).
  exact (proj2 (presence_without_class_awareness [cat_a; dog_c] MAX
                  (Some (RequiredInt 1)) H1) H2).
Defined.

Lemma class_aware_presence_with_required_count_witness :
  [cat_a; dog_c] ≠ []
  ∧ (∀ m, Some (RequiredInt 3) ≠ Some (RequiredDict m))
  ∧ (Z.of_nat (length [cat_a; dog_c]) < 3)%Z
  ∧ check_objects_presence_in_consensus_predictions [cat_a; dog_c] true MAX
      (Some (RequiredInt 3))
    = Ok (false, []).
Proof.
  assert ([cat_a; dog_c] ≠ []) as H1 by done.
  assert (∀ m, Some (RequiredInt 3) ≠ Some (RequiredDict m)) as H2 by done.
  assert (Z.of_nat (length [cat_a; dog_c]) < 3)%Z as H3 by (simpl; lia).
  do 3 (split; [assumption|]).
  exact (proj1 (class_aware_presence_with_required_count [cat_a; dog_c] MAX
                  (Some (RequiredInt 3)) H1 H2) H3).
Defined.

Lemma reported_presence_is_backed_witness :
  check_objects_presence_in_consensus_predictions [cat_a; dog_c] true MAX
    None
  = Ok (true, [("cat", (9 # 10)%Q); ("dog", (6 # 10)%Q)])
  ∧ [cat_a; dog_c] ≠ []
  ∧ [("cat", (9 # 10)%Q); ("dog", (6 # 10)%Q)] ≠ []
  ∧ ∀ c v, (c, v) ∈ [("cat", (9 # 10)%Q); ("dog", (6 # 10)%Q)] →
      of_class c [cat_a; dog_c] ≠ []
      ∧ ∀ lo hi,
          (∀ d, d ∈ [cat_a; dog_c] → (lo <= det_confidence d <= hi)%Q) →
          (lo <= v <= hi)%Q.
Proof.
  assert (check_objects_presence_in_consensus_predictions [cat_a; dog_c] true
            MAX None
          = Ok (true, [("cat", (9 # 10)%Q); ("dog", (6 # 10)%Q)])) as H1
    by (vm_compute; reflexivity).
  split; [assumption|].
  exact (proj2 (reported_presence_is_backed _ _ _ _ _ _ H1) eq_refl).
Defined.

Lemma batch_sizes_are_validated_witness :
  (∀ s1 s2, s1 ∈ [[[cat_a]]; [[cat_b]]] → s2 ∈ [[[cat_a]]; [[cat_b]]] →
     length s1 = length s2)
  ∧ get_and_validate_batch_sizes [[[cat_a]]; [[cat_b]]] = Ok [1; 1]
  ∧ CoreVariant.get_and_validate_batch_sizes [[[cat_a]]; [[cat_b]]]
    = Ok [1; 1].
Proof.
  assert (∀ s1 s2, s1 ∈ [[[cat_a]]; [[cat_b]]] →
            s2 ∈ [[[cat_a]]; [[cat_b]]] → length s1 = length s2) as H1.
  { intros s1 s2 Hs1 Hs2.
    apply elem_of_cons in Hs1 as [->|Hs1];
      [|apply list_elem_of_singleton in Hs1 as ->];
      (apply elem_of_cons in Hs2 as [->|Hs2];
       [|apply list_elem_of_singleton in Hs2 as ->]); reflexivity. }
  split; [assumption|].
  exact (proj1 (batch_sizes_are_validated [[[cat_a]]; [[cat_b]]]) H1).
Defined.

Lemma run_locally_results_witness :
  run_locally center_to_xyxy numbered_uuid4 [[[cat_a]]; [[cat_b]]] ["meta"]
    2 true (3 # 10) 0 None None MAX AVERAGE AVERAGE 0
  = Ok ([mkConsensusResult string
           [mkDetection "img" "merged-0" "cat" 0 (170 # 200) 5 5 9 9]
           "img" true [("cat", (170 # 200)%Q)] "meta" "object-detection"], 1)
  ∧ [[[cat_a]]; [[cat_b]]] ≠ []
  ∧ ∀ s, s ∈ [[[cat_a]]; [[cat_b]]] → length s = 1.
Proof.
  assert (run_locally center_to_xyxy numbered_uuid4 [[[cat_a]]; [[cat_b]]]
            ["meta"] 2 true (3 # 10) 0 None None MAX AVERAGE AVERAGE 0
          = Ok ([mkConsensusResult string
                   [mkDetection "img" "merged-0" "cat" 0 (170 # 200) 5 5 9 9]
                   "img" true [("cat", (170 # 200)%Q)] "meta"
                   "object-detection"], 1)) as H1
    by (vm_compute; reflexivity).
  split; [assumption|].
  destruct (run_locally_results center_to_xyxy numbered_uuid4 _ _ _ _ _ _ _
              _ _ _ _ _ _ _ H1) as (Hne & Hlen & _).
  split; assumption.
Defined.

Lemma run_locally_rejects_bad_batches_witness :
  [[cat_a]] ∈ [[[cat_a]]; []]
  ∧ [] ∈ [[[cat_a]]; []]
  ∧ length [[cat_a]] ≠ length ([] : list (list Detection))
  ∧ run_locally center_to_xyxy numbered_uuid4 [[[cat_a]]; []] ["meta"]
      2 true (3 # 10) 0 None None MAX AVERAGE AVERAGE 0
    = Raise ExecutionGraphError.
Proof.
  assert ([[cat_a]] ∈ [[[cat_a]]; []]) as H1 by (apply elem_of_cons; by left).
  assert ([] ∈ [[[cat_a]]; []]) as H2
    by (apply elem_of_cons; right; by apply list_elem_of_singleton).
  assert (length [[cat_a]] ≠ length ([] : list (list Detection))) as H3
    by (simpl; lia).
  do 3 (split; [assumption|]).
  exact (proj2 (run_locally_rejects_bad_batches center_to_xyxy numbered_uuid4
                  [[[cat_a]]; []] ["meta"] 2 true (3 # 10) 0 None None MAX
                  AVERAGE AVERAGE 0) _ _ H1 H2 H3).
Defined.

Lemma run_locally_succeeds_witness :
  [[[cat_a]]; [[cat_b]]] ≠ []
  ∧ (∀ s, s ∈ [[[cat_a]]; [[cat_b]]] → length s = 1)
  ∧ 1 <= length ["meta"]
  ∧ (∀ i column k, i < 1 →
       Forall2 (λ (e : list (list Detection)) c, e !! i = Some c)
         [[[cat_a]]; [[cat_b]]] column →
       ∃ out,
         resolve_batch_consensus_drawing center_to_xyxy (λ _, "merged") k
           column 2 true (3 # 10) 0 None None MAX AVERAGE AVERAGE = Ok out)
  ∧ ∃ results n,
      run_locally center_to_xyxy (λ _, "merged") [[[cat_a]]; [[cat_b]]]
        ["meta"] 2 true (3 # 10) 0 None None MAX AVERAGE AVERAGE 0
      = Ok (results, n)
      ∧ length results = 1.
Proof.
  assert ([[[cat_a]]; [[cat_b]]] ≠ []) as H1 by done.
  assert (∀ s, s ∈ [[[cat_a]]; [[cat_b]]] → length s = 1) as H2.
  { intros s Hs.
    apply elem_of_cons in Hs as [->|Hs];
      [|apply list_elem_of_singleton in Hs as ->]; reflexivity. }
  assert (1 <= length ["meta"]) as H3 by (simpl; lia).
  assert (∀ i column k, i < 1 →
            Forall2 (λ (e : list (list Detection)) c, e !! i = Some c)
              [[[cat_a]]; [[cat_b]]] column →
            ∃ out,
              resolve_batch_consensus_drawing center_to_xyxy (λ _, "merged")
                k column 2 true (3 # 10) 0 None None MAX AVERAGE AVERAGE
              = Ok out) as H4.
  { intros i column k Hi Hcolumn.
    assert (i = 0) as -> by lia.
    inversion Hcolumn as [|e1 c1 l1 r1 Hc1 Hrest1]; subst.
    inversion Hrest1 as [|e2 c2 l2 r2 Hc2 Hrest2]; subst.
    inversion Hrest2; subst.
    injection Hc1 as <-. injection Hc2 as <-.
    eexists. vm_compute. reflexivity. }
  do 4 (split; [assumption|]).
  exact (run_locally_succeeds center_to_xyxy (λ _, "merged")
           [[[cat_a]]; [[cat_b]]] ["meta"] 2 true (3 # 10) 0 None None MAX
           AVERAGE AVERAGE 0 1 H1 H2 H3 H4).
Defined.

Lemma single_source_passes_through_witness :
  (1 ≤ 1)%Z
  ∧ NoDup (det_detection_id <$> [cat_a; faint_cat])
  ∧ resolve_batch_consensus center_to_xyxy numbered_uuid4
      [[cat_a; faint_cat]] 1 true (3 # 10) (1 # 2) None None MAX AVERAGE
      AVERAGE
    = Ok ("img", true, [("cat", (9 # 10)%Q)],
          [mkDetection "img" "merged-0" "cat" 0 (9 # 10) 5 5 10 10])
  ∧ ∃ kept,
      filter_predictions [[cat_a; faint_cat]] None = [kept]
      ∧ Forall2
          (λ d merged,
             det_parent_id merged = det_parent_id d
             ∧ det_class merged = det_class d
             ∧ det_class_id merged = det_class_id d
             ∧ (det_confidence merged == det_confidence d)%Q
             ∧ box_of merged
               = (inject_Z (py_round (det_x d)), inject_Z (py_round (det_y d)),
                  inject_Z (py_round (det_width d)),
                  inject_Z (py_round (det_height d))))
          (List.filter (λ d, negb (Qltb (det_confidence d) (1 # 2))) kept)
          [mkDetection "img" "merged-0" "cat" 0 (9 # 10) 5 5 10 10].
Proof.
  assert (1 ≤ 1)%Z as H1 by lia.
  assert (NoDup (det_detection_id <$> [cat_a; faint_cat])) as H2
    by (apply (bool_decide_unpack _); vm_compute; exact I).
  assert (resolve_batch_consensus center_to_xyxy numbered_uuid4
            [[cat_a; faint_cat]] 1 true (3 # 10) (1 # 2) None None MAX
            AVERAGE AVERAGE
          = Ok ("img", true, [("cat", (9 # 10)%Q)],
                [mkDetection "img" "merged-0" "cat" 0 (9 # 10) 5 5 10 10]))
    as H3 by (vm_compute; reflexivity).
  do 3 (split; [assumption|]).
  exact (single_source_passes_through center_to_xyxy numbered_uuid4
           [cat_a; faint_cat] 1 true (3 # 10) (1 # 2) None None MAX AVERAGE
           AVERAGE _ _ _ _ H1 H2 H3).
Defined.


Lemma take_static_crop_before_the_edge_witness :
  StaticCrop.crop_window 8 10 (1 # 10) (1 # 2) (1 # 2) (1 # 2)
  = (1, 4, 5, 4, -2, 2, 3, 6)%Z
  ∧ (0 <= 1 # 10)%Q ∧ (0 <= 1 # 2)%Q ∧ (1 # 2 <= 1)%Q ∧ (-2 < 0)%Z
  ∧ StaticCrop.shape1
      (StaticCrop.crop_value
         (StaticCrop.take_static_crop "numpy_object" StaticCrop.sample_image
            (1 # 10) (1 # 2) (1 # 2) (1 # 2) (8, 10) "id")) = 0.
Proof.
  assert (StaticCrop.crop_window 8 10 (1 # 10) (1 # 2) (1 # 2) (1 # 2)
          = (1, 4, 5, 4, -2, 2, 3, 6)%Z) as H1 by (vm_compute; reflexivity).
  assert (0 <= 1 # 10)%Q as H2 by (by vm_compute).
  assert (0 <= 1 # 2)%Q as H3 by (by vm_compute).
  assert (1 # 2 <= 1)%Q as H4 by (by vm_compute).
  assert (-2 < 0)%Z as H5 by lia.
  do 5 (split; [assumption|]).
  exact (proj1 (take_static_crop_before_the_edge "numpy_object"
                  StaticCrop.sample_image (1 # 10) (1 # 2) (1 # 2) (1 # 2)
                  (8, 10) "id" _ _ _ _ _ _ _ _ H1) H2 H3 H4 H5).
Defined.

Lemma take_static_crop_beyond_the_edge_witness :
  StaticCrop.crop_window 8 10 (9 # 10) (1 # 2) (1 # 2) (1 # 2)
  = (9, 4, 5, 4, 6, 2, 11, 6)%Z
  ∧ (0 ≤ 6 ≤ Z.of_nat 10)%Z ∧ (Z.of_nat 10 < 11)%Z
  ∧ Z.of_nat
      (StaticCrop.shape1
         (StaticCrop.crop_value
            (StaticCrop.take_static_crop "numpy_object"
               StaticCrop.sample_image (9 # 10) (1 # 2) (1 # 2) (1 # 2)
               (8, 10) "id")))
    = (Z.of_nat 10 - 6)%Z.
Proof.
  assert (StaticCrop.crop_window 8 10 (9 # 10) (1 # 2) (1 # 2) (1 # 2)
          = (9, 4, 5, 4, 6, 2, 11, 6)%Z) as H1 by (vm_compute; reflexivity).
  assert (0 ≤ 6 ≤ Z.of_nat 10)%Z as H2 by lia.
  assert (Z.of_nat 10 < 11)%Z as H3 by lia.
  do 3 (split; [assumption|]).
  exact (proj1 (take_static_crop_beyond_the_edge "numpy_object"
                  StaticCrop.sample_image (9 # 10) (1 # 2) (1 # 2) (1 # 2)
                  (8, 10) "id" _ _ _ _ _ _ _ _ H1) H2 H3).
Defined.

(** ** Floats at sample inputs *)

(** The floats nearest to 1/10 and 1/3, a tie between two floats, the
    smallest subnormal number, and the first value that overflows. *)
Example nearest_floats :
  Binary64.b64 (1 # 10) = (3602879701896397 # 36028797018963968)%Q
  ∧ Binary64.b64 (1 # 3) = (6004799503160661 # 18014398509481984)%Q
  ∧ Binary64.b64 (inject_Z (2 ^ 53 + 1)) = inject_Z (2 ^ 53)
  ∧ (Binary64.b64 (inject_Z (2 ^ 53 + 3)) == inject_Z (2 ^ 53 + 4))%Q
  ∧ Binary64.b64 (Binary64.pow2 (-1075)) = 0%Q
  ∧ (Binary64.b64 (3 * Binary64.pow2 (-1075)) == Binary64.pow2 (-1073))%Q
  ∧ Binary64.of_Q Binary64.max_float = Binary64.Finite Binary64.max_float
  ∧ Binary64.of_Q (Binary64.pow2 1024 - Binary64.pow2 970)
    = Binary64.Infinity false.
Proof. repeat split; vm_compute; reflexivity. Qed.

(** The mean of the floats 0.1 and 0.9 is above 1/2, the float nearest to
    it is 1/2, and AVERAGE gives 0 where rounding the exact mean would
    give 1. *)
Example average_rounds_twice :
  let a := mkDetection "img" "a" "cat" 0 (1 # 2) OnFloats.tenth 0 1 1 in
  let b := mkDetection "img" "b" "cat" 0 (1 # 2) OnFloats.nine_tenths 0 1 1 in
  OnFloats.AGGREGATION_MODE2BOXES_AGGREGATOR AVERAGE [a; b]
  = Ok (Binary64.Int 0, Binary64.Int 0, Binary64.Int 1, Binary64.Int 1)
  ∧ (1 # 2 < field_mean [a; b] F_x)%Q
  ∧ py_round (field_mean [a; b] F_x) = 1%Z.
Proof. repeat split; vm_compute; reflexivity. Qed.

Lemma boxes_aggregation_by_mode_witness :
  [box_at_0; box_at_1] ≠ []
  ∧ (∀ d field, d ∈ [box_at_0; box_at_1] →
       (Qabs (get_field field d) <= Binary64.max_float)%Q)
  ∧ OnFloats.AGGREGATION_MODE2BOXES_AGGREGATOR AVERAGE [box_at_0; box_at_1]
    = Ok (Binary64.Int
            (py_round (Binary64.b64 (field_mean [box_at_0; box_at_1] F_x))),
          Binary64.Int
            (py_round (Binary64.b64 (field_mean [box_at_0; box_at_1] F_y))),
          Binary64.Int
            (py_round
               (Binary64.b64 (field_mean [box_at_0; box_at_1] F_width))),
          Binary64.Int
            (py_round
               (Binary64.b64 (field_mean [box_at_0; box_at_1] F_height)))).
Proof.
  assert ([box_at_0; box_at_1] ≠ []) as H1 by done.
  assert (∀ d field, d ∈ [box_at_0; box_at_1] →
            (Qabs (get_field field d) <= Binary64.max_float)%Q) as H2.
  { intros d field Hd.
    apply elem_of_cons in Hd as [->|Hd];
      [|apply list_elem_of_singleton in Hd as ->];
      destruct field; by vm_compute. }
  do 2 (split; [assumption|]).
  exact (proj1 (proj1 (boxes_aggregation_by_mode [box_at_0; box_at_1] H1 H2))).
Defined.

(** In exact arithmetic the IoU of the huge box with itself is 1. *)
Example exact_iou_of_huge_boxes :
  ∃ v, calculate_iou center_to_xyxy OnFloats.huge_box OnFloats.huge_box = Ok v
       ∧ (v == 1)%Q.
Proof. eexists. split; [vm_compute; reflexivity | reflexivity]. Qed.

(** On ordinary boxes the floats give the IoU 0.64 of exact arithmetic,
    rounded; two boxes without area have IoU 0. *)
Example iou_of_ordinary_boxes :
  OnFloats.calculate_iou OnFloats.center_to_xyxy cat_a cat_b
  = Ok (Binary64.Finite (Binary64.b64 (64 # 100)))
  ∧ OnFloats.calculate_iou OnFloats.whole_pixel_xyxy cat_a cat_b
    = Ok (Binary64.Finite (Binary64.b64 (64 # 100)))
  ∧ OnFloats.calculate_iou OnFloats.center_to_xyxy point_p point_p
    = Ok (Binary64.Finite 0).
Proof. repeat split; vm_compute; reflexivity. Qed.

Lemma calculate_iou_on_floats_witness :
  OnFloats.union_area OnFloats.center_to_xyxy point_p point_p
  = Ok (Binary64.Finite 0)
  ∧ Binary64.feqb (Binary64.Finite 0) (Binary64.Finite 0) = true
  ∧ OnFloats.calculate_iou OnFloats.center_to_xyxy point_p point_p
    = Ok (Binary64.Finite 0).
Proof.
  assert (OnFloats.union_area OnFloats.center_to_xyxy point_p point_p
          = Ok (Binary64.Finite 0)) as H1 by (vm_compute; reflexivity).
  assert (Binary64.feqb (Binary64.Finite 0) (Binary64.Finite 0) = true) as H2
    by reflexivity.
  do 2 (split; [assumption|]).
  exact (proj1 (proj2 (proj2 (calculate_iou_on_floats OnFloats.center_to_xyxy
                                point_p point_p)) _ H1) H2).
Defined.
